(** * Wirecloud (FastAPI port): the HTTP helper layer

    A shallow embedding of [src/wirecloud/commons/utils/http.py]: the error
    response builder and its JSON, XML and plain text formatters, the request
    guards [authentication_required], [produces] and [consumes], the
    download helper [build_downloadfile_response] with its path sanitising
    loop, and the URL helpers [force_trailing_slash], [get_current_scheme],
    [get_current_domain], [iri_to_uri] and [get_relative_reverse_url].

    Conventions of the embedding.
    - A Python [str] is a [string]; its characters are the code points
      0..255.  Literals of the source are kept verbatim.
    - The paths of the download helper are the exception: [unquote] can
      produce any character, so there a [str] is the [string] of its UTF-8
      bytes.  The separators and the dots the helper looks for are ASCII
      and occur in no multi-byte sequence, so splitting, stripping,
      joining, replacing and comparing act on the bytes as they do on the
      characters.
    - A Python [dict] is an association list in insertion order with unique
      keys; [pydict.set] implements [d[k] = v].
    - Objects that the source mutates and shares (the [Request], the
      [context] dictionary) live in a heap and are passed by reference.
    - A function that may raise returns an [outcome]; effectful code runs
      in the state and error monad [M].
    - [os.path] is [posixpath]: the host is a POSIX system. *)

From Stdlib Require Import String Ascii ZArith List Lia Bool.
From stdpp Require Import gmap strings list.
From Stdlib Require Import DecimalString DecimalZ DecimalN DecimalPos DecimalFacts.

Set Warnings "-register-all".

Open Scope string_scope.
Open Scope list_scope.

(** ** Python string methods used by the source *)

Module pystr.

(** [s.split(sep)] for a one character separator. *)
Fixpoint split (sep : ascii) (s : string) : list string :=
  match s with
  | EmptyString => [""]
  | String c s' =>
      if Ascii.eqb c sep then "" :: split sep s'
      else match split sep s' with
           | [] => [String c ""]
           | h :: t => String c h :: t
           end
  end.

(** [sep.join(l)]. *)
Definition join (sep : string) (l : list string) : string :=
  String.concat sep l.

(** [s.lstrip(c)] for a one character set. *)
Fixpoint lstrip (c : ascii) (s : string) : string :=
  match s with
  | String c' s' => if Ascii.eqb c' c then lstrip c s' else s
  | EmptyString => ""
  end.

(** [s.rstrip(c)] for a one character set. *)
Fixpoint rstrip (c : ascii) (s : string) : string :=
  match s with
  | EmptyString => ""
  | String c' s' =>
      match rstrip c s' with
      | EmptyString => if Ascii.eqb c' c then "" else String c' ""
      | r => String c' r
      end
  end.

(** [s.replace(a, b)] for one character strings [a] and [b]. *)
Fixpoint replace (a b : ascii) (s : string) : string :=
  match s with
  | EmptyString => ""
  | String c s' => String (if Ascii.eqb c a then b else c) (replace a b s')
  end.

(** [c in s]. *)
Fixpoint contains (c : ascii) (s : string) : bool :=
  match s with
  | EmptyString => false
  | String c' s' => Ascii.eqb c' c || contains c s'
  end.

(** [s.startswith(p)]. *)
Definition startswith (p s : string) : bool := String.prefix p s.

(** [s.endswith(c)] for a one character string. *)
Fixpoint endswith (c : ascii) (s : string) : bool :=
  match s with
  | EmptyString => false
  | String c' EmptyString => Ascii.eqb c' c
  | String _ s' => endswith c s'
  end.

(** [s == c * len(s)]: every character of [s] is [c]. *)
Fixpoint all_char (c : ascii) (s : string) : bool :=
  match s with
  | EmptyString => true
  | String c' s' => Ascii.eqb c' c && all_char c s'
  end.

(** Truthiness of a string: [bool(s)]. *)
Definition nonempty (s : string) : bool :=
  match s with EmptyString => false | _ => true end.

(** [x in l] for a list of strings. *)
Definition mem (x : string) (l : list string) : bool :=
  existsb (String.eqb x) l.

End pystr.

(** ** [posixpath] *)

Module posixpath.

(** The constants [sep], [curdir] and [pardir]. *)
Definition sep : ascii := "/"%char.
Definition curdir : string := ".".
Definition pardir : string := "..".

(** [posixpath.splitdrive]: POSIX paths have no drive. *)
Definition splitdrive (p : string) : string * string := ("", p).

(** [p[:i], p[i:]] for [i = p.rfind('/') + 1]. *)
Fixpoint cut_after_last_sep (p : string) : string * string :=
  match p with
  | EmptyString => ("", "")
  | String c p' =>
      let (h, t) := cut_after_last_sep p' in
      if pystr.nonempty h then (String c h, t)
      else if Ascii.eqb c sep then (String c "", t)
      else ("", String c t)
  end.

(** [posixpath.split]. *)
Definition split (p : string) : string * string :=
  let (head, tail) := cut_after_last_sep p in
  if pystr.nonempty head && negb (pystr.all_char sep head)
  then (pystr.rstrip sep head, tail)
  else (head, tail).

(** [posixpath.join(a, b)]. *)
Definition join (a b : string) : string :=
  if pystr.startswith "/" b then b
  else if negb (pystr.nonempty a) || pystr.endswith sep a then a +:+ b
  else a +:+ "/" +:+ b.

(** One iteration of the component loop of [normpath]. *)
Definition normpath_step (initial_slashes : nat) (new_comps : list string)
    (comp : string) : list string :=
  if String.eqb comp "" || String.eqb comp curdir then new_comps
  else if negb (String.eqb comp pardir)
          || (Nat.eqb initial_slashes 0 && Nat.eqb (length new_comps) 0)
          || (negb (Nat.eqb (length new_comps) 0)
              && String.eqb (List.last new_comps "") pardir)
  then new_comps ++ [comp]
  else if negb (Nat.eqb (length new_comps) 0) then removelast new_comps
  else new_comps.

(** [posixpath.normpath]. *)
Definition normpath (path : string) : string :=
  if String.eqb path "" then curdir
  else
    let initial_slashes :=
      if pystr.startswith "/" path then
        if pystr.startswith "//" path && negb (pystr.startswith "///" path)
        then 2 else 1
      else 0 in
    let comps := pystr.split sep path in
    let new_comps := fold_left (normpath_step initial_slashes) comps [] in
    let path := pystr.join "/" new_comps in
    let path :=
      match initial_slashes with
      | 0 => path
      | 1 => "/" +:+ path
      | _ => "//" +:+ path
      end in
    if pystr.nonempty path then path else curdir.

End posixpath.

(** ** UTF-8 *)

Module utf8.

(** [lo <= c <= hi] for a byte [c]. *)
Definition byte_in (lo hi : N) (c : ascii) : bool :=
  let n := N_of_ascii c in (lo <=? n)%N && (n <=? hi)%N.

(** The bytes of U+FFFD, the replacement character. *)
Definition replacement : string :=
  String (ascii_of_N 239) (String (ascii_of_N 191) (String (ascii_of_N 189) "")).

(** What a lead byte announces: the number of bytes that follow it and the
    range of the first of them.  The ranges exclude the overlong forms,
    the surrogates and the code points above U+10FFFF. *)
Definition lead (c : ascii) : option (nat * (N * N)) :=
  let n := N_of_ascii c in
  if (194 <=? n)%N && (n <=? 223)%N then Some (1, (128, 191)%N)
  else if (n =? 224)%N then Some (2, (160, 191)%N)
  else if (n =? 237)%N then Some (2, (128, 159)%N)
  else if (225 <=? n)%N && (n <=? 239)%N then Some (2, (128, 191)%N)
  else if (n =? 240)%N then Some (3, (144, 191)%N)
  else if (n =? 244)%N then Some (3, (128, 143)%N)
  else if (241 <=? n)%N && (n <=? 243)%N then Some (3, (128, 191)%N)
  else None.

(** [b.decode('utf-8', 'replace')], the result given by its UTF-8 bytes:
    a well formed sequence is kept; a byte that starts none, and the
    longest prefix of a sequence that is cut short by a wrong byte or by
    the end of the input, become one replacement character each. *)
Fixpoint decode_replace (s : string) : string :=
  match s with
  | EmptyString => ""
  | String b0 r0 =>
      if byte_in 0 127 b0 then String b0 (decode_replace r0)
      else
        match lead b0 with
        | None => replacement +:+ decode_replace r0
        | Some (more, (lo, hi)) =>
            match r0 with
            | EmptyString => replacement
            | String b1 r1 =>
                if negb (byte_in lo hi b1) then replacement +:+ decode_replace r0
                else
                  match more with
                  | 1 => String b0 (String b1 (decode_replace r1))
                  | _ =>
                      match r1 with
                      | EmptyString => replacement
                      | String b2 r2 =>
                          if negb (byte_in 128 191 b2)
                          then replacement +:+ decode_replace r1
                          else
                            match more with
                            | 2 => String b0 (String b1 (String b2 (decode_replace r2)))
                            | _ =>
                                match r2 with
                                | EmptyString => replacement
                                | String b3 r3 =>
                                    if negb (byte_in 128 191 b3)
                                    then replacement +:+ decode_replace r2
                                    else String b0 (String b1 (String b2
                                           (String b3 (decode_replace r3))))
                                end
                            end
                      end
                  end
            end
        end
  end.

End utf8.

(** ** [urllib.parse.unquote] *)

Module urllib.

(** The value of a hexadecimal digit. *)
Definition hexval (c : ascii) : option N :=
  let n := N_of_ascii c in
  if (48 <=? n)%N && (n <=? 57)%N then Some (n - 48)%N
  else if (65 <=? n)%N && (n <=? 70)%N then Some (n - 55)%N
  else if (97 <=? n)%N && (n <=? 102)%N then Some (n - 87)%N
  else None.

(** [unquote_to_bytes(s)]: percent decoding.  A [%XX] escape with two
    hexadecimal digits becomes the byte with that value, any other [%] is
    kept. *)
Fixpoint unquote_to_bytes (s : string) : string :=
  match s with
  | EmptyString => ""
  | String c s' =>
      let keep := String c (unquote_to_bytes s') in
      if Ascii.eqb c "%"%char then
        match s' with
        | String h (String l rest) =>
            match hexval h, hexval l with
            | Some a, Some b => String (ascii_of_N (16 * a + b)) (unquote_to_bytes rest)
            | _, _ => keep
            end
        | _ => keep
        end
      else keep
  end.

(** What [unquote] makes of a run of ASCII characters: the bytes its
    escapes stand for, decoded as UTF-8 with replacement. *)
Definition unquote_run (run : string) : string :=
  utf8.decode_replace (unquote_to_bytes run).

(** The loop of [unquote] over the runs of ASCII characters of [s], with
    the run read so far: a run is decoded on its own and the characters
    outside of ASCII, given by their bytes, are kept as they are. *)
Fixpoint unquote_runs (run s : string) : string :=
  match s with
  | EmptyString => unquote_run run
  | String c s' =>
      if utf8.byte_in 0 127 c then unquote_runs (run +:+ String c "") s'
      else unquote_run run +:+ String c (unquote_runs "" s')
  end.

(** [unquote(s)], that is [unquote(s, encoding='utf-8', errors='replace')]. *)
Definition unquote (s : string) : string :=
  if negb (pystr.contains "%"%char s) then s else unquote_runs "" s.

End urllib.


(** ** Python values, dictionaries and exceptions *)

(** The data that travels in [details] and in a [context] dictionary. *)
Inductive pyval : Type :=
| PNone
| PBool (b : bool)
| PInt (z : Z)
| PStr (s : string)
| PList (l : list pyval)
| PDict (d : list (string * pyval)).

(** The exceptions the code can raise. *)
Inductive exn : Type :=
| ValueError (msg : string)
| TypeError (msg : string)
| KeyError (key : string)
| AttributeError (msg : string)
| UnicodeEncodeError (msg : string)
| Exception (msg : string).

(** A result or a raised exception. *)
Inductive outcome (A : Type) : Type :=
| Ok (a : A)
| Raise (e : exn).
Arguments Ok {A} a.
Arguments Raise {A} e.

(** A [dict] with string keys: association list in insertion order. *)
Module pydict.
Section Dict.
Context {V : Type}.

Fixpoint get (k : string) (d : list (string * V)) : option V :=
  match d with
  | [] => None
  | (k', v) :: d' => if String.eqb k' k then Some v else get k d'
  end.

(** [k in d]. *)
Definition mem (k : string) (d : list (string * V)) : bool :=
  match get k d with Some _ => true | None => false end.

(** [d[k] = v]: an existing key keeps its position. *)
Fixpoint set (k : string) (v : V) (d : list (string * V)) : list (string * V) :=
  match d with
  | [] => [(k, v)]
  | (k', v') :: d' =>
      if String.eqb k' k then (k, v) :: d' else (k', v') :: set k v d'
  end.

(** [d.update(other)]. *)
Definition update (d other : list (string * V)) : list (string * V) :=
  fold_left (fun acc kv => set (fst kv) (snd kv) acc) other d.

(** [list(d.keys())]. *)
Definition keys (d : list (string * V)) : list string := map fst d.

(** The invariant of a Python dictionary: no key occurs twice. *)
Definition wf (d : list (string * V)) : Prop := List.NoDup (keys d).

End Dict.
End pydict.

(** [l.remove(x)] on a list of strings: drops the first occurrence, raises
    [ValueError] when there is none. *)
Fixpoint list_remove (x : string) (l : list string) : outcome (list string) :=
  match l with
  | [] => Raise (ValueError "list.remove(x): x not in list")
  | y :: l' =>
      if String.eqb y x then Ok l'
      else match list_remove x l' with
           | Ok r => Ok (y :: r)
           | Raise e => Raise e
           end
  end.

(** ** Objects and the heap *)

Definition loc := positive.

(** [starlette.requests.Request]: the raw header list (names in lower case,
    as ASGI delivers them) and the attributes set on the object. *)
Record Request : Type := mkRequest {
  req_headers : list (string * string);
  req_attrs : list (string * string)
}.

(** [starlette.responses.Response] and [FileResponse]. *)
Inductive Response : Type :=
| mkResponse (content : string) (status_code : Z)
             (media_type : option string) (headers : list (string * string))
| FileResponse (path : string) (media_type : string).

(** The state the code reads and writes: request objects, dictionary
    objects, the regular files of the file system and the log of handler
    bodies that were started. *)
Record world : Type := mkWorld {
  w_requests : gmap loc Request;
  w_dicts : gmap loc (list (string * pyval));
  w_isfile : string -> bool;
  w_calls : list string
}.

(** Values passed to and returned by handlers. *)
Inductive arg : Type :=
| AData (v : pyval)
| AObject (name : string)
| ARequest (l : loc)
| AResponse (r : Response)
| ACoroutine (c : world -> outcome arg * world).

(** ** The state and error monad *)

Definition M (A : Type) : Type := world -> outcome A * world.

(** Return, raise, sequencing, and a pure fallible step. *)
Definition ret {A} (a : A) : M A := fun w => (Ok a, w).
Definition raise {A} (e : exn) : M A := fun w => (Raise e, w).
Definition bind {A B} (m : M A) (k : A -> M B) : M B :=
  fun w => match m w with
           | (Ok a, w') => k a w'
           | (Raise e, w') => (Raise e, w')
           end.
Definition lift {A} (o : outcome A) : M A := fun w => (o, w).

Notation "'let*' x ':=' c 'in' k" := (bind c (fun x => k))
  (at level 10, x pattern, c at level 100, k at level 200).
Notation "c ';;' k" := (bind c (fun _ => k))
  (at level 100, k at level 200, right associativity).

(** Chaining of pure fallible steps. *)
Definition obind {A B} (o : outcome A) (k : A -> outcome B) : outcome B :=
  match o with Ok a => k a | Raise e => Raise e end.

(** [s.encode('latin-1')] for a [str] given by its UTF-8 bytes, which is
    how a response encodes the value of a header: a character below U+0100
    becomes one byte, any other raises. *)
Fixpoint encode_latin1 (s : string) : outcome string :=
  match s with
  | EmptyString => Ok ""
  | String b0 r0 =>
      let n := N_of_ascii b0 in
      if (n <? 128)%N then obind (encode_latin1 r0) (fun t => Ok (String b0 t))
      else
        match r0 with
        | String b1 r1 =>
            if ((n =? 194)%N || (n =? 195)%N) && utf8.byte_in 128 191 b1
            then obind (encode_latin1 r1) (fun t =>
                 Ok (String (ascii_of_N (N_of_ascii b1 + 64 * (n - 194))) t))
            else Raise (UnicodeEncodeError "'latin-1' codec can't encode character")
        | EmptyString =>
            Raise (UnicodeEncodeError "'latin-1' codec can't encode character")
        end
  end.

(** ** Libraries the source calls

    [mimeparser] is a module of this repository whose source is not part of
    the excerpt; the code below is parametric in its two entry points.
    [parse_mime_type] returns [None] where the module raises
    [InvalidMimeType]. *)
Class Mimeparser : Type := {
  best_match : list string -> string -> string;
  parse_mime_type : string -> option (string * list (string * string))
}.

(** What is needed of [lxml] and of the interpreter: the checks [lxml]
    applies to a tag name and to a text before it accepts them, and
    [repr] for values that are not strings. *)
Class Library : Type := {
  xml_name_ok : string -> bool;
  xml_text_ok : string -> bool;
  py_repr : pyval -> string
}.

(** [str(v)]. *)
Definition py_str `{Library} (v : pyval) : string :=
  match v with PStr s => s | _ => py_repr v end.

(** [isinstance(v, str)]. *)
Definition is_str (v : pyval) : bool :=
  match v with PStr _ => true | _ => false end.

(** [hasattr(v, '__iter__')]. *)
Definition has_iter (v : pyval) : bool :=
  match v with PStr _ | PList _ | PDict _ => true | _ => false end.

(** The values a [for] loop over [v] visits; iterating a dictionary visits
    its keys. *)
Definition py_iter (v : pyval) : outcome (list pyval) :=
  match v with
  | PList l => Ok l
  | PDict d => Ok (map (fun kv => PStr (fst kv)) d)
  | PStr s => Ok (map (fun c => PStr (String c "")) (list_ascii_of_string s))
  | _ => Raise (TypeError "object is not iterable")
  end.

(** [v[k]]. *)
Definition py_getitem (v k : pyval) : outcome pyval :=
  match v, k with
  | PDict d, PStr key =>
      match pydict.get key d with
      | Some x => Ok x
      | None => Raise (KeyError key)
      end
  | PDict _, _ => Raise (KeyError "")
  | PList l, PInt i =>
      let n := length l in
      let j := if (i <? 0)%Z then (i + Z.of_nat n)%Z else i in
      if (0 <=? j)%Z && (j <? Z.of_nat n)%Z
      then match nth_error l (Z.to_nat j) with
           | Some x => Ok x
           | None => Raise (Exception "IndexError")
           end
      else Raise (Exception "IndexError")
  | PList _, _ => Raise (TypeError "list indices must be integers or slices")
  | _, _ => Raise (TypeError "object is not subscriptable")
  end.

(** ** [lxml.etree] *)

Module etree.

(** An element: its tag, its text and its children. *)
Inductive element : Type :=
| Elem (tag : string) (text : option string) (children : list element).

Definition tag_of (e : element) : string :=
  match e with Elem t _ _ => t end.
Definition text_of (e : element) : option string :=
  match e with Elem _ x _ => x end.
Definition children_of (e : element) : list element :=
  match e with Elem _ _ c => c end.

(** [etree.Element(tag)] for a tag computed at run time. *)
Definition Element `{Library} (tag : pyval) : outcome element :=
  match tag with
  | PStr t =>
      if xml_name_ok t then Ok (Elem t None [])
      else Raise (ValueError "Invalid tag name")
  | _ => Raise (TypeError "Argument must be bytes or unicode")
  end.

(** [e.text = v]. *)
Definition set_text `{Library} (e : element) (v : pyval) : outcome element :=
  match e, v with
  | Elem t _ c, PNone => Ok (Elem t None c)
  | Elem t _ c, PStr s =>
      if xml_text_ok s then Ok (Elem t (Some s) c)
      else Raise (ValueError "All strings must be XML compatible")
  | _, _ => Raise (TypeError "Argument must be bytes or unicode")
  end.

(** [parent.append(child)]. *)
Definition append (parent child : element) : element :=
  match parent with Elem t x c => Elem t x (c ++ [child]) end.

Definition escape_char (c : ascii) : string :=
  let n := N_of_ascii c in
  if (n =? 38)%N then "&amp;"
  else if (n =? 60)%N then "&lt;"
  else if (n =? 62)%N then "&gt;"
  else if (n =? 13)%N || (128 <=? n)%N
  then "&#" +:+ NilZero.string_of_uint (N.to_uint n) +:+ ";"
  else String c "".

Fixpoint escape (s : string) : string :=
  match s with
  | EmptyString => ""
  | String c s' => escape_char c +:+ escape s'
  end.

(** [etree.tostring(e, pretty_print=False, method='xml')]. *)
Fixpoint tostring (e : element) : string :=
  match e with
  | Elem t None [] => "<" +:+ t +:+ "/>"
  | Elem t x c =>
      "<" +:+ t +:+ ">"
      +:+ match x with Some s => escape s | None => "" end
      +:+ String.concat "" (map tostring c)
      +:+ "</" +:+ t +:+ ">"
  end.

End etree.

(** ** [orjson] *)

Module json.

(** The double quote character. *)
Definition dquote : ascii := Eval cbv in ascii_of_N 34.

Definition hexdigit (n : N) : ascii :=
  if (n <? 10)%N then ascii_of_N (48 + n) else ascii_of_N (87 + n).

(** One character of a string literal as [orjson.dumps] writes it. *)
Definition escape_char (c : ascii) : string :=
  let n := N_of_ascii c in
  if (n =? 34)%N then String "\" (String dquote "")
  else if (n =? 92)%N then "\\"
  else if (n =? 8)%N then "\b"
  else if (n =? 9)%N then "\t"
  else if (n =? 10)%N then "\n"
  else if (n =? 12)%N then "\f"
  else if (n =? 13)%N then "\r"
  else if (n <? 32)%N
  then "\u00" +:+ String (hexdigit (n / 16)) (String (hexdigit (n mod 16)) "")
  else String c "".

Fixpoint escape (s : string) : string :=
  match s with
  | EmptyString => ""
  | String c s' => escape_char c +:+ escape s'
  end.

Definition quote : string := String dquote "".

Definition encode_str (s : string) : string := quote +:+ escape s +:+ quote.

Definition encode_int (z : Z) : string := NilZero.string_of_int (Z.to_int z).

(** The compact rendering of [orjson.dumps]. *)
Fixpoint encode (v : pyval) : string :=
  match v with
  | PNone => "null"
  | PBool true => "true"
  | PBool false => "false"
  | PInt z => encode_int z
  | PStr s => encode_str s
  | PList l =>
      "[" +:+ String.concat "," (map encode l) +:+ "]"
  | PDict d =>
      "{" +:+ String.concat ","
                (map (fun kv => encode_str (fst kv) +:+ ":" +:+ encode (snd kv)) d)
          +:+ "}"
  end.

(** [orjson] refuses integers outside of 64 bits. *)
Fixpoint serializable (v : pyval) : bool :=
  match v with
  | PInt z => (- 2 ^ 63 <=? z)%Z && (z <? 2 ^ 64)%Z
  | PList l => forallb serializable l
  | PDict d => forallb (fun kv => serializable (snd kv)) d
  | _ => true
  end.

(** [orjson.dumps(v).decode("utf-8")]. *)
Definition dumps (v : pyval) : outcome string :=
  if serializable v then Ok (encode v)
  else Raise (TypeError "Integer exceeds 64-bit range").

(** *** [json.loads], restricted to the values of [pyval]

    Numbers with a fraction or an exponent are outside of the model and
    are refused, as are [\u] escapes above code point 255. *)

Definition is_ws (c : ascii) : bool :=
  let n := N_of_ascii c in
  (n =? 32)%N || (n =? 9)%N || (n =? 10)%N || (n =? 13)%N.

Definition is_digit (c : ascii) : bool :=
  let n := N_of_ascii c in (48 <=? n)%N && (n <=? 57)%N.

Fixpoint skip_ws (s : string) : string :=
  match s with
  | String c s' => if is_ws c then skip_ws s' else s
  | EmptyString => ""
  end.

(** Reads one character of a string literal, plain or escaped. *)
Definition unescape_head (s : string) : option (ascii * string) :=
  match s with
  | EmptyString => None
  | String c r =>
      let n := N_of_ascii c in
      if (n =? 92)%N then
        match r with
        | EmptyString => None
        | String e r' =>
            let m := N_of_ascii e in
            if (m =? 34)%N then Some (dquote, r')
            else if (m =? 92)%N then Some (e, r')
            else if (m =? 47)%N then Some (e, r')
            else if (m =? 98)%N then Some (ascii_of_N 8, r')
            else if (m =? 102)%N then Some (ascii_of_N 12, r')
            else if (m =? 110)%N then Some (ascii_of_N 10, r')
            else if (m =? 114)%N then Some (ascii_of_N 13, r')
            else if (m =? 116)%N then Some (ascii_of_N 9, r')
            else if (m =? 117)%N then
              match r' with
              | String h3 (String h2 (String h1 (String h0 r''))) =>
                  match urllib.hexval h3, urllib.hexval h2,
                        urllib.hexval h1, urllib.hexval h0 with
                  | Some x3, Some x2, Some x1, Some x0 =>
                      let v := (4096 * x3 + 256 * x2 + 16 * x1 + x0)%N in
                      if (v <? 256)%N then Some (ascii_of_N v, r'') else None
                  | _, _, _, _ => None
                  end
              | _ => None
              end
            else None
        end
      else if (n <? 32)%N then None
      else Some (c, r)
  end.

(** The characters of a string literal up to its closing quote. *)
Fixpoint parse_chars (fuel : nat) (s : string) : option (string * string) :=
  match fuel with
  | 0 => None
  | S f =>
      match s with
      | EmptyString => None
      | String c r =>
          if Ascii.eqb c dquote then Some ("", r)
          else match unescape_head s with
               | Some (x, r') =>
                   match parse_chars f r' with
                   | Some (str, rest) => Some (String x str, rest)
                   | None => None
                   end
               | None => None
               end
      end
  end.

Fixpoint span_digits (s : string) : string * string :=
  match s with
  | String c r =>
      if is_digit c then let (d, rest) := span_digits r in (String c d, rest)
      else ("", s)
  | EmptyString => ("", "")
  end.

Definition starts_fraction (s : string) : bool :=
  match s with
  | String c _ =>
      let n := N_of_ascii c in (n =? 46)%N || (n =? 69)%N || (n =? 101)%N
  | EmptyString => false
  end.

Definition leading_zero (digits : string) : bool :=
  match digits with
  | String c (String _ _) => (N_of_ascii c =? 48)%N
  | _ => false
  end.

Definition parse_int (s : string) : option (Z * string) :=
  let (sign, body) :=
    match s with
    | String c r => if (N_of_ascii c =? 45)%N then ("-", r) else ("", s)
    | EmptyString => ("", s)
    end in
  let (digits, rest) := span_digits body in
  if negb (pystr.nonempty digits) || leading_zero digits || starts_fraction rest
  then None
  else match NilZero.int_of_string (sign +:+ digits) with
       | Some i => Some (Z.of_int i, rest)
       | None => None
       end.

(** [s] without its prefix [lit], when it has that prefix. *)
Fixpoint strip_prefix (lit s : string) : option string :=
  match lit with
  | EmptyString => Some s
  | String a lit' =>
      match s with
      | String b s' => if Ascii.eqb a b then strip_prefix lit' s' else None
      | EmptyString => None
      end
  end.

Definition expect (lit : string) (v : pyval) (s : string) : option (pyval * string) :=
  match strip_prefix lit s with
  | Some rest => Some (v, rest)
  | None => None
  end.

Fixpoint parse_value (fuel : nat) (s : string) : option (pyval * string) :=
  match fuel with
  | 0 => None
  | S f =>
      match skip_ws s with
      | EmptyString => None
      | String c r as s' =>
          let n := N_of_ascii c in
          if (n =? 34)%N then
            match parse_chars (String.length r) r with
            | Some (str, rest) => Some (PStr str, rest)
            | None => None
            end
          else if (n =? 91)%N then
            match skip_ws r with
            | String c' r' =>
                if (N_of_ascii c' =? 93)%N then Some (PList [], r')
                else match parse_elems f r with
                     | Some (l, rest) => Some (PList l, rest)
                     | None => None
                     end
            | EmptyString => None
            end
          else if (n =? 123)%N then
            match skip_ws r with
            | String c' r' =>
                if (N_of_ascii c' =? 125)%N then Some (PDict [], r')
                else match parse_members f [] r with
                     | Some (d, rest) => Some (PDict d, rest)
                     | None => None
                     end
            | EmptyString => None
            end
          else if (n =? 110)%N then expect "null" PNone s'
          else if (n =? 116)%N then expect "true" (PBool true) s'
          else if (n =? 102)%N then expect "false" (PBool false) s'
          else match parse_int s' with
               | Some (z, rest) => Some (PInt z, rest)
               | None => None
               end
      end
  end

with parse_elems (fuel : nat) (s : string) : option (list pyval * string) :=
  match fuel with
  | 0 => None
  | S f =>
      match parse_value f s with
      | Some (v, r) =>
          match skip_ws r with
          | String c r' =>
              if (N_of_ascii c =? 44)%N then
                match parse_elems f r' with
                | Some (vs, rest) => Some (v :: vs, rest)
                | None => None
                end
              else if (N_of_ascii c =? 93)%N then Some ([v], r')
              else None
          | EmptyString => None
          end
      | None => None
      end
  end

with parse_members (fuel : nat) (acc : list (string * pyval)) (s : string)
    : option (list (string * pyval) * string) :=
  match fuel with
  | 0 => None
  | S f =>
      match skip_ws s with
      | String q r =>
          if (N_of_ascii q =? 34)%N then
            match parse_chars (String.length r) r with
            | Some (k, r1) =>
                match skip_ws r1 with
                | String c r2 =>
                    if (N_of_ascii c =? 58)%N then
                      match parse_value f r2 with
                      | Some (v, r3) =>
                          let acc' := pydict.set k v acc in
                          match skip_ws r3 with
                          | String c' r4 =>
                              if (N_of_ascii c' =? 44)%N
                              then parse_members f acc' r4
                              else if (N_of_ascii c' =? 125)%N
                              then Some (acc', r4)
                              else None
                          | EmptyString => None
                          end
                      | None => None
                      end
                    else None
                | EmptyString => None
                end
            | None => None
            end
          else None
      | EmptyString => None
      end
  end.

(** [json.loads(s)]. *)
Definition loads (s : string) : option pyval :=
  match parse_value (S (String.length s)) s with
  | Some (v, rest) =>
      match skip_ws rest with
      | EmptyString => Some v
      | _ => None
      end
  | None => None
  end.

(** No key occurs twice in a list of keys. *)
Fixpoint uniq (l : list string) : bool :=
  match l with
  | [] => true
  | x :: l' => negb (pystr.mem x l') && uniq l'
  end.

(** The invariant of Python data: every dictionary has unique keys. *)
Fixpoint wf (v : pyval) : bool :=
  match v with
  | PList l => forallb wf l
  | PDict d => uniq (map fst d) && forallb (fun kv => wf (snd kv)) d
  | _ => true
  end.

(** The fuel [parse_value] needs to read back the rendering of a value. *)
Fixpoint cost (v : pyval) : nat :=
  match v with
  | PList l => S (fold_right (fun x acc => S (cost x + acc)) 0 l)
  | PDict d => S (fold_right (fun kv acc => S (cost (snd kv) + acc)) 0 d)
  | _ => 1
  end.

End json.
(** ** Access to the heap *)

(** The world with its request objects changed by [f]. *)
Definition set_requests (f : gmap loc Request -> gmap loc Request) (w : world) : world :=
  mkWorld (f (w_requests w)) (w_dicts w) (w_isfile w) (w_calls w).

(** The world with its dictionary objects changed by [f]. *)
Definition set_dicts
    (f : gmap loc (list (string * pyval)) -> gmap loc (list (string * pyval)))
    (w : world) : world :=
  mkWorld (w_requests w) (f (w_dicts w)) (w_isfile w) (w_calls w).

(** The world after the body of the function [name] was started. *)
Definition log_call (name : string) (w : world) : world :=
  mkWorld (w_requests w) (w_dicts w) (w_isfile w) (w_calls w ++ [name]).

(** [None]. *)
Definition ANone : arg := AData PNone.

(** [a is None]. *)
Definition is_none (a : arg) : bool :=
  match a with AData PNone => true | _ => false end.

(** [c.lower()] for one character. *)
Definition lower_char (c : ascii) : ascii :=
  let n := N_of_ascii c in
  if ((65 <=? n)%N && (n <=? 90)%N)
     || ((192 <=? n)%N && (n <=? 222)%N && negb (n =? 215)%N)
  then ascii_of_N (n + 32) else c.

(** [s.lower()]. *)
Fixpoint lower (s : string) : string :=
  match s with
  | EmptyString => ""
  | String c s' => String (lower_char c) (lower s')
  end.

(** [headers.get(name)]: names are compared in lower case and the first
    field of that name wins. *)
Definition headers_get (hs : list (string * string)) (name : string) : option string :=
  pydict.get (lower name) hs.

(** [headers.get(name, default)]. *)
Definition headers_get_default (hs : list (string * string)) (name default : string)
    : string :=
  match headers_get hs name with Some v => v | None => default end.

(** [request.headers]; on [None] the attribute access fails. *)
Definition request_headers (request : arg) : M (list (string * string)) :=
  fun w =>
    match request with
    | ARequest l =>
        match w_requests w !! l with
        | Some r => (Ok (req_headers r), w)
        | None => (Raise (AttributeError "headers"), w)
        end
    | _ => (Raise (AttributeError "headers"), w)
    end.

(** [setattr(request, name, value)]. *)
Definition request_setattr (request : arg) (name value : string) : M unit :=
  fun w =>
    match request with
    | ARequest l =>
        match w_requests w !! l with
        | Some r =>
            (Ok tt,
             set_requests
               (insert l (mkRequest (req_headers r)
                                    (pydict.set name value (req_attrs r)))) w)
        | None => (Raise (AttributeError name), w)
        end
    | _ => (Raise (AttributeError name), w)
    end.

(** [request.name] for an attribute set with [setattr]. *)
Definition request_getattr (request : arg) (name : string) : M string :=
  fun w =>
    match request with
    | ARequest l =>
        match w_requests w !! l with
        | Some r =>
            match pydict.get name (req_attrs r) with
            | Some v => (Ok v, w)
            | None => (Raise (AttributeError name), w)
            end
        | None => (Raise (AttributeError name), w)
        end
    | _ => (Raise (AttributeError name), w)
    end.

(** The dictionary object at [c]. *)
Definition read_dict (c : loc) : M (list (string * pyval)) :=
  fun w =>
    match w_dicts w !! c with
    | Some d => (Ok d, w)
    | None => (Raise (Exception "no such object"), w)
    end.

(** A new dictionary object: [{}]. *)
Definition new_dict : M loc :=
  fun w =>
    let c := fresh (dom (w_dicts w)) in
    (Ok c, set_dicts (insert c []) w).

(** [c.update(other)], in place. *)
Definition dict_update (c : loc) (other : list (string * pyval)) : M unit :=
  fun w =>
    match w_dicts w !! c with
    | Some d => (Ok tt, set_dicts (insert c (pydict.update d other)) w)
    | None => (Raise (Exception "no such object"), w)
    end.

(** [os.path.isfile(path)]. *)
Definition isfile (path : string) : M bool :=
  fun w => (Ok (w_isfile w path), w).

(** [context[k]]. *)
Definition context_item (context : list (string * pyval)) (k : string) : outcome pyval :=
  match pydict.get k context with
  | Some v => Ok v
  | None => Raise (KeyError k)
  end.

(** A [for] loop over [l] with loop state [s]. *)
Fixpoint for_each {A S : Type} (l : list A) (body : S -> A -> outcome S) (s : S)
    : outcome S :=
  match l with
  | [] => Ok s
  | x :: l' => obind (body s x) (for_each l' body)
  end.

(** [kwargs.get(k, default)]. *)
Definition kwargs_get (kwargs : list (string * arg)) (k : string) (default : arg) : arg :=
  match pydict.get k kwargs with Some v => v | None => default end.

(** A function that can be decorated: its name, the parameter names of its
    signature, whether it is a coroutine function, and its body. *)
Record pyfunc : Type := mkFunc {
  h_name : string;
  h_params : list string;
  h_async : bool;
  h_body : list arg -> list (string * arg) -> M arg
}.

(** Running the body of [h]; the start is logged. *)
Definition run_body (h : pyfunc) (args : list arg) (kwargs : list (string * arg))
    : M arg :=
  fun w => h_body h args kwargs (log_call (h_name h) w).

(** Calling [h] with [args] and [kwargs]: a coroutine function returns a
    coroutine and runs nothing yet. *)
Definition py_call (h : pyfunc) (args : list arg) (kwargs : list (string * arg))
    : M arg :=
  if h_async h then ret (ACoroutine (run_body h args kwargs))
  else run_body h args kwargs.

(** [await v]. *)
Definition await (v : arg) : M arg :=
  match v with
  | ACoroutine c => c
  | _ => raise (TypeError "object can't be used in 'await' expression")
  end.

(** [settings]: [None] where the module has no such attribute. *)
Record Settings : Type := mkSettings {
  USE_XSENDFILE : option bool
}.

(** ** [wirecloud.commons.utils.http] *)

Section Http.
Context `{Mimeparser} `{Library}.

(** The type of an error formatter:
    [formatter(request, mimetype, status_code, context)]. *)
Definition formatter : Type := arg -> string -> Z -> loc -> M string.

(** The body of the inner loop over a list-like value: one [<element>]
    child per visited value. *)
Definition xml_list_item (element : etree.element) (value : pyval)
    : outcome etree.element :=
  obind (etree.set_text (etree.Elem "element" None []) value) (fun list_element =>
  Ok (etree.append element list_element)).

(** The body of the loop of the last branch: one child named after
    [key2], holding [value[key2]]. *)
Definition xml_dict_item (value : pyval) (element : etree.element) (key2 : pyval)
    : outcome etree.element :=
  obind (etree.Element key2) (fun list_element =>
  obind (py_getitem value key2) (fun text =>
  obind (etree.set_text list_element text) (fun list_element =>
  Ok (etree.append element list_element)))).

(** The body of the loop over the keys of [details]. *)
Definition xml_details_item (details : pyval) (details_element : etree.element)
    (key : pyval) : outcome etree.element :=
  obind (etree.Element key) (fun element =>
  obind (py_getitem details key) (fun value =>
  obind (if is_str value then etree.set_text element value
         else if has_iter value then
           obind (py_iter value) (fun values =>
           for_each values xml_list_item element)
         else
           obind (py_iter value) (fun keys2 =>
           for_each keys2 (xml_dict_item value) element))
        (fun element =>
  Ok (etree.append details_element element)))).

(** The document built by [get_xml_error_response]. *)
Definition xml_error_doc (context : list (string * pyval)) : outcome etree.element :=
  let doc := etree.Elem "error" None [] in
  let description := etree.Elem "description" None [] in
  obind (context_item context "error_msg") (fun error_msg =>
  obind (etree.set_text description (PStr (py_str error_msg))) (fun description =>
  let doc := etree.append doc description in
  match pydict.get "details" context with
  | None | Some PNone => Ok doc
  | Some details =>
      let details_element := etree.Elem "details" None [] in
      obind (if is_str details then etree.set_text details_element details
             else obind (py_iter details) (fun keys =>
                  for_each keys (xml_details_item details) details_element))
            (fun details_element =>
      Ok (etree.append doc details_element))
  end)).

(** [get_xml_error_response] (lines 56-89): the serialised document. *)
Definition get_xml_error_response (request : arg) (mimetype : string)
    (status_code : Z) (context : loc) : M string :=
  let* d := read_dict context in
  lift (obind (xml_error_doc d) (fun doc => Ok (etree.tostring doc))).

(** The dictionary that [get_json_error_response] serialises. *)
Definition json_error_body (context : list (string * pyval)) : outcome pyval :=
  obind (context_item context "error_msg") (fun error_msg =>
  let body := [("description", PStr (py_str error_msg))] in
  match pydict.get "details" context with
  | None | Some PNone => Ok (PDict body)
  | Some details => Ok (PDict (pydict.set "details" details body))
  end).

(** [get_json_error_response] (lines 92-99). *)
Definition get_json_error_response (request : arg) (mimetype : string)
    (status_code : Z) (context : loc) : M string :=
  let* d := read_dict context in
  lift (obind (json_error_body d) json.dumps).

(** [get_plain_text_error_response] (lines 102-103): the message,
    formatted with [%s]. *)
Definition get_plain_text_error_response (request : arg) (mimetype : string)
    (status_code : Z) (context : loc) : M string :=
  let* d := read_dict context in
  lift (obind (context_item d "error_msg") (fun error_msg => Ok (py_str error_msg))).

(** [ERROR_FORMATTERS] (lines 106-113), in the order of the source. *)
Definition ERROR_FORMATTERS : list (string * formatter) :=
  [ ("application/json; charset=utf-8", get_json_error_response);
    ("application/xml; charset=utf-8", get_xml_error_response);
    ("text/plain; charset=utf-8", get_plain_text_error_response);
    ("", get_plain_text_error_response) ].

(** [response.headers[name] = value] for every entry of [headers]; a
    response keeps its header names in lower case. *)
Definition response_headers (headers : list (string * string))
    : list (string * string) :=
  fold_left (fun acc kv => pydict.set (lower (fst kv)) (snd kv) acc) headers [].

(** The content type [build_response] settles on. *)
Definition negotiate (hs : list (string * string))
    (formatters : list (string * formatter)) : outcome string :=
  if String.eqb (headers_get_default hs "X-Requested-With" "") "XMLHttpRequest"
  then Ok "application/json; charset=utf-8"
  else
    obind (list_remove "" (pydict.keys formatters)) (fun formatter_keys =>
    Ok (best_match formatter_keys (headers_get_default hs "Accept" "*/*"))).

(** [build_response] (lines 116-138). *)
Definition build_response (request : arg) (status_code : Z) (context : loc)
    (formatters : list (string * formatter))
    (headers : option (list (string * string))) : M Response :=
  let* hs := request_headers request in
  let* content_type := lift (negotiate hs formatters) in
  let* formatter :=
    match pydict.get content_type formatters with
    | Some f => ret f
    | None => raise (Exception "No suitable formatter found")
    end in
  let* body := formatter request content_type status_code context in
  let headers := match headers with Some h => h | None => [] end in
  ret (mkResponse body status_code (Some content_type) (response_headers headers)).

(** The formatter table [build_error_response] works with. *)
Definition merged_formatters (extra_formats : option (list (string * formatter)))
    : list (string * formatter) :=
  match extra_formats with
  | Some extra => pydict.update extra ERROR_FORMATTERS
  | None => ERROR_FORMATTERS
  end.

(** [build_error_response] (lines 141-155). *)
Definition build_error_response (request : arg) (status_code : Z)
    (error_msg : string) (extra_formats : option (list (string * formatter)))
    (headers : option (list (string * string))) (details : pyval)
    (context : option loc) : M Response :=
  let formatters := merged_formatters extra_formats in
  let* context :=
    match context with
    | Some c => ret c
    | None => new_dict
    end in
  dict_update context [("error_msg", PStr error_msg); ("details", details)] ;;
  build_response request status_code context formatters headers.

(** [get_content_type] (lines 158-166). *)
Definition get_content_type (request : arg)
    : M (string * list (string * string)) :=
  let* hs := request_headers request in
  match headers_get hs "Content-Type" with
  | Some content_type_header =>
      match parse_mime_type content_type_header with
      | Some r => ret r
      | None => ret ("", [])
      end
  | None => ret ("", [])
  end.

(** The shorthands of lines 169-182. *)
Definition build_not_found_response (request : arg) : M Response :=
  build_error_response request 404 "Page Not Found" None None PNone None.

Definition build_validation_error_response (request : arg) : M Response :=
  build_error_response request 422 "Invalid Payload" None None PNone None.

Definition build_auth_error_response (request : arg) : M Response :=
  build_error_response request 401 "Authentication Required" None None PNone None.

Definition build_permission_denied_response (request : arg) (error_msg : string)
    : M Response :=
  build_error_response request 403 error_msg None None PNone None.

(** [check_decorator_params] (lines 185-188): the first parameter that is
    declared neither plainly nor with an underscore raises. *)
Fixpoint check_decorator_params (handler : pyfunc) (params : list string)
    : outcome unit :=
  match params with
  | [] => Ok tt
  | param_name :: params' =>
      if negb (pystr.mem param_name (h_params handler))
         && negb (pystr.mem ("_" +:+ param_name) (h_params handler))
      then Raise (ValueError ("The handler must have a " +:+ param_name
                              +:+ " parameter"))
      else check_decorator_params handler params'
  end.

(** The tail shared by the three wrappers: await a coroutine function,
    call any other function directly. *)
Definition delegate (handler : pyfunc) (args : list arg)
    (kwargs : list (string * arg)) : M arg :=
  let is_async := h_async handler in
  if is_async
  then let* c := py_call handler args kwargs in await c
  else py_call handler args kwargs.

(** The function a decorator returns: [wraps] gives it the name and the
    signature of [handler], and it is a coroutine function. *)
Definition wrapped (handler : pyfunc)
    (body : list arg -> list (string * arg) -> M arg) : _ :=
  mkFunc (h_name handler) (h_params handler) true body.

(** The [wrapper] of [authentication_required] (lines 196-210). *)
Definition authentication_required_wrapper (handler : pyfunc)
    (args : list arg) (kwargs : list (string * arg)) : M arg :=
  let user := kwargs_get kwargs "user" (kwargs_get kwargs "_user" ANone) in
  let request := kwargs_get kwargs "request" (kwargs_get kwargs "_request" ANone) in
  if is_none user
  then let* r := build_error_response request 401 "Authentication Required"
                   None None PNone None in
       ret (AResponse r)
  else delegate handler args kwargs.

(** [authentication_required] (lines 191-212): the check, then the
    wrapper. *)
Definition authentication_required (handler : pyfunc) : outcome pyfunc :=
  obind (check_decorator_params handler ["user"; "request"]) (fun _ =>
  Ok (wrapped handler (authentication_required_wrapper handler))).

(** The message of the 406 answer (line 228). *)
Definition not_acceptable_msg : string :=
  "The requested resource is only capable of generating content not acceptable according to the Accept headers sent in the request".

(** The [wrapper] of [produces] (lines 220-237). *)
Definition produces_wrapper (mime_types : list string) (handler : pyfunc)
    (args : list arg) (kwargs : list (string * arg)) : M arg :=
  let request := kwargs_get kwargs "request" (kwargs_get kwargs "_request" ANone) in
  let* hs := request_headers request in
  let accept_header := headers_get_default hs "Accept" "*/*" in
  request_setattr request "best_response_mimetype"
    (best_match mime_types accept_header) ;;
  let* best_response_mimetype := request_getattr request "best_response_mimetype" in
  if String.eqb best_response_mimetype ""
  then
    let msg := not_acceptable_msg in
    let details := PDict [("supported_mime_types", PList (map PStr mime_types))] in
    let* r := build_error_response request 406 msg None None details None in
    ret (AResponse r)
  else delegate handler args kwargs.

(** [produces(mime_types)] applied to a handler (lines 215-241). *)
Definition produces (mime_types : list string) (handler : pyfunc) : outcome pyfunc :=
  obind (check_decorator_params handler ["request"]) (fun _ =>
  Ok (wrapped handler (produces_wrapper mime_types handler))).

(** The [wrapper] of [consumes] (lines 249-262). *)
Definition consumes_wrapper (mime_types : list string) (handler : pyfunc)
    (args : list arg) (kwargs : list (string * arg)) : M arg :=
  let request := kwargs_get kwargs "request" (kwargs_get kwargs "_request" ANone) in
  let* content_type := get_content_type request in
  request_setattr request "mimetype" (fst content_type) ;;
  let* mimetype := request_getattr request "mimetype" in
  if negb (pystr.mem mimetype mime_types)
  then
    let msg := "Unsupported request media type" in
    let* r := build_error_response request 415 msg None None PNone None in
    ret (AResponse r)
  else delegate handler args kwargs.

(** [consumes(mime_types)] applied to a handler (lines 244-266). *)
Definition consumes (mime_types : list string) (handler : pyfunc) : outcome pyfunc :=
  obind (check_decorator_params handler ["request"]) (fun _ =>
  Ok (wrapped handler (consumes_wrapper mime_types handler))).

(** The body of the loop of [build_downloadfile_response]. *)
Definition sanitize_step (newpath part : string) : string :=
  let '(drive, part) := posixpath.splitdrive part in
  let '(head, part) := posixpath.split part in
  if String.eqb part posixpath.curdir || String.eqb part posixpath.pardir
  then newpath
  else pystr.replace "\"%char "/"%char (posixpath.join newpath part).

(** [path] as the function normalises it before the loop. *)
Definition normalized_path (file_path : string) : string :=
  pystr.lstrip "/"%char (posixpath.normpath (urllib.unquote file_path)).

(** [newpath] after the loop over the components of [path]. *)
Definition reconstructed_path (path : string) : string :=
  fold_left sanitize_step (pystr.split "/"%char path) "".

(** [Response(status_code=status_code, headers={name: value})]: the value
    is encoded as Latin-1 when the response is made, which raises
    [UnicodeEncodeError] for a value with a character above U+00FF. *)
Definition header_response (status_code : Z) (name value : string) : M Response :=
  let* encoded := lift (encode_latin1 value) in
  ret (mkResponse "" status_code None (response_headers [(name, encoded)])).

(** [build_downloadfile_response] (lines 377-401); [settings] is the
    module the source imports.  [file_path] and [base_dir] are given by
    their UTF-8 bytes. *)
Definition build_downloadfile_response (settings : Settings) (request : arg)
    (file_path base_dir : string) : M Response :=
  let path := normalized_path file_path in
  let newpath := reconstructed_path path in
  if pystr.nonempty newpath && negb (String.eqb path newpath)
  then header_response 302 "Location" newpath
  else
    let fullpath := posixpath.join base_dir newpath in
    let* is_file := isfile fullpath in
    if negb is_file then build_not_found_response request
    else if negb (match USE_XSENDFILE settings with Some b => b | None => false end)
    then ret (FileResponse fullpath "application/octet-stream")
    else header_response 200 "X-Sendfile" fullpath.

End Http.

(** ** [wirecloud.commons.utils.mimeparser] *)

Module mimeparser.

(** Modelled from the spec: the module [mimeparser] is missing from the
    excerpt.  A MimeType is a type and a subtype plus an ordered mapping
    of parameter names to values. *)
Record MimeType : Type := mkMimeType {
  mt_type : string;
  mt_subtype : string;
  mt_params : list (string * string)
}.

(** Modelled from the spec: the white space around the parts of a header
    segment, a blank or a tab. *)
Definition is_blank (c : ascii) : bool :=
  let n := N_of_ascii c in (n =? 32)%N || (n =? 9)%N.

(** Modelled from the spec: a part without its leading white space. *)
Fixpoint lstrip (s : string) : string :=
  match s with
  | String c s' => if is_blank c then lstrip s' else s
  | EmptyString => ""
  end.

(** Modelled from the spec: a part without its trailing white space. *)
Fixpoint rstrip (s : string) : string :=
  match s with
  | EmptyString => ""
  | String c s' =>
      match rstrip s' with
      | EmptyString => if is_blank c then "" else String c ""
      | r => String c r
      end
  end.

(** Modelled from the spec: a part without the white space around it. *)
Definition strip (s : string) : string := rstrip (lstrip s).

(** Modelled from the spec: [s] cut at the first [sep]. *)
Fixpoint cut (sep : ascii) (s : string) : option (string * string) :=
  match s with
  | EmptyString => None
  | String c s' =>
      if Ascii.eqb c sep then Some ("", s')
      else match cut sep s' with
           | Some (a, b) => Some (String c a, b)
           | None => None
           end
  end.

(** Modelled from the spec: the parameters of a segment, [name=value]
    parts in their order; a later value of a name replaces the earlier. *)
Definition parse_params (parts : list string) : list (string * string) :=
  fold_left
    (fun acc p =>
       match cut "="%char p with
       | Some (k, v) => pydict.set (strip k) (strip v) acc
       | None => acc
       end)
    parts [].

(** Modelled from the spec: a segment is split on [;]; its first part is
    [type/subtype]; a segment with an empty type or subtype is malformed. *)
Definition parse (s : string) : option MimeType :=
  match pystr.split ";"%char s with
  | [] => None
  | full :: parts =>
      match cut "/"%char (strip full) with
      | Some (t, st) =>
          if pystr.nonempty (strip t) && pystr.nonempty (strip st)
          then Some (mkMimeType (strip t) (strip st) (parse_params parts))
          else None
      | None => None
      end
  end.

(** Modelled from the spec: the content type of a header value and its
    parameters; [None] stands for the error on a malformed value. *)
Definition parse_mime_type (s : string) : option (string * list (string * string)) :=
  match parse s with
  | Some m => Some (mt_type m +:+ "/" +:+ mt_subtype m, mt_params m)
  | None => None
  end.

(** Modelled from the spec: the value of a decimal digit of a quality. *)
Definition digit_val (c : ascii) : option N :=
  let n := N_of_ascii c in
  if (48 <=? n)%N && (n <=? 57)%N then Some (n - 48)%N else None.

(** Modelled from the spec: up to three decimals of a quality, as
    thousandths. *)
Definition parse_decimals (s : string) : option N :=
  match s with
  | EmptyString => Some 0%N
  | String a EmptyString =>
      match digit_val a with Some x => Some (100 * x)%N | None => None end
  | String a (String b EmptyString) =>
      match digit_val a, digit_val b with
      | Some x, Some y => Some (100 * x + 10 * y)%N
      | _, _ => None
      end
  | String a (String b (String c EmptyString)) =>
      match digit_val a, digit_val b, digit_val c with
      | Some x, Some y, Some z => Some (100 * x + 10 * y + z)%N
      | _, _, _ => None
      end
  | _ => None
  end.

(** Modelled from the spec: a quality weight in [[0,1]], here in
    thousandths; anything else is malformed. *)
Definition parse_quality (s : string) : option N :=
  match s with
  | String a rest =>
      match digit_val a with
      | Some i =>
          let frac :=
            match rest with
            | EmptyString => Some 0%N
            | String d ds => if Ascii.eqb d "."%char then parse_decimals ds else None
            end in
          match frac with
          | Some f =>
              let q := (1000 * i + f)%N in
              if (q <=? 1000)%N then Some q else None
          | None => None
          end
      | None => None
      end
  | EmptyString => None
  end.

(** Modelled from the spec: an AcceptEntry, the MimeType without its [q]
    and the quality. *)
Record AcceptEntry : Type := mkAcceptEntry {
  ae_mime : MimeType;
  ae_quality : N
}.

(** Modelled from the spec: the parameters other than [q], which are the
    matching constraints of an entry. *)
Definition without_q (ps : list (string * string)) : list (string * string) :=
  List.filter (fun kv => negb (String.eqb (fst kv) "q")) ps.

(** Modelled from the spec: one segment of an [Accept] header; the quality
    defaults to 1, a malformed segment is skipped. *)
Definition parse_accept_entry (seg : string) : option AcceptEntry :=
  match parse seg with
  | Some m =>
      match pydict.get "q" (mt_params m) with
      | None => Some (mkAcceptEntry m 1000%N)
      | Some qs =>
          match parse_quality qs with
          | Some q =>
              Some (mkAcceptEntry
                      (mkMimeType (mt_type m) (mt_subtype m) (without_q (mt_params m)))
                      q)
          | None => None
          end
      end
  | None => None
  end.

(** Modelled from the spec: the entries of the segments that are well
    formed, in their order. *)
Fixpoint parse_accept_segments (segs : list string) : list AcceptEntry :=
  match segs with
  | [] => []
  | seg :: segs' =>
      match parse_accept_entry seg with
      | Some e => e :: parse_accept_segments segs'
      | None => parse_accept_segments segs'
      end
  end.

(** Modelled from the spec: the [Accept] header split on [,]. *)
Definition parse_accept (header : string) : list AcceptEntry :=
  parse_accept_segments (pystr.split ","%char header).

(** Modelled from the spec: a type or a subtype matches when it is equal
    or when either side is the wildcard. *)
Definition part_matches (a b : string) : bool :=
  String.eqb a b || String.eqb a "*" || String.eqb b "*".

(** Modelled from the spec: type and subtype match exactly or through a
    wildcard, and every parameter of the entry is present and equal in
    the candidate. *)
Definition matches (cand : MimeType) (e : AcceptEntry) : bool :=
  part_matches (mt_type cand) (mt_type (ae_mime e))
  && part_matches (mt_subtype cand) (mt_subtype (ae_mime e))
  && forallb (fun kv =>
                match pydict.get (fst kv) (mt_params cand) with
                | Some v => String.eqb v (snd kv)
                | None => false
                end)
             (mt_params (ae_mime e)).

(** Modelled from the spec: full matches rank above subtype wildcards,
    these above full wildcards; then more matched parameters rank higher. *)
Definition specificity (cand : MimeType) (e : AcceptEntry) : nat * nat :=
  ((if String.eqb (mt_type cand) (mt_type (ae_mime e)) then 1 else 0)
   + (if String.eqb (mt_subtype cand) (mt_subtype (ae_mime e)) then 1 else 0),
   length (mt_params (ae_mime e))).

(** Modelled from the spec: the order of specificities, rank first, then
    the number of parameters. *)
Definition spec_lt (a b : nat * nat) : bool :=
  (fst a <? fst b)%nat || ((fst a =? fst b)%nat && (snd a <? snd b)%nat).

(** Modelled from the spec: a score, quality then specificity. *)
Definition score : Type := N * (nat * nat).

(** Modelled from the spec: the order of scores, quality first. *)
Definition score_lt (a b : score) : bool :=
  (fst a <? fst b)%N || ((fst a =? fst b)%N && spec_lt (snd a) (snd b)).

(** Modelled from the spec: the score of a candidate, that of its most
    specific matching entry. *)
Fixpoint candidate_score (cand : MimeType) (entries : list AcceptEntry)
    (best : option score) : option score :=
  match entries with
  | [] => best
  | e :: entries' =>
      let best' :=
        if matches cand e then
          let s := (ae_quality e, specificity cand e) in
          match best with
          | Some b => if spec_lt (snd b) (snd s) then Some s else best
          | None => Some s
          end
        else best in
      candidate_score cand entries' best'
  end.

(** Modelled from the spec: the best candidate so far; an equal score
    keeps the earlier one. *)
Fixpoint pick (entries : list AcceptEntry) (supported : list string)
    (best : option (string * score)) : option (string * score) :=
  match supported with
  | [] => best
  | c :: supported' =>
      let best' :=
        match parse c with
        | Some m =>
            match candidate_score m entries None with
            | Some s =>
                match best with
                | Some (_, b) => if score_lt b s then Some (c, s) else best
                | None => Some (c, s)
                end
            | None => best
            end
        | None => best
        end in
      pick entries supported' best'
  end.

(** Modelled from the spec: the supported type with the best score, the
    empty string when no candidate matches with a quality above zero. *)
Definition best_match (supported : list string) (header : string) : string :=
  match pick (parse_accept header) supported None with
  | Some (c, (q, _)) => if (q =? 0)%N then "" else c
  | None => ""
  end.

End mimeparser.

(** The parameters of the development instantiated with the model of
    [mimeparser] above. *)
Definition spec_mimeparser : Mimeparser :=
  {| best_match := mimeparser.best_match;
     parse_mime_type := mimeparser.parse_mime_type |}.

(** An instance of the library checks for ASCII data: a name is a letter or
    an underscore followed by letters, digits, [_], [-] and [.]; a text
    holds no control character besides tab, line feed and carriage return;
    [repr] is given for the scalars, and a placeholder stands for the
    text of a list or a dictionary, which no example prints. *)
Module ascii_library.

Definition is_letter (c : ascii) : bool :=
  let n := N_of_ascii c in
  ((65 <=? n)%N && (n <=? 90)%N) || ((97 <=? n)%N && (n <=? 122)%N)
  || (n =? 95)%N.

Definition is_name_char (c : ascii) : bool :=
  let n := N_of_ascii c in
  is_letter c || ((48 <=? n)%N && (n <=? 57)%N) || (n =? 45)%N || (n =? 46)%N.

Fixpoint all_chars (p : ascii -> bool) (s : string) : bool :=
  match s with
  | EmptyString => true
  | String c s' => p c && all_chars p s'
  end.

Definition name_ok (s : string) : bool :=
  match s with
  | String c s' => is_letter c && all_chars is_name_char s'
  | EmptyString => false
  end.

Definition text_char_ok (c : ascii) : bool :=
  let n := N_of_ascii c in
  (32 <=? n)%N || (n =? 9)%N || (n =? 10)%N || (n =? 13)%N.

Definition text_ok (s : string) : bool := all_chars text_char_ok s.

Definition repr (v : pyval) : string :=
  match v with
  | PNone => "None"
  | PBool true => "True"
  | PBool false => "False"
  | PInt z => json.encode_int z
  | PStr s => "'" +:+ s +:+ "'"
  | PList _ => "[...]"
  | PDict _ => "{...}"
  end.

End ascii_library.

Definition ascii_lib : Library :=
  {| xml_name_ok := ascii_library.name_ok;
     xml_text_ok := ascii_library.text_ok;
     py_repr := ascii_library.repr |}.

(** ** Notions used to state the properties *)

(** The contract of [mimeparser.best_match]: the result is one of the
    supported types, or the empty string. *)
Definition best_match_in_range `{Mimeparser} : Prop :=
  forall supported header,
    best_match supported header = ""
    \/ In (best_match supported header) supported.

(** The two entries [build_error_response] writes into the context. *)
Definition default_context (error_msg : string) (details : pyval)
    : list (string * pyval) :=
  [("error_msg", PStr error_msg); ("details", details)].

(** The world in which the dictionary object at [c] holds [d]. *)
Definition with_context (c : loc) (d : list (string * pyval)) (w : world) : world :=
  set_dicts (insert c d) w.

(** What the built-in formatter registered for [content_type] renders. *)
Definition render_error `{Library} (content_type : string)
    (context : list (string * pyval)) : outcome string :=
  if String.eqb content_type "application/json; charset=utf-8"
  then obind (json_error_body context) json.dumps
  else if String.eqb content_type "application/xml; charset=utf-8"
  then obind (xml_error_doc context) (fun doc => Ok (etree.tostring doc))
  else obind (context_item context "error_msg") (fun m => Ok (py_str m)).


(** [part] survives the loop: it is neither [.] nor [..]. *)
Definition kept (part : string) : bool :=
  negb (String.eqb part posixpath.curdir || String.eqb part posixpath.pardir).

(** A component as [normpath] leaves them: not empty, no separator of
    either kind. *)
Definition plain_component (part : string) : Prop :=
  part <> "" /\ pystr.contains "/"%char part = false
  /\ pystr.contains "\"%char part = false.

(** [np] extended by the joined components [j]. *)
Definition glue (np j : string) : string :=
  if pystr.nonempty np then (if pystr.nonempty j then np +:+ "/" +:+ j else np)
  else j.



(** ** A concrete world for the examples *)

(** A request that accepts plain text, stored at location 1, and a file
    system with the single regular file [/srv/files/etc/passwd]. *)
Definition demo_request : Request := mkRequest [("accept", "text/plain")] [].

Definition demo_world : world :=
  mkWorld {[ 1%positive := demo_request ]} ∅
    (fun p => String.eqb p "/srv/files/etc/passwd") [].

(** [handler] declares the parameter [name], with or without the leading
    underscore. *)
Definition declares (handler : pyfunc) (name : string) : bool :=
  pystr.mem name (h_params handler) || pystr.mem ("_" +:+ name) (h_params handler).

(** The request argument a wrapper looks up in its keyword arguments. *)
Definition request_of (kwargs : list (string * arg)) : arg :=
  kwargs_get kwargs "request" (kwargs_get kwargs "_request" ANone).

(** The user argument [authentication_required] looks up. *)
Definition user_of (kwargs : list (string * arg)) : arg :=
  kwargs_get kwargs "user" (kwargs_get kwargs "_user" ANone).

(** The request [r] with the attribute [name] set to [value]. *)
Definition with_attr (name value : string) (r : Request) : Request :=
  mkRequest (req_headers r) (pydict.set name value (req_attrs r)).

(** The world in which the request object at [l] is [r]. *)
Definition with_request (l : loc) (r : Request) (w : world) : world :=
  set_requests (insert l r) w.

(** The content type of a request without its parameters, the empty string
    when the header is missing or malformed. *)
Definition content_type_of `{Mimeparser} (r : Request) : string :=
  match headers_get (req_headers r) "Content-Type" with
  | Some header =>
      match parse_mime_type header with
      | Some parsed => fst parsed
      | None => ""
      end
  | None => ""
  end.

(** The route of [routes.py]: its name, its signature and its kind.  Its
    body queries the database, which is outside of the excerpt; it is
    modelled as returning an empty list. *)
Definition get_workspace_list_route : pyfunc :=
  mkFunc "get_workspace_list_route" ["db"; "user"] true
    (fun _ _ => ret (AData (PList []))).

(** Two handlers that declare what the guards need, one synchronous and one
    a coroutine function. *)
Definition sync_handler : pyfunc :=
  mkFunc "sync_handler" ["request"; "user"] false
    (fun _ _ => ret (AData (PStr "sync result"))).

Definition async_handler : pyfunc :=
  mkFunc "async_handler" ["_request"; "_user"] true
    (fun _ _ => ret (AData (PStr "async result"))).

(** A request with a JSON body, stored at location 1. *)
Definition json_request : Request :=
  mkRequest [("content-type", "application/json; charset=utf-8");
             ("accept", "application/json")] [].

Definition json_world : world :=
  mkWorld {[ 1%positive := json_request ]} ∅ (fun _ => false) [].

(** A formatter supplied by a caller: it renders a fixed text. *)
Definition custom_formatter : arg -> string -> Z -> loc -> M string :=
  fun _ _ _ _ => ret "custom rendering".

(** A world with a caller-owned context dictionary at location 7. *)
Definition caller_context : list (string * pyval) :=
  [("trace", PStr "t-42"); ("error_msg", PStr "stale")].

Definition context_world : world :=
  mkWorld {[ 1%positive := demo_request ]} {[ 7%positive := caller_context ]}
    (fun _ => false) [].

(** ** The XML document as a function of the details *)

(** A value that can become the text of an [<element>] child. *)
Definition xml_item_ok `{Library} (v : pyval) : bool :=
  match v with
  | PNone => true
  | PStr s => xml_text_ok s
  | _ => false
  end.

(** A value of the details mapping that the formatter renders without
    raising. *)
Definition xml_value_ok `{Library} (v : pyval) : bool :=
  match v with
  | PStr s => xml_text_ok s
  | PList l => forallb xml_item_ok l
  | PDict n => forallb (fun kv => xml_text_ok (fst kv)) n
  | _ => false
  end.

(** The [<element>] child made for one visited value. *)
Definition xml_element_of_item (v : pyval) : etree.element :=
  etree.Elem "element" (match v with PStr s => Some s | _ => None end) [].

(** The child of [<details>] made for one entry of the mapping. *)
Definition xml_entry (kv : string * pyval) : etree.element :=
  match snd kv with
  | PStr s => etree.Elem (fst kv) (Some s) []
  | PList l => etree.Elem (fst kv) None (map xml_element_of_item l)
  | PDict n =>
      etree.Elem (fst kv) None
        (map (fun kv' => etree.Elem "element" (Some (fst kv')) []) n)
  | _ => etree.Elem (fst kv) None []
  end.

(** The document for a message and the children of [<details>]. *)
Definition xml_document (error_msg : string) (details : option etree.element)
    : etree.element :=
  etree.Elem "error" None
    (etree.Elem "description" (Some error_msg) []
     :: match details with Some e => [e] | None => [] end).

(** [needle in hay]. *)
Fixpoint is_substring (needle hay : string) : bool :=
  String.prefix needle hay
  || match hay with
     | EmptyString => false
     | String _ hay' => is_substring needle hay'
     end.

(** The details [produces] attaches to its 406 answer. *)
Definition supported_details (mime_types : list string) : pyval :=
  PDict [("supported_mime_types", PList (map PStr mime_types))].

(** The [Accept] header of a request, with the default of the source. *)
Definition accept_of (r : Request) : string :=
  headers_get_default (req_headers r) "Accept" "*/*".

(** What may follow a number: the end of the text, or a character that is
    neither a digit nor the start of a fraction or an exponent. *)
Definition ends_number (rest : string) : bool :=
  match rest with
  | EmptyString => true
  | String c _ => negb (json.is_digit c) && negb (json.starts_fraction rest)
  end.

(** ** Notions used in the proof that the JSON rendering is read back *)

(** The first character of a rendering: not white space, and neither of
    the closing brackets. *)
Definition opens_value (s : string) : Prop :=
  exists c t,
    s = String c t /\ json.is_ws c = false
    /\ (N_of_ascii c =? 93)%N = false /\ (N_of_ascii c =? 125)%N = false.

(** The property proved by induction on the value. *)
Definition reads_back (v : pyval) : Prop :=
  json.wf v = true ->
  forall fuel rest,
    json.cost v <= fuel ->
    ends_number rest = true ->
    json.parse_value fuel (json.encode v +:+ rest) = Some (v, rest).

(** The fuel the elements of a list need. *)
Definition cost_elems (l : list pyval) : nat :=
  fold_right (fun x acc => S (json.cost x + acc)) 0 l.

(** The fuel the members of a dictionary need. *)
Definition cost_members (d : list (string * pyval)) : nat :=
  fold_right (fun kv acc => S (json.cost (snd kv) + acc)) 0 d.

(** The rendering of one member of a dictionary. *)
Definition encode_member (kv : string * pyval) : string :=
  json.encode_str (fst kv) +:+ ":" +:+ json.encode (snd kv).

(** ** The URL helpers of [http.py] *)

(** [str(n)] for an integer. *)
Definition int_str (z : Z) : string := NilZero.string_of_int (Z.to_int z).

(** [force_trailing_slash] (lines 283-284); [url[-1]] raises [IndexError]
    on the empty string. *)
Definition force_trailing_slash (url : string) : outcome string :=
  match url with
  | EmptyString => Raise (Exception "IndexError")
  | _ => if pystr.endswith "/"%char url then Ok url else Ok (url +:+ "/")
  end.

(** [request.url], a [starlette.datastructures.URL]: what reading
    [is_secure], [hostname] and [port] gives.  Each access parses the URL
    and can raise, as [port] does for a port that is no number; [hostname]
    and [port] are [None] when the URL names none. *)
Record URL : Type := mkURL {
  url_is_secure : outcome bool;
  url_hostname : outcome (option string);
  url_port : outcome (option Z)
}.

(** The settings the URL helpers read, [None] where the module has no such
    attribute or holds [None]; [FORCE_PORT] is an integer, on which [int]
    is the identity. *)
Record UrlSettings : Type := mkUrlSettings {
  FORCE_PROTO : option string;
  FORCE_DOMAIN : option string;
  FORCE_PORT : option Z
}.

(** [get_current_scheme] (lines 272-280).  The helpers read nothing of a
    request but its [url], so the optional request is given by that URL.
    The access to [is_secure] is not guarded: what it raises is raised. *)
Definition get_current_scheme (settings : UrlSettings) (request : option URL)
    : outcome string :=
  match FORCE_PROTO settings with
  | Some proto => Ok proto
  | None =>
      match request with
      | Some url =>
          obind (url_is_secure url) (fun is_secure =>
          Ok (if is_secure then "https" else "http"))
      | None => Ok "http"
      end
  end.

(** [read(request.url)] for a request that may be [None], on which the
    attribute access fails. *)
Definition request_url {A : Type} (request : option URL) (read : URL -> outcome A)
    : outcome A :=
  match request with
  | Some url => read url
  | None => Raise (AttributeError "'NoneType' object has no attribute 'url'")
  end.

(** [port != n] for a port that may be [None]. *)
Definition port_differs (port : option Z) (n : Z) : bool :=
  match port with Some p => negb (p =? n)%Z | None => true end.

(** [':%s' % port]. *)
Definition port_suffix (port : option Z) : string :=
  ":" +:+ match port with Some p => int_str p | None => "None" end.

(** [get_current_domain] (lines 287-316).  [getfqdn] is what
    [socket.getfqdn()] answers and the last argument is the module global
    [_servername]; the result comes with the new value of the global.
    The two [try] blocks catch every exception of the access they guard,
    that of a missing request and that of a URL that cannot be read
    alike. *)
Definition get_current_domain (settings : UrlSettings) (getfqdn : string)
    (request : option URL) (_servername : option string)
    : outcome (option string) * option string :=
  let '(servername, _servername) :=
    match FORCE_DOMAIN settings with
    | Some domain => (Some domain, _servername)
    | None =>
        match request_url request url_hostname with
        | Ok hostname => (hostname, _servername)
        | Raise _ =>
            let _servername :=
              match _servername with
              | None => Some getfqdn
              | Some name => Some name
              end in
            (_servername, _servername)
        end
    end in
  match get_current_scheme settings request with
  | Raise e => (Raise e, _servername)
  | Ok scheme =>
      let port :=
        match FORCE_PORT settings with
        | Some p => Some p
        | None =>
            match request_url request url_port with
            | Ok port => port
            | Raise _ => Some (if String.eqb scheme "http" then 80 else 443)%Z
            end
        end in
      if (String.eqb scheme "http" && port_differs port 80)
         || (String.eqb scheme "https" && port_differs port 443)
      then
        match servername with
        | Some name => (Ok (Some (name +:+ port_suffix port)), _servername)
        | None =>
            (Raise (TypeError
                      "unsupported operand type(s) for +: 'NoneType' and 'str'"),
             _servername)
        end
      else (Ok servername, _servername)
  end.

(** ** [urllib.parse.quote] *)

Module urlquote.

(** The bytes [quote] never escapes: letters, digits and [_.-~]. *)
Definition always_safe (b : N) : bool :=
  ((65 <=? b)%N && (b <=? 90)%N) || ((97 <=? b)%N && (b <=? 122)%N)
  || ((48 <=? b)%N && (b <=? 57)%N)
  || (b =? 95)%N || (b =? 46)%N || (b =? 45)%N || (b =? 126)%N.

(** The UTF-8 encoding of a code point below 256. *)
Definition utf8 (c : ascii) : list N :=
  let n := N_of_ascii c in
  if (n <? 128)%N then [n] else [(192 + n / 64)%N; (128 + n mod 64)%N].

(** An upper case hexadecimal digit. *)
Definition hex_upper (n : N) : ascii :=
  if (n <? 10)%N then ascii_of_N (48 + n) else ascii_of_N (55 + n).

(** A byte is kept when it is always safe or one of the ASCII characters
    of [safe]. *)
Definition is_safe (safe : string) (b : N) : bool :=
  always_safe b || ((b <? 128)%N && pystr.contains (ascii_of_N b) safe).

(** One byte as [quote] writes it: itself, or [%XX]. *)
Definition quote_byte (safe : string) (b : N) : string :=
  if is_safe safe b then String (ascii_of_N b) ""
  else String "%" (String (hex_upper (b / 16)) (String (hex_upper (b mod 16)) "")).

(** [quote(s, safe=safe)]. *)
Fixpoint quote (safe s : string) : string :=
  match s with
  | EmptyString => ""
  | String c s' =>
      String.concat "" (map (quote_byte safe) (utf8 c)) +:+ quote safe s'
  end.

End urlquote.

(** [iri_to_uri] (lines 358-359). *)
Definition iri_to_uri (iri : string) : string :=
  urlquote.quote "/#%[]=:;$&()+,!?*@'~" iri.

(** ** Reversing a URL pattern *)

(** [s.replace(old, new)] for a non-empty [old]: the occurrences are
    replaced from left to right and do not overlap; [skip] counts the
    characters of the occurrence just replaced that are still to drop. *)
Fixpoint replace_from (old new : string) (skip : nat) (s : string) : string :=
  match s with
  | EmptyString => ""
  | String c s' =>
      match skip with
      | S k => replace_from old new k s'
      | O =>
          if String.prefix old s
          then new +:+ replace_from old new (String.length old - 1) s'
          else String c (replace_from old new 0 s')
      end
  end.

Definition str_replace (old new s : string) : string := replace_from old new 0 s.

Section Reverse.
Context `{Library}.

(** The body of the loop of [get_relative_reverse_url] (lines 334-337):
    a [path] placeholder takes the value as it is, which must be a string,
    any other placeholder takes [str] of the value. *)
Definition reverse_step (url : string) (kv : string * pyval) : outcome string :=
  let key := fst kv in
  if is_substring ("{" +:+ (key +:+ ":path") +:+ "}") url
  then
    match snd kv with
    | PStr value => Ok (str_replace ("{" +:+ (key +:+ ":path") +:+ "}") value url)
    | _ => Raise (TypeError "replace() argument 2 must be str")
    end
  else Ok (str_replace ("{" +:+ key +:+ "}") (py_str (snd kv)) url).

(** [get_relative_reverse_url] (lines 325-339).  [patterns] maps the view
    names of [get_plugin_urls()] to their [urlpattern]. *)
Definition get_relative_reverse_url (patterns : list (string * string))
    (viewname : string) (kwargs : list (string * pyval)) : outcome string :=
  match pydict.get viewname patterns with
  | None =>
      Raise (ValueError ("No URL pattern found for view " +:+ json.quote
                         +:+ viewname +:+ json.quote))
  | Some url => for_each kwargs reverse_step url
  end.

End Reverse.

(** ** Notions used to state the properties of the URL helpers *)

(** The characters [iri_to_uri] leaves as they are. *)
Definition uri_char (c : ascii) : bool :=
  urlquote.is_safe "/#%[]=:;$&()+,!?*@'~" (N_of_ascii c).

(** Every character of [s] satisfies [p]. *)
Fixpoint all_chars (p : ascii -> bool) (s : string) : bool :=
  match s with
  | EmptyString => true
  | String c s' => p c && all_chars p s'
  end.

(** An ASCII character other than the percent sign. *)
Definition plain_ascii (c : ascii) : bool :=
  (N_of_ascii c <? 128)%N && negb (Ascii.eqb c "%"%char).

Lemma str_app_cons c s t : String c s +:+ t = String c (s +:+ t).
Proof. reflexivity. Qed.

Lemma str_app_nil_l s : "" +:+ s = s.
Proof. reflexivity. Qed.

Lemma str_app_nil_r s : s +:+ "" = s.
Proof. induction s as [|c s IH]; [reflexivity|]. rewrite str_app_cons, IH. reflexivity. Qed.

Lemma str_app_assoc s t u : (s +:+ t) +:+ u = s +:+ t +:+ u.
Proof. induction s as [|c s IH]; [reflexivity|]. rewrite !str_app_cons, IH. reflexivity. Qed.

Lemma contains_app c s t :
  pystr.contains c (s +:+ t) = pystr.contains c s || pystr.contains c t.
Proof.
  induction s as [|a s IH]; [reflexivity|].
  rewrite str_app_cons. simpl. rewrite IH. apply orb_assoc.
Qed.

Lemma split_nonnil sep s : pystr.split sep s <> [].
Proof.
  induction s as [|c s IH]; simpl; [discriminate|].
  destruct (Ascii.eqb c sep); [discriminate|].
  destruct (pystr.split sep s); [contradiction|discriminate].
Qed.



Lemma split_parts_no_sep sep s :
  Forall (fun p => pystr.contains sep p = false) (pystr.split sep s).
Proof.
  induction s as [|c s IH]; simpl.
  - constructor; [reflexivity|constructor].
  - destruct (Ascii.eqb c sep) eqn:E.
    + constructor; [reflexivity|exact IH].
    + destruct (pystr.split sep s) as [|h t]; inversion IH; subst.
      * constructor; [simpl; rewrite E; reflexivity|constructor].
      * constructor; [simpl; rewrite E; assumption|assumption].
Qed.


Lemma replace_no_source a b s :
  a <> b -> pystr.contains a (pystr.replace a b s) = false.
Proof.
  intros Hab. induction s as [|c s IH]; simpl; [reflexivity|].
  rewrite IH, orb_false_r.
  destruct (Ascii.eqb c a) eqn:E; [|exact E].
  apply Ascii.eqb_neq. congruence.
Qed.

Lemma replace_id a b s :
  pystr.contains a s = false -> pystr.replace a b s = s.
Proof.
  induction s as [|c s IH]; simpl; [reflexivity|].
  intros Hc. apply orb_false_iff in Hc as [Hc Hs].
  rewrite Hc, (IH Hs). reflexivity.
Qed.


Lemma cut_after_last_sep_no_sep p :
  pystr.contains posixpath.sep p = false ->
  posixpath.cut_after_last_sep p = ("", p).
Proof.
  induction p as [|c p IH]; simpl; [reflexivity|].
  intros Hc. apply orb_false_iff in Hc as [Hc Hp].
  rewrite (IH Hp). simpl. rewrite Hc. reflexivity.
Qed.

Lemma posix_split_no_sep p :
  pystr.contains posixpath.sep p = false -> posixpath.split p = ("", p).
Proof.
  intros Hp. unfold posixpath.split. rewrite (cut_after_last_sep_no_sep _ Hp).
  reflexivity.
Qed.

Lemma prefix_cons a s b t :
  String.prefix (String a s) (String b t)
  = if ascii_dec a b then String.prefix s t else false.
Proof. reflexivity. Qed.

Lemma startswith_sep p :
  pystr.startswith "/" p
  = match p with String c _ => Ascii.eqb c "/"%char | EmptyString => false end.
Proof.
  destruct p as [|c p]; [reflexivity|].
  unfold pystr.startswith. rewrite prefix_cons.
  destruct (ascii_dec "/" c) as [<-|Hne].
  - destruct p; reflexivity.
  - symmetry. apply Ascii.eqb_neq. congruence.
Qed.

Lemma startswith_sep_no_sep p :
  pystr.contains "/"%char p = false -> pystr.startswith "/" p = false.
Proof.
  rewrite startswith_sep. destruct p as [|c p]; [reflexivity|].
  simpl. intros Hc. apply orb_false_iff in Hc as [Hc _]. exact Hc.
Qed.



Lemma sanitize_step_no_sep np part :
  pystr.contains "/"%char part = false ->
  sanitize_step np part
  = if String.eqb part posixpath.curdir || String.eqb part posixpath.pardir
    then np
    else pystr.replace "\"%char "/"%char (posixpath.join np part).
Proof.
  intros Hp. unfold sanitize_step, posixpath.splitdrive.
  rewrite (posix_split_no_sep _ Hp). reflexivity.
Qed.



(** Whatever the components are, the reconstructed path holds no backslash. *)
Lemma sanitize_step_no_backslash np part :
  pystr.contains "\"%char np = false ->
  pystr.contains "\"%char (sanitize_step np part) = false.
Proof.
  intros Hnp. unfold sanitize_step, posixpath.splitdrive.
  destruct (posixpath.split part) as [head tail].
  destruct (_ || _); [assumption|].
  apply replace_no_source. discriminate.
Qed.

Lemma sanitize_loop_no_backslash parts : forall np,
  pystr.contains "\"%char np = false ->
  pystr.contains "\"%char (fold_left sanitize_step parts np) = false.
Proof.
  induction parts as [|part parts IH]; intros np Hnp; [exact Hnp|].
  simpl. apply IH, sanitize_step_no_backslash, Hnp.
Qed.

Lemma reconstructed_no_backslash path :
  pystr.contains "\"%char (reconstructed_path path) = false.
Proof. apply sanitize_loop_no_backslash. reflexivity. Qed.




Section ErrorResponse.
Context `{Mimeparser} `{Library}.

Lemma read_dict_at c d w :
  w_dicts w !! c = Some d -> read_dict c w = (Ok d, w).
Proof. intros E. unfold read_dict. rewrite E. reflexivity. Qed.

Lemma json_formatter_run request mimetype status_code c d w :
  w_dicts w !! c = Some d ->
  get_json_error_response request mimetype status_code c w
  = (obind (json_error_body d) json.dumps, w).
Proof.
  intros E. unfold get_json_error_response, bind, lift.
  rewrite (read_dict_at _ _ _ E). reflexivity.
Qed.

Lemma xml_formatter_run request mimetype status_code c d w :
  w_dicts w !! c = Some d ->
  get_xml_error_response request mimetype status_code c w
  = (obind (xml_error_doc d) (fun doc => Ok (etree.tostring doc)), w).
Proof.
  intros E. unfold get_xml_error_response, bind, lift.
  rewrite (read_dict_at _ _ _ E). reflexivity.
Qed.

Lemma plain_formatter_run request mimetype status_code c d w :
  w_dicts w !! c = Some d ->
  get_plain_text_error_response request mimetype status_code c w
  = (obind (context_item d "error_msg") (fun m => Ok (py_str m)), w).
Proof.
  intros E. unfold get_plain_text_error_response, bind, lift.
  rewrite (read_dict_at _ _ _ E). reflexivity.
Qed.

Lemma with_context_lookup c d w : w_dicts (with_context c d w) !! c = Some d.
Proof. unfold with_context, set_dicts. simpl. apply lookup_insert_eq. Qed.

Lemma build_response_live l r status_code c formatters headers w :
  w_requests w !! l = Some r ->
  build_response (ARequest l) status_code c formatters headers w
  = match negotiate (req_headers r) formatters with
    | Ok content_type =>
        match pydict.get content_type formatters with
        | Some f =>
            match f (ARequest l) content_type status_code c w with
            | (Ok body, w') =>
                (Ok (mkResponse body status_code (Some content_type)
                       (response_headers
                          (match headers with Some h => h | None => [] end))), w')
            | (Raise e, w') => (Raise e, w')
            end
        | None => (Raise (Exception "No suitable formatter found"), w)
        end
    | Raise e => (Raise e, w)
    end.
Proof.
  intros E. unfold build_response, bind, request_headers, lift, ret, raise.
  rewrite E. destruct (negotiate _ _) as [ct|e]; [|reflexivity].
  destruct (pydict.get ct formatters) as [f|]; [|reflexivity].
  destruct (f _ _ _ _ _) as [[body|e] w']; reflexivity.
Qed.

Lemma build_error_response_fresh l r status_code error_msg extra headers details w :
  w_requests w !! l = Some r ->
  build_error_response (ARequest l) status_code error_msg extra headers details None w
  = build_response (ARequest l) status_code (fresh (dom (w_dicts w)))
      (merged_formatters extra) headers
      (with_context (fresh (dom (w_dicts w))) (default_context error_msg details) w).
Proof.
  intros E. unfold build_error_response, bind, new_dict, dict_update.
  cbn [w_dicts set_dicts]. rewrite lookup_insert_eq.
  unfold with_context, set_dicts. cbn [w_dicts w_requests w_isfile w_calls].
  rewrite insert_insert_eq. reflexivity.
Qed.

Lemma build_error_response_given l r status_code error_msg extra headers details c d w :
  w_requests w !! l = Some r ->
  w_dicts w !! c = Some d ->
  build_error_response (ARequest l) status_code error_msg extra headers details
    (Some c) w
  = build_response (ARequest l) status_code c (merged_formatters extra) headers
      (with_context c (pydict.update d (default_context error_msg details)) w).
Proof.
  intros E Ed. unfold build_error_response, bind, ret, dict_update.
  rewrite Ed. reflexivity.
Qed.
End ErrorResponse.

Section Render.
Context `{Mimeparser} `{Library}.

Lemma builtin_formatter_run content_type f request status_code c d w :
  pydict.get content_type ERROR_FORMATTERS = Some f ->
  w_dicts w !! c = Some d ->
  f request content_type status_code c w = (render_error content_type d, w).
Proof.
  intros Hf Hd. unfold render_error. unfold ERROR_FORMATTERS in Hf. cbn [pydict.get] in Hf.
  rewrite (String.eqb_sym content_type "application/json; charset=utf-8").
  rewrite (String.eqb_sym content_type "application/xml; charset=utf-8").
  destruct (String.eqb "application/json; charset=utf-8" content_type).
  { inversion Hf; subst. apply json_formatter_run, Hd. }
  destruct (String.eqb "application/xml; charset=utf-8" content_type).
  { inversion Hf; subst. apply xml_formatter_run, Hd. }
  destruct (String.eqb "text/plain; charset=utf-8" content_type).
  { inversion Hf; subst. apply plain_formatter_run, Hd. }
  destruct (String.eqb "" content_type); [|discriminate].
  inversion Hf; subst. apply plain_formatter_run, Hd.
Qed.

Lemma negotiate_builtin hs :
  best_match_in_range ->
  exists content_type,
    negotiate hs ERROR_FORMATTERS = Ok content_type
    /\ In content_type (pydict.keys ERROR_FORMATTERS).
Proof.
  intros Hrange. unfold negotiate.
  destruct (String.eqb _ "XMLHttpRequest").
  { eexists; split; [reflexivity|]. simpl. auto. }
  cbn [pydict.keys ERROR_FORMATTERS map fst list_remove String.eqb Ascii.eqb
         Bool.eqb obind].
  eexists; split; [reflexivity|].
  destruct (Hrange ["application/json; charset=utf-8";
                    "application/xml; charset=utf-8";
                    "text/plain; charset=utf-8"]
              (headers_get_default hs "Accept" "*/*")) as [->|Hin].
  - simpl. auto.
  - simpl in *. intuition.
Qed.

Lemma builtin_key_formatter content_type :
  In content_type (pydict.keys ERROR_FORMATTERS) ->
  exists f, pydict.get content_type ERROR_FORMATTERS = Some f.
Proof.
  simpl. intros [<-|[<-|[<-|[<-|[]]]]]; eexists; reflexivity.
Qed.

(** An error response built with the default table and a context of its
    own, for a live request. *)
Lemma build_error_response_builtin l r status_code error_msg headers details w :
  best_match_in_range ->
  w_requests w !! l = Some r ->
  exists content_type,
    negotiate (req_headers r) ERROR_FORMATTERS = Ok content_type
    /\ In content_type (pydict.keys ERROR_FORMATTERS)
    /\ build_error_response (ARequest l) status_code error_msg None headers
         details None w
       = (match render_error content_type (default_context error_msg details) with
          | Ok body =>
              Ok (mkResponse body status_code (Some content_type)
                    (response_headers
                       (match headers with Some h => h | None => [] end)))
          | Raise e => Raise e
          end,
          with_context (fresh (dom (w_dicts w)))
            (default_context error_msg details) w).
Proof.
  intros Hrange Hl.
  destruct (negotiate_builtin (req_headers r) Hrange) as (ct & Hct & Hin).
  exists ct. split; [assumption|]. split; [assumption|].
  rewrite (build_error_response_fresh _ _ _ _ _ _ _ _ Hl).
  rewrite (build_response_live l r); [|exact Hl].
  simpl merged_formatters. rewrite Hct.
  destruct (builtin_key_formatter _ Hin) as [f Hf]. rewrite Hf.
  rewrite (builtin_formatter_run _ _ _ _ _ _ _ Hf (with_context_lookup _ _ _)).
  destruct (render_error _ _); reflexivity.
Qed.

Lemma render_error_no_details content_type error_msg :
  xml_text_ok error_msg = true ->
  exists body, render_error content_type (default_context error_msg PNone) = Ok body.
Proof.
  intros Hok. unfold render_error.
  destruct (String.eqb content_type "application/json; charset=utf-8").
  { eexists; reflexivity. }
  destruct (String.eqb content_type "application/xml; charset=utf-8").
  { unfold xml_error_doc, default_context. simpl. rewrite Hok. simpl.
    eexists; reflexivity. }
  eexists; reflexivity.
Qed.
End Render.

Lemma endswith_app_nonempty c s t :
  t <> "" -> pystr.endswith c (s +:+ t) = pystr.endswith c t.
Proof.
  intros Ht. induction s as [|a s IH]; [reflexivity|].
  rewrite str_app_cons. simpl. rewrite IH.
  destruct (s +:+ t) eqn:E; [|reflexivity].
  destruct s; [rewrite str_app_nil_l in E; congruence|rewrite str_app_cons in E; discriminate].
Qed.

Lemma endswith_no_char c s :
  pystr.contains c s = false -> pystr.endswith c s = false.
Proof.
  induction s as [|a s IH]; [reflexivity|].
  simpl. intros Hc. apply orb_false_iff in Hc as [Ha Hs].
  destruct s; [exact Ha|exact (IH Hs)].
Qed.

Lemma Forall_list_filter {A} (P : A -> Prop) (f : A -> bool) l :
  Forall P l -> Forall P (List.filter f l).
Proof.
  induction 1 as [|x l Hx Hl IH]; simpl; [constructor|].
  destruct (f x); [constructor; assumption|assumption].
Qed.

Lemma concat_cons sep x l :
  String.concat sep (x :: l)
  = match l with [] => x | _ => x +:+ sep +:+ String.concat sep l end.
Proof. destruct l; reflexivity. Qed.

Lemma concat_kept_nonempty l :
  Forall plain_component l -> l <> [] ->
  pystr.nonempty (String.concat "/" l) = true.
Proof.
  intros Hl Hne. destruct l as [|x l]; [congruence|].
  inversion Hl as [|? ? (Hx & _) _]; subst.
  rewrite concat_cons. destruct x; [congruence|]. destruct l; reflexivity.
Qed.

Lemma sanitize_loop_join parts : forall np,
  Forall plain_component parts ->
  pystr.contains "\"%char np = false ->
  pystr.endswith "/"%char np = false ->
  fold_left sanitize_step parts np
  = glue np (pystr.join "/" (List.filter kept parts)).
Proof.
  induction parts as [|part parts IH]; intros np Hparts Hb He.
  - simpl. unfold glue. destruct np; reflexivity.
  - inversion Hparts as [|? ? (Hne & Hsep & Hbs) Hrest]; subst.
    cbn [fold_left List.filter]. rewrite (sanitize_step_no_sep _ _ Hsep).
    unfold kept at 1.
    destruct (String.eqb part posixpath.curdir || String.eqb part posixpath.pardir);
      cbn [negb]; [apply IH; assumption|].
    assert (Hj : posixpath.join np part
                 = if pystr.nonempty np then np +:+ "/" +:+ part else part).
    { unfold posixpath.join. rewrite (startswith_sep_no_sep _ Hsep).
      change posixpath.sep with "/"%char. rewrite He.
      destruct np; reflexivity. }
    assert (Hjb : pystr.contains "\"%char (posixpath.join np part) = false).
    { rewrite Hj. destruct (pystr.nonempty np); [|assumption].
      rewrite !contains_app, Hb, Hbs. reflexivity. }
    rewrite (replace_id _ _ _ Hjb).
    rewrite IH; [|assumption|assumption|].
    + unfold pystr.join. rewrite concat_cons, Hj. unfold glue.
      assert (Hfk : Forall plain_component (List.filter kept parts)).
      { apply Forall_list_filter. exact Hrest. }
      destruct (List.filter kept parts) as [|q qs] eqn:Ef.
      * simpl String.concat. destruct np as [|a np']; cbn [pystr.nonempty].
        -- destruct part; [congruence|reflexivity].
        -- rewrite str_app_cons. cbn [pystr.nonempty].
           destruct part; [congruence|reflexivity].
      * assert (Hq : pystr.nonempty (String.concat "/" (q :: qs)) = true).
        { apply concat_kept_nonempty; [assumption|discriminate]. }
        rewrite Hq.
        destruct np as [|a np']; cbn [pystr.nonempty].
        -- destruct part as [|b part']; [congruence|]. rewrite str_app_cons.
           reflexivity.
        -- rewrite str_app_cons. cbn [pystr.nonempty].
           destruct part as [|b part']; [congruence|].
           rewrite str_app_cons. cbn [pystr.nonempty].
           rewrite !str_app_assoc. reflexivity.
    + rewrite Hj. destruct (pystr.nonempty np).
      * rewrite !endswith_app_nonempty; [apply endswith_no_char, Hsep|assumption|].
        destruct part; [congruence|discriminate].
      * apply endswith_no_char, Hsep.
Qed.

(** Strict discard: over plain components the loop keeps every component
    other than [.] and [..], in order. *)
Lemma reconstructed_path_discards path :
  Forall plain_component (pystr.split "/"%char path) ->
  reconstructed_path path
  = pystr.join "/" (List.filter kept (pystr.split "/"%char path)).
Proof.
  intros Hparts. unfold reconstructed_path.
  rewrite (sanitize_loop_join _ "" Hparts); reflexivity.
Qed.

Lemma pick_in_range entries supported : forall best,
  (forall c s, best = Some (c, s) -> In c supported \/ True) ->
  forall c s, mimeparser.pick entries supported best = Some (c, s) ->
  In c supported \/ (exists s', best = Some (c, s')).
Proof.
  induction supported as [|x supported IH]; intros best _ c s Hp.
  - simpl in Hp. right. eauto.
  - simpl in Hp.
    destruct (IH _ (fun _ _ _ => or_intror I) c s Hp) as [Hin|[s' Hs']].
    + left. right. exact Hin.
    + destruct (mimeparser.parse x) as [m|]; [|right; eauto].
      destruct (mimeparser.candidate_score m entries None) as [sc|]; [|right; eauto].
      destruct best as [[b bs]|].
      * destruct (mimeparser.score_lt bs sc).
        -- inversion Hs'; subst. left. left. reflexivity.
        -- right. eauto.
      * inversion Hs'; subst. left. left. reflexivity.
Qed.

Lemma spec_best_match_in_range : @best_match_in_range spec_mimeparser.
Proof.
  intros supported header. simpl. unfold mimeparser.best_match.
  destruct (mimeparser.pick _ supported None) as [[c [q sp]]|] eqn:E; [|left; reflexivity].
  destruct (q =? 0)%N; [left; reflexivity|].
  destruct (pick_in_range _ _ None (fun _ _ _ => or_intror I) _ _ E) as [Hin|[s' Hs']].
  - right. exact Hin.
  - discriminate.
Qed.

Lemma encode_latin1_cons c s :
  encode_latin1 (String c s)
  = if (N_of_ascii c <? 128)%N
    then obind (encode_latin1 s) (fun t => Ok (String c t))
    else
      match s with
      | String b1 r1 =>
          if ((N_of_ascii c =? 194)%N || (N_of_ascii c =? 195)%N)
             && utf8.byte_in 128 191 b1
          then obind (encode_latin1 r1) (fun t =>
               Ok (String (ascii_of_N (N_of_ascii b1 + 64 * (N_of_ascii c - 194))) t))
          else Raise (UnicodeEncodeError "'latin-1' codec can't encode character")
      | EmptyString =>
          Raise (UnicodeEncodeError "'latin-1' codec can't encode character")
      end.
Proof. reflexivity. Qed.

Lemma encode_latin1_raise_both s :
  (forall e, encode_latin1 s = Raise e ->
             e = UnicodeEncodeError "'latin-1' codec can't encode character")
  /\ (forall c e, encode_latin1 (String c s) = Raise e ->
                  e = UnicodeEncodeError "'latin-1' codec can't encode character").
Proof.
  induction s as [|c' s [IH0 IH1]].
  - split; [discriminate|]. intros c e. rewrite encode_latin1_cons.
    destruct (N_of_ascii c <? 128)%N; [discriminate|]. intros [= <-]. reflexivity.
  - split; [exact (IH1 c')|]. intros c e. rewrite encode_latin1_cons.
    destruct (N_of_ascii c <? 128)%N.
    + destruct (encode_latin1 (String c' s)) as [t|e'] eqn:E; cbn [obind];
        [discriminate|].
      intros [= <-]. apply (IH1 c' e' E).
    + destruct (_ && _).
      * destruct (encode_latin1 s) as [t|e'] eqn:E; cbn [obind]; [discriminate|].
        intros [= <-]. apply (IH0 e' eq_refl).
      * intros [= <-]. reflexivity.
Qed.

(** The only error of the Latin-1 encoding. *)
Lemma encode_latin1_raise s e :
  encode_latin1 s = Raise e ->
  e = UnicodeEncodeError "'latin-1' codec can't encode character".
Proof. apply (proj1 (encode_latin1_raise_both s)). Qed.

Section Download.
Context `{Mimeparser} `{Library}.

Lemma header_response_run status_code name value w :
  header_response status_code name value w
  = (match encode_latin1 value with
     | Ok encoded =>
         Ok (mkResponse "" status_code None (response_headers [(name, encoded)]))
     | Raise e => Raise e
     end, w).
Proof.
  unfold header_response, bind, lift, ret. destruct (encode_latin1 value); reflexivity.
Qed.

Lemma download_redirect settings request file_path base_dir w :
  pystr.nonempty (reconstructed_path (normalized_path file_path)) = true ->
  reconstructed_path (normalized_path file_path) <> normalized_path file_path ->
  build_downloadfile_response settings request file_path base_dir w
  = (match encode_latin1 (reconstructed_path (normalized_path file_path)) with
     | Ok location => Ok (mkResponse "" 302 None [("location", location)])
     | Raise e => Raise e
     end, w).
Proof.
  intros Hne Hdiff. unfold build_downloadfile_response. rewrite Hne.
  assert (E : String.eqb (normalized_path file_path)
                (reconstructed_path (normalized_path file_path)) = false).
  { apply String.eqb_neq. congruence. }
  rewrite E. cbn [negb andb]. apply header_response_run.
Qed.

Lemma download_no_redirect settings request file_path base_dir w :
  reconstructed_path (normalized_path file_path) = ""
  \/ reconstructed_path (normalized_path file_path) = normalized_path file_path ->
  build_downloadfile_response settings request file_path base_dir w
  = let fullpath :=
      posixpath.join base_dir (reconstructed_path (normalized_path file_path)) in
    if negb (w_isfile w fullpath) then build_not_found_response request w
    else if negb (match USE_XSENDFILE settings with Some b => b | None => false end)
    then (Ok (FileResponse fullpath "application/octet-stream"), w)
    else (match encode_latin1 fullpath with
          | Ok value => Ok (mkResponse "" 200 None [("x-sendfile", value)])
          | Raise e => Raise e
          end, w).
Proof.
  intros Hcase. unfold build_downloadfile_response.
  assert (E : pystr.nonempty (reconstructed_path (normalized_path file_path))
              && negb (String.eqb (normalized_path file_path)
                         (reconstructed_path (normalized_path file_path))) = false).
  { destruct Hcase as [->| ->]; [reflexivity|].
    rewrite String.eqb_refl. apply andb_false_r. }
  cbn zeta. rewrite E. unfold bind at 1. unfold isfile.
  destruct (w_isfile w _); cbn [negb]; [|reflexivity].
  destruct (USE_XSENDFILE settings) as [[]|]; cbn [negb];
    try reflexivity; apply header_response_run.
Qed.


End Download.



Example download_etc_passwd :
  fst (@build_downloadfile_response spec_mimeparser ascii_lib (mkSettings None)
         (ARequest 1%positive) "/../../etc/passwd" "/srv/files" demo_world)
  = Ok (FileResponse "/srv/files/etc/passwd" "application/octet-stream").
Proof. vm_compute. reflexivity. Qed.



(** *** The components of a normalized path *)







Section Redirect.
Context `{Mimeparser} `{Library}.

End Redirect.


Lemma mem_In x l : pystr.mem x l = true <-> In x l.
Proof.
  unfold pystr.mem. rewrite existsb_exists. split.
  - intros (y & Hy & E). apply String.eqb_eq in E. subst. exact Hy.
  - intros Hx. exists x. split; [exact Hx|apply String.eqb_refl].
Qed.

Lemma with_request_lookup l r w : w_requests (with_request l r w) !! l = Some r.
Proof. unfold with_request, set_requests. simpl. apply lookup_insert_eq. Qed.

Lemma with_request_calls l r w : w_calls (with_request l r w) = w_calls w.
Proof. reflexivity. Qed.

Lemma with_request_dicts l r w : w_dicts (with_request l r w) = w_dicts w.
Proof. reflexivity. Qed.

Lemma with_context_calls c d w : w_calls (with_context c d w) = w_calls w.
Proof. reflexivity. Qed.

Lemma with_context_requests c d w : w_requests (with_context c d w) = w_requests w.
Proof. reflexivity. Qed.

Section Guards.
Context `{Mimeparser} `{Library}.

Lemma check_decorator_params_spec handler params :
  check_decorator_params handler params
  = match find (fun p => negb (declares handler p)) params with
    | Some p =>
        Raise (ValueError ("The handler must have a " +:+ p +:+ " parameter"))
    | None => Ok tt
    end.
Proof.
  induction params as [|p params IH]; [reflexivity|].
  cbn [check_decorator_params find]. unfold declares at 1.
  rewrite negb_orb. destruct (_ && _); [reflexivity|exact IH].
Qed.

(** The tail of a wrapper runs the body of the handler, whichever kind
    the handler is. *)
Lemma delegate_runs_body handler args kwargs w :
  delegate handler args kwargs w = run_body handler args kwargs w.
Proof.
  unfold delegate, py_call. destruct (h_async handler); reflexivity.
Qed.

Lemma request_headers_live l r w :
  w_requests w !! l = Some r ->
  request_headers (ARequest l) w = (Ok (req_headers r), w).
Proof. intros E. unfold request_headers. rewrite E. reflexivity. Qed.

Lemma request_setattr_live l r name value w :
  w_requests w !! l = Some r ->
  request_setattr (ARequest l) name value w
  = (Ok tt, with_request l (with_attr name value r) w).
Proof. intros E. unfold request_setattr. rewrite E. reflexivity. Qed.

Lemma pydict_get_set {V} k (v : V) d : pydict.get k (pydict.set k v d) = Some v.
Proof.
  induction d as [|[k' v'] d IH]; simpl.
  - rewrite String.eqb_refl. reflexivity.
  - destruct (String.eqb k' k) eqn:E; simpl.
    + rewrite String.eqb_refl. reflexivity.
    + rewrite E. exact IH.
Qed.

Lemma request_getattr_set l r name value w :
  request_getattr (ARequest l) name (with_request l (with_attr name value r) w)
  = (Ok value, with_request l (with_attr name value r) w).
Proof.
  unfold request_getattr. rewrite with_request_lookup.
  unfold with_attr. cbn [req_attrs]. rewrite pydict_get_set. reflexivity.
Qed.

Lemma get_content_type_live l r w :
  w_requests w !! l = Some r ->
  exists params,
    get_content_type (ARequest l) w = (Ok (content_type_of r, params), w).
Proof.
  intros E. unfold get_content_type, bind, content_type_of.
  rewrite (request_headers_live _ _ _ E).
  destruct (headers_get _ _) as [h|]; [|eexists; reflexivity].
  destruct (parse_mime_type h) as [[t ps]|]; eexists; reflexivity.
Qed.

(** An error response without details, for a live request: a response
    with the given status whose body is the rendering of the message. *)
Lemma build_error_response_message l r status_code error_msg w :
  best_match_in_range ->
  xml_text_ok error_msg = true ->
  w_requests w !! l = Some r ->
  exists body content_type,
    In content_type (pydict.keys ERROR_FORMATTERS)
    /\ render_error content_type (default_context error_msg PNone) = Ok body
    /\ build_error_response (ARequest l) status_code error_msg None None PNone None w
       = (Ok (mkResponse body status_code (Some content_type) []),
          with_context (fresh (dom (w_dicts w)))
            (default_context error_msg PNone) w).
Proof.
  intros Hrange Htext Hl.
  destruct (build_error_response_builtin l r status_code error_msg None PNone w
              Hrange Hl) as (ct & _ & Hin & ->).
  destruct (render_error_no_details ct _ Htext) as [body Hb].
  exists body, ct. rewrite Hb. auto.
Qed.
End Guards.

Section GuardTheorems.
Context `{Mimeparser} `{Library}.

(** C7: [authentication_required] raises [ValueError] when it is applied
    to a handler that declares no [user] (or [_user]) parameter or no
    [request] (or [_request]) parameter, so that no wrapper exists and no
    request is ever handled; a handler that declares both is wrapped.
    [produces] and [consumes] make the same check for [request]. *)
Theorem wrap_time_parameter_check handler mime_types :
  (declares handler "user" = false \/ declares handler "request" = false ->
   exists msg, authentication_required handler = Raise (ValueError msg))
  /\ (declares handler "user" = true -> declares handler "request" = true ->
      authentication_required handler
      = Ok (wrapped handler (authentication_required_wrapper handler)))
  /\ (declares handler "request" = false ->
      produces mime_types handler
      = Raise (ValueError "The handler must have a request parameter")
      /\ consumes mime_types handler
         = Raise (ValueError "The handler must have a request parameter"))
  /\ (declares handler "request" = true ->
      produces mime_types handler
      = Ok (wrapped handler (produces_wrapper mime_types handler))
      /\ consumes mime_types handler
         = Ok (wrapped handler (consumes_wrapper mime_types handler))).
Proof.
  unfold authentication_required, produces, consumes.
  rewrite !check_decorator_params_spec. cbn [find].
  destruct (declares handler "user"), (declares handler "request"); cbn [negb obind].
  - repeat split; try reflexivity; try discriminate. intros [?|?]; discriminate.
  - repeat split; try reflexivity; try discriminate. intros _. eexists; reflexivity.
  - repeat split; try reflexivity; try discriminate. intros _. eexists; reflexivity.
  - repeat split; try reflexivity; try discriminate. intros _. eexists; reflexivity.
Qed.

(** C6: an endpoint is invoked with its arguments passed by keyword,
    which is how FastAPI calls it and where the wrapper of
    [authentication_required] looks for them: the user is the keyword
    argument [user], or [_user] when there is no [user], and the request
    is found in the same way.  When the user is absent or [None], the
    wrapper answers 401 with the rendering of [Authentication Required]
    and starts no handler body; when the user is present it runs the
    handler and returns what the handler returns: a coroutine function is
    called and the coroutine awaited, any other function is called
    directly. *)
Theorem authentication_required_guard handler args kwargs l r w :
  (best_match_in_range ->
   xml_text_ok "Authentication Required" = true ->
   request_of kwargs = ARequest l ->
   w_requests w !! l = Some r ->
   is_none (user_of kwargs) = true ->
   exists body content_type w',
     authentication_required_wrapper handler args kwargs w
     = (Ok (AResponse (mkResponse body 401 (Some content_type) [])), w')
     /\ render_error content_type
          (default_context "Authentication Required" PNone) = Ok body
     /\ w_calls w' = w_calls w)
  /\ (is_none (user_of kwargs) = false ->
      authentication_required_wrapper handler args kwargs w
      = run_body handler args kwargs w
      /\ (h_async handler = true ->
          delegate handler args kwargs
          = (let* c := py_call handler args kwargs in await c)
          /\ py_call handler args kwargs w
             = (Ok (ACoroutine (run_body handler args kwargs)), w))
      /\ (h_async handler = false ->
          delegate handler args kwargs = py_call handler args kwargs
          /\ py_call handler args kwargs = run_body handler args kwargs)).
Proof.
  split.
  - intros Hrange Htext Hreq Hl Hnone.
    unfold authentication_required_wrapper.
    fold (user_of kwargs). fold (request_of kwargs). rewrite Hnone, Hreq.
    destruct (build_error_response_message l r 401 "Authentication Required" w
                Hrange Htext Hl) as (body & ct & _ & Hb & Hrun).
    exists body, ct. eexists. unfold bind. rewrite Hrun.
    split; [reflexivity|]. split; [exact Hb|reflexivity].
  - intros Huser. unfold authentication_required_wrapper.
    fold (user_of kwargs). rewrite Huser. split; [apply delegate_runs_body|].
    unfold delegate, py_call. split; intros ->; split; reflexivity.
Qed.

(** C5: the wrapper of [consumes] stores the content type of the
    request, parameters dropped, in the attribute [mimetype] of the
    request; when that type is not one of [mime_types] it answers 415
    with the rendering of [Unsupported request media type] and starts no
    handler body, and otherwise it runs the handler on the request that
    carries the attribute. *)
Theorem consumes_guard mime_types handler args kwargs l r w :
  best_match_in_range ->
  xml_text_ok "Unsupported request media type" = true ->
  request_of kwargs = ARequest l ->
  w_requests w !! l = Some r ->
  let mimetype := content_type_of r in
  let w1 := with_request l (with_attr "mimetype" mimetype r) w in
  (pystr.mem mimetype mime_types = false ->
   exists body content_type w',
     consumes_wrapper mime_types handler args kwargs w
     = (Ok (AResponse (mkResponse body 415 (Some content_type) [])), w')
     /\ render_error content_type
          (default_context "Unsupported request media type" PNone) = Ok body
     /\ w_calls w' = w_calls w)
  /\ (pystr.mem mimetype mime_types = true ->
      consumes_wrapper mime_types handler args kwargs w
      = run_body handler args kwargs w1
      /\ w_requests w1 !! l = Some (with_attr "mimetype" mimetype r)
      /\ pydict.get "mimetype" (req_attrs (with_attr "mimetype" mimetype r))
         = Some mimetype).
Proof.
  intros Hrange Htext Hreq Hl mimetype w1.
  assert (Hstart :
             consumes_wrapper mime_types handler args kwargs w
             = (if negb (pystr.mem mimetype mime_types)
                then let* resp := build_error_response (ARequest l) 415
                                    "Unsupported request media type"
                                    None None PNone None in
                     ret (AResponse resp)
                else delegate handler args kwargs) w1).
  { unfold consumes_wrapper. fold (request_of kwargs). rewrite Hreq.
    unfold bind at 1. destruct (get_content_type_live l r w Hl) as [ps ->].
    unfold bind at 1. cbn [fst]. fold mimetype.
    rewrite (request_setattr_live _ _ _ _ _ Hl). fold w1.
    unfold bind at 1. unfold w1. rewrite request_getattr_set. reflexivity. }
  split.
  - intros Hmem. rewrite Hstart, Hmem. cbn [negb].
    destruct (build_error_response_message l (with_attr "mimetype" mimetype r) 415
                "Unsupported request media type" w1 Hrange Htext
                (with_request_lookup _ _ _)) as (body & ct & _ & Hb & Hrun).
    exists body, ct. eexists. unfold bind. rewrite Hrun.
    split; [reflexivity|]. split; [exact Hb|reflexivity].
  - intros Hmem. rewrite Hstart, Hmem. cbn [negb].
    split; [apply delegate_runs_body|]. split; [apply with_request_lookup|].
    apply pydict_get_set.
Qed.
End GuardTheorems.

Lemma wrap_time_parameter_check_witness :
  declares get_workspace_list_route "request" = false
  /\ @produces spec_mimeparser ascii_lib ["application/json"] get_workspace_list_route
     = Raise (ValueError "The handler must have a request parameter")
  /\ (exists msg,
        @authentication_required spec_mimeparser ascii_lib get_workspace_list_route
        = Raise (ValueError msg))
  /\ @authentication_required spec_mimeparser ascii_lib async_handler
     = Ok (wrapped async_handler
             (@authentication_required_wrapper spec_mimeparser ascii_lib async_handler)).
Proof.
  pose proof (@wrap_time_parameter_check spec_mimeparser ascii_lib
                get_workspace_list_route ["application/json"]) as (Hauth & _ & Hreq & _).
  pose proof (@wrap_time_parameter_check spec_mimeparser ascii_lib
                async_handler []) as (_ & Hok & _).
  split; [reflexivity|]. split; [apply Hreq; reflexivity|].
  split; [apply Hauth; right; reflexivity|]. apply Hok; reflexivity.
Defined.

(** The wrapper does not look at its positional arguments.  A request
    passed by position is not found, and the 401 answer for a missing user
    then fails on [None.headers]; a user passed by position is not found
    either, and the call is answered with 401. *)
Example authentication_required_positional_arguments :
  fst (@authentication_required_wrapper spec_mimeparser ascii_lib sync_handler
         [ARequest 1%positive] [("user", ANone)] json_world)
  = Raise (AttributeError "headers")
  /\ exists body content_type,
       fst (@authentication_required_wrapper spec_mimeparser ascii_lib sync_handler
              [AObject "alice"] [("request", ARequest 1%positive)] json_world)
       = Ok (AResponse (mkResponse body 401 (Some content_type) [])).
Proof.
  split; [vm_compute; reflexivity|]. eexists _, _. vm_compute. reflexivity.
Qed.

Lemma authentication_required_guard_witness :
  (exists body content_type w',
     @authentication_required_wrapper spec_mimeparser ascii_lib sync_handler []
       [("request", ARequest 1%positive); ("user", ANone)] json_world
     = (Ok (AResponse (mkResponse body 401 (Some content_type) [])), w')
     /\ @render_error ascii_lib content_type
          (default_context "Authentication Required" PNone) = Ok body
     /\ w_calls w' = w_calls json_world)
  /\ @authentication_required_wrapper spec_mimeparser ascii_lib async_handler []
       [("_request", ARequest 1%positive); ("_user", AObject "alice")] json_world
     = run_body async_handler []
         [("_request", ARequest 1%positive); ("_user", AObject "alice")] json_world.
Proof.
  split.
  - apply (proj1 (@authentication_required_guard spec_mimeparser ascii_lib sync_handler
                    [] [("request", ARequest 1%positive); ("user", ANone)]
                    1%positive json_request json_world));
      [apply spec_best_match_in_range|reflexivity..].
  - apply (proj2 (@authentication_required_guard spec_mimeparser ascii_lib async_handler
                    [] [("_request", ARequest 1%positive); ("_user", AObject "alice")]
                    1%positive json_request json_world)).
    reflexivity.
Defined.

Lemma consumes_guard_witness :
  @content_type_of spec_mimeparser json_request = "application/json"
  /\ @consumes_wrapper spec_mimeparser ascii_lib ["application/json"] sync_handler []
       [("request", ARequest 1%positive)] json_world
     = run_body sync_handler [] [("request", ARequest 1%positive)]
         (with_request 1%positive
            (with_attr "mimetype" "application/json" json_request) json_world)
  /\ (exists body content_type w',
        @consumes_wrapper spec_mimeparser ascii_lib ["text/xml"] sync_handler []
          [("request", ARequest 1%positive)] json_world
        = (Ok (AResponse (mkResponse body 415 (Some content_type) [])), w')
        /\ @render_error ascii_lib content_type
             (default_context "Unsupported request media type" PNone) = Ok body
        /\ w_calls w' = w_calls json_world).
Proof.
  split; [reflexivity|].
  pose proof (@consumes_guard spec_mimeparser ascii_lib ["application/json"]
                sync_handler [] [("request", ARequest 1%positive)] 1%positive
                json_request json_world spec_best_match_in_range eq_refl eq_refl
                eq_refl) as (_ & Hok).
  pose proof (@consumes_guard spec_mimeparser ascii_lib ["text/xml"]
                sync_handler [] [("request", ARequest 1%positive)] 1%positive
                json_request json_world spec_best_match_in_range eq_refl eq_refl
                eq_refl) as (Hrefuse & _).
  split; [apply Hok; reflexivity|apply Hrefuse; reflexivity].
Defined.

Lemma pydict_get_set_other {V} k k' (v : V) d :
  k' <> k -> pydict.get k (pydict.set k' v d) = pydict.get k d.
Proof.
  intros Hne. induction d as [|[k0 v0] d IH]; simpl.
  - destruct (String.eqb k' k) eqn:E; [apply String.eqb_eq in E; congruence|reflexivity].
  - destruct (String.eqb k0 k') eqn:E0; simpl.
    + apply String.eqb_eq in E0. subst k0.
      destruct (String.eqb k' k) eqn:E; [apply String.eqb_eq in E; congruence|reflexivity].
    + destruct (String.eqb k0 k); [reflexivity|exact IH].
Qed.

Lemma pydict_get_set_cases {V} k k' (v : V) d :
  pydict.get k (pydict.set k' v d)
  = if String.eqb k' k then Some v else pydict.get k d.
Proof.
  destruct (String.eqb k' k) eqn:E.
  - apply String.eqb_eq in E. subst. apply pydict_get_set.
  - apply String.eqb_neq in E. apply pydict_get_set_other, E.
Qed.

Lemma update_default_context_error_msg d error_msg details :
  pydict.get "error_msg" (pydict.update d (default_context error_msg details))
  = Some (PStr error_msg).
Proof.
  unfold pydict.update, default_context. cbn [fold_left fst snd].
  rewrite pydict_get_set_other by discriminate. apply pydict_get_set.
Qed.

Lemma update_default_context_details d error_msg details :
  pydict.get "details" (pydict.update d (default_context error_msg details))
  = Some details.
Proof.
  unfold pydict.update, default_context. cbn [fold_left fst snd].
  apply pydict_get_set.
Qed.

Lemma update_default_context_other d error_msg details k :
  k <> "error_msg" -> k <> "details" ->
  pydict.get k (pydict.update d (default_context error_msg details))
  = pydict.get k d.
Proof.
  intros H1 H2. unfold pydict.update, default_context. cbn [fold_left fst snd].
  rewrite !pydict_get_set_other by congruence. reflexivity.
Qed.

Section Formatters.
Context `{Mimeparser} `{Library}.

Lemma merged_formatters_get extra key :
  pydict.get key (merged_formatters (Some extra))
  = match pydict.get key ERROR_FORMATTERS with
    | Some f => Some f
    | None => pydict.get key extra
    end.
Proof.
  unfold merged_formatters, pydict.update, ERROR_FORMATTERS.
  cbn [fold_left fst snd pydict.get]. rewrite !pydict_get_set_cases.
  destruct (String.eqb "" key) eqn:E0.
  - apply String.eqb_eq in E0. subst key. reflexivity.
  - destruct (String.eqb "text/plain; charset=utf-8" key) eqn:E1.
    + apply String.eqb_eq in E1. subst key. reflexivity.
    + destruct (String.eqb "application/xml; charset=utf-8" key) eqn:E2.
      * apply String.eqb_eq in E2. subst key. reflexivity.
      * destruct (String.eqb "application/json; charset=utf-8" key); reflexivity.
Qed.

(** The built-in formatters only read the heap. *)
Lemma build_response_builtin_world request status_code c headers w :
  snd (build_response request status_code c ERROR_FORMATTERS headers w) = w.
Proof.
  unfold build_response, bind, request_headers, lift, ret, raise.
  destruct request as [v|name|l|resp|co]; try reflexivity.
  destruct (w_requests w !! l) as [r|]; [|reflexivity].
  destruct (negotiate _ _) as [ct|e]; [|reflexivity].
  destruct (pydict.get ct ERROR_FORMATTERS) as [f|] eqn:Hf; [|reflexivity].
  unfold ERROR_FORMATTERS in Hf. cbn [pydict.get] in Hf.
  assert (Hread : forall g : formatter,
             (g = get_json_error_response \/ g = get_xml_error_response
              \/ g = get_plain_text_error_response) ->
             snd (g (ARequest l) ct status_code c w) = w).
  { intros g [->|[->| ->]];
      unfold get_json_error_response, get_xml_error_response,
        get_plain_text_error_response, bind, read_dict, lift;
      destruct (w_dicts w !! c); reflexivity. }
  assert (Hg : snd (f (ARequest l) ct status_code c w) = w).
  { apply Hread.
    destruct (String.eqb "application/json; charset=utf-8" ct);
      [inversion Hf; auto|].
    destruct (String.eqb "application/xml; charset=utf-8" ct);
      [inversion Hf; auto|].
    destruct (String.eqb "text/plain; charset=utf-8" ct);
      [inversion Hf; auto|].
    destruct (String.eqb "" ct); [inversion Hf; auto|discriminate]. }
  destruct (f (ARequest l) ct status_code c w) as [[body|e] w']; exact Hg.
Qed.

(** C2, amended: the table [build_error_response] uses is the built-in
    table merged over a copy of [extra_formats]; a content type that both
    tables register is rendered by the built-in function, and a function
    of the caller is applied only for a content type that the built-in
    table does not register. *)
Theorem builtin_formatters_take_precedence extra l r status_code error_msg headers
    details w content_type :
  w_requests w !! l = Some r ->
  negotiate (req_headers r) (merged_formatters (Some extra)) = Ok content_type ->
  let w' := with_context (fresh (dom (w_dicts w)))
              (default_context error_msg details) w in
  let answer (rendering : outcome string * world) :=
    match rendering with
    | (Ok body, w'') =>
        (Ok (mkResponse body status_code (Some content_type)
               (response_headers (match headers with Some h => h | None => [] end))),
         w'')
    | (Raise e, w'') => (Raise e, w'')
    end in
  (forall key,
      pydict.get key (merged_formatters (Some extra))
      = match pydict.get key ERROR_FORMATTERS with
        | Some f => Some f
        | None => pydict.get key extra
        end)
  /\ (In content_type (pydict.keys ERROR_FORMATTERS) ->
      build_error_response (ARequest l) status_code error_msg (Some extra) headers
        details None w
      = answer (render_error content_type (default_context error_msg details), w'))
  /\ (forall f,
        ~ In content_type (pydict.keys ERROR_FORMATTERS) ->
        pydict.get content_type extra = Some f ->
        build_error_response (ARequest l) status_code error_msg (Some extra) headers
          details None w
        = answer (f (ARequest l) content_type status_code
                    (fresh (dom (w_dicts w))) w')).
Proof.
  intros Hl Hneg w' answer. split; [apply merged_formatters_get|].
  split.
  - intros Hin.
    rewrite (build_error_response_fresh _ _ _ _ _ _ _ _ Hl).
    rewrite (build_response_live l r) by exact Hl.
    rewrite Hneg, merged_formatters_get.
    destruct (builtin_key_formatter _ Hin) as [f Hf]. rewrite Hf.
    rewrite (builtin_formatter_run _ _ _ _ _ _ _ Hf (with_context_lookup _ _ _)).
    unfold answer, w'. destruct (render_error _ _); reflexivity.
  - intros f Hnotin Hf.
    rewrite (build_error_response_fresh _ _ _ _ _ _ _ _ Hl).
    rewrite (build_response_live l r) by exact Hl.
    rewrite Hneg, merged_formatters_get, Hf.
    assert (Hnone : pydict.get content_type ERROR_FORMATTERS = None).
    { destruct (pydict.get content_type ERROR_FORMATTERS) as [g|] eqn:Hg;
        [|reflexivity].
      exfalso. apply Hnotin. unfold ERROR_FORMATTERS in Hg |- *.
      cbn [pydict.get] in Hg. cbn [pydict.keys map fst].
      destruct (String.eqb_spec "application/json; charset=utf-8" content_type);
        [left; assumption|].
      destruct (String.eqb_spec "application/xml; charset=utf-8" content_type);
        [right; left; assumption|].
      destruct (String.eqb_spec "text/plain; charset=utf-8" content_type);
        [right; right; left; assumption|].
      destruct (String.eqb_spec "" content_type);
        [right; right; right; left; assumption|discriminate]. }
    rewrite Hnone. unfold answer, w'.
    destruct (f _ _ _ _ _) as [[body|e] w'']; reflexivity.
Qed.

(** C10: a call that passes the dictionary object [c] as [context]
    updates that object in place: afterwards it maps [error_msg] and
    [details] to the arguments of the call, whatever it held for them
    before, and every other key to what it held; the formatter that is
    selected is called with [c] itself in the world that holds the
    update, and with the built-in table that world is the final one. *)
Theorem context_updated_in_place request status_code error_msg extra headers
    details c d w :
  w_dicts w !! c = Some d ->
  let d' := pydict.update d (default_context error_msg details) in
  let w' := with_context c d' w in
  build_error_response request status_code error_msg extra headers details (Some c) w
  = build_response request status_code c (merged_formatters extra) headers w'
  /\ w_dicts w' = <[c := d']> (w_dicts w)
  /\ pydict.get "error_msg" d' = Some (PStr error_msg)
  /\ pydict.get "details" d' = Some details
  /\ (forall k, k <> "error_msg" -> k <> "details" ->
                pydict.get k d' = pydict.get k d)
  /\ (forall l r content_type f,
        request = ARequest l ->
        w_requests w !! l = Some r ->
        negotiate (req_headers r) (merged_formatters extra) = Ok content_type ->
        pydict.get content_type (merged_formatters extra) = Some f ->
        build_error_response request status_code error_msg extra headers details
          (Some c) w
        = match f request content_type status_code c w' with
          | (Ok body, w'') =>
              (Ok (mkResponse body status_code (Some content_type)
                     (response_headers
                        (match headers with Some h => h | None => [] end))), w'')
          | (Raise e, w'') => (Raise e, w'')
          end)
  /\ (extra = None ->
      snd (build_error_response request status_code error_msg extra headers details
             (Some c) w) = w').
Proof.
  intros Hd d' w'.
  assert (Hrun : build_error_response request status_code error_msg extra headers
                   details (Some c) w
                 = build_response request status_code c (merged_formatters extra)
                     headers w').
  { unfold build_error_response, bind, ret, dict_update. rewrite Hd. reflexivity. }
  split; [exact Hrun|]. split; [reflexivity|].
  split; [apply update_default_context_error_msg|].
  split; [apply update_default_context_details|].
  split; [intros k; apply update_default_context_other|].
  split.
  - intros l r ct f -> Hl Hneg Hf. rewrite Hrun.
    rewrite (build_response_live l r) by exact Hl.
    rewrite Hneg, Hf. reflexivity.
  - intros ->. rewrite Hrun. apply build_response_builtin_world.
Qed.
End Formatters.

(** C2, as stated, fails: the caller registers [custom_formatter] for the
    JSON content type, which the built-in table registers too; the request
    asks for JSON and the body is the built-in JSON rendering, not the text
    of the caller's function. *)
Lemma caller_formatter_wins_counterexample :
  fst (@build_error_response spec_mimeparser ascii_lib (ARequest 1%positive) 400
         "Bad Request"
         (Some [("application/json; charset=utf-8", custom_formatter)])
         None PNone None json_world)
  = Ok (mkResponse (json.encode (PDict [("description", PStr "Bad Request")])) 400
          (Some "application/json; charset=utf-8") [])
  /\ fst (custom_formatter (ARequest 1%positive) "application/json; charset=utf-8"
            400 1%positive json_world) = Ok "custom rendering"
  /\ json.encode (PDict [("description", PStr "Bad Request")]) <> "custom rendering".
Proof.
  split; [vm_compute; reflexivity|]. split; [reflexivity|]. vm_compute. discriminate.
Qed.

Lemma builtin_formatters_take_precedence_witness :
  @build_error_response spec_mimeparser ascii_lib (ARequest 1%positive) 400
    "Bad Request"
    (Some [("application/json; charset=utf-8", custom_formatter);
           ("text/csv", custom_formatter)])
    None PNone None json_world
  = (Ok (mkResponse (json.encode (PDict [("description", PStr "Bad Request")])) 400
           (Some "application/json; charset=utf-8") []),
     with_context (fresh (dom (w_dicts json_world)))
       (default_context "Bad Request" PNone) json_world).
Proof.
  pose proof (@builtin_formatters_take_precedence spec_mimeparser ascii_lib
                [("application/json; charset=utf-8", custom_formatter);
                 ("text/csv", custom_formatter)]
                1%positive json_request 400 "Bad Request" None PNone json_world
                "application/json; charset=utf-8" eq_refl eq_refl)
    as (_ & Hbuiltin & _).
  apply Hbuiltin. simpl. auto.
Defined.

Lemma context_updated_in_place_witness :
  w_dicts context_world !! 7%positive = Some caller_context
  /\ w_dicts
       (snd (@build_error_response spec_mimeparser ascii_lib (ARequest 1%positive) 404
               "Page Not Found" None None (PStr "no such page") (Some 7%positive)
               context_world)) !! 7%positive
     = Some [("trace", PStr "t-42"); ("error_msg", PStr "Page Not Found");
             ("details", PStr "no such page")].
Proof.
  split; [reflexivity|].
  pose proof (@context_updated_in_place spec_mimeparser ascii_lib (ARequest 1%positive)
                404 "Page Not Found" None None (PStr "no such page") 7%positive
                caller_context context_world eq_refl)
    as (_ & _ & _ & _ & _ & _ & Hfinal).
  exact (f_equal (fun w0 => w_dicts w0 !! 7%positive) (Hfinal eq_refl)).
Defined.

Lemma pydict_get_app_fresh {V} k (v : V) d1 d2 :
  ~ In k (pydict.keys d1) ->
  pydict.get k (d1 ++ (k, v) :: d2) = Some v.
Proof.
  induction d1 as [|[k1 v1] d1 IH]; simpl; intros Hk.
  - rewrite String.eqb_refl. reflexivity.
  - destruct (String.eqb k1 k) eqn:E.
    + apply String.eqb_eq in E. subst. exfalso. apply Hk. left. reflexivity.
    + apply IH. intros Hin. apply Hk. right. exact Hin.
Qed.

Section Xml.
Context `{Mimeparser} `{Library}.

Lemma xml_list_loop values : forall tag text children,
  forallb xml_item_ok values = true ->
  for_each values xml_list_item (etree.Elem tag text children)
  = Ok (etree.Elem tag text (children ++ map xml_element_of_item values)).
Proof.
  induction values as [|v values IH]; intros tag text children Hok.
  - simpl. rewrite List.app_nil_r. reflexivity.
  - cbn [forallb] in Hok. apply andb_true_iff in Hok as [Hv Hrest].
    cbn [for_each map]. unfold xml_list_item at 1.
    destruct v as [|b|z|s|l|n]; try discriminate Hv.
    + cbn [etree.set_text obind etree.append]. rewrite (IH _ _ _ Hrest).
      rewrite <- List.app_assoc. reflexivity.
    + cbn [xml_item_ok] in Hv. cbn [etree.set_text]. rewrite Hv.
      cbn [obind etree.append]. rewrite (IH _ _ _ Hrest).
      rewrite <- List.app_assoc. reflexivity.
Qed.

Lemma xml_key_loop (n : list (string * pyval)) : forall tag text children,
  forallb (fun kv => xml_text_ok (fst kv)) n = true ->
  for_each (map (fun kv => PStr (fst kv)) n) xml_list_item
    (etree.Elem tag text children)
  = Ok (etree.Elem tag text
          (children ++ map (fun kv => etree.Elem "element" (Some (fst kv)) []) n)).
Proof.
  intros tag text children Hok.
  rewrite xml_list_loop.
  - rewrite map_map. reflexivity.
  - rewrite forallb_forall in *. intros v Hv. apply in_map_iff in Hv as (kv & <- & Hkv).
    exact (Hok kv Hkv).
Qed.

(** One entry of the mapping: the element the loop body appends. *)
Lemma xml_details_item_entry details key value children :
  py_getitem details (PStr key) = Ok value ->
  xml_name_ok key = true ->
  xml_value_ok value = true ->
  xml_details_item details (etree.Elem "details" None children) (PStr key)
  = Ok (etree.Elem "details" None (children ++ [xml_entry (key, value)])).
Proof.
  intros Hget Hname Hval. unfold xml_details_item.
  cbn [etree.Element]. rewrite Hname. cbn [obind]. rewrite Hget. cbn [obind].
  destruct value as [|b|z|s|l|n]; try discriminate Hval.
  - cbn [is_str etree.set_text]. cbn [xml_value_ok] in Hval. rewrite Hval.
    reflexivity.
  - cbn [is_str has_iter py_iter obind]. cbn [xml_value_ok] in Hval.
    rewrite (xml_list_loop _ _ _ _ Hval). reflexivity.
  - cbn [is_str has_iter py_iter obind]. cbn [xml_value_ok] in Hval.
    rewrite (xml_key_loop _ _ _ _ Hval). reflexivity.
Qed.

Lemma xml_details_loop d2 : forall d1 children,
  List.NoDup (pydict.keys (d1 ++ d2)) ->
  Forall (fun kv => xml_name_ok (fst kv) = true /\ xml_value_ok (snd kv) = true) d2 ->
  for_each (map (fun kv => PStr (fst kv)) d2) (xml_details_item (PDict (d1 ++ d2)))
    (etree.Elem "details" None children)
  = Ok (etree.Elem "details" None (children ++ map xml_entry d2)).
Proof.
  induction d2 as [|[k v] d2 IH]; intros d1 children Hnd Hok.
  - simpl. rewrite List.app_nil_r. reflexivity.
  - inversion Hok as [|? ? [Hname Hval] Hrest]; subst.
    cbn [map for_each fst].
    assert (Hfresh : ~ In k (pydict.keys d1)).
    { unfold pydict.keys in *. rewrite map_app in Hnd. cbn [map fst] in Hnd.
      apply List.NoDup_remove_2 in Hnd. intros Hin. apply Hnd.
      apply in_or_app. left. exact Hin. }
    rewrite (xml_details_item_entry _ k v); [| |exact Hname|exact Hval].
    + cbn [obind]. specialize (IH (d1 ++ [(k, v)]) (children ++ [xml_entry (k, v)])).
      rewrite <- List.app_assoc in IH. cbn [app] in IH.
      rewrite IH; [|exact Hnd|exact Hrest].
      rewrite <- List.app_assoc. reflexivity.
    + cbn [py_getitem]. rewrite (pydict_get_app_fresh _ _ _ _ Hfresh). reflexivity.
Qed.

(** The document when there are no details. *)
Lemma xml_error_doc_no_details error_msg :
  xml_text_ok error_msg = true ->
  xml_error_doc (default_context error_msg PNone) = Ok (xml_document error_msg None).
Proof.
  intros Hmsg. unfold xml_error_doc, default_context.
  cbn [context_item pydict.get String.eqb Ascii.eqb Bool.eqb obind py_str etree.set_text].
  rewrite Hmsg. reflexivity.
Qed.

(** The document when the details are a string. *)
Lemma xml_error_doc_text error_msg text :
  xml_text_ok error_msg = true ->
  xml_text_ok text = true ->
  xml_error_doc (default_context error_msg (PStr text))
  = Ok (xml_document error_msg (Some (etree.Elem "details" (Some text) []))).
Proof.
  intros Hmsg Htext. unfold xml_error_doc, default_context.
  cbn [context_item pydict.get String.eqb Ascii.eqb Bool.eqb obind py_str
         etree.set_text is_str].
  rewrite Hmsg. cbn [obind etree.set_text]. rewrite Htext. reflexivity.
Qed.

(** The document when the details are a mapping: one child of
    [<details>] per key, in the order of the mapping. *)
Lemma xml_error_doc_mapping error_msg d :
  xml_text_ok error_msg = true ->
  List.NoDup (pydict.keys d) ->
  Forall (fun kv => xml_name_ok (fst kv) = true /\ xml_value_ok (snd kv) = true) d ->
  xml_error_doc (default_context error_msg (PDict d))
  = Ok (xml_document error_msg
          (Some (etree.Elem "details" None (map xml_entry d)))).
Proof.
  intros Hmsg Hnd Hok. unfold xml_error_doc, default_context.
  cbn [context_item pydict.get String.eqb Ascii.eqb Bool.eqb obind py_str
         etree.set_text is_str py_iter].
  rewrite Hmsg. cbn [obind].
  pose proof (xml_details_loop d [] [] Hnd Hok) as Hloop. cbn [app] in Hloop.
  rewrite Hloop. reflexivity.
Qed.

(** C9: the behaviour of the code where the claim fails.  A value of the
    details mapping that is itself a mapping is rendered as one
    [<element>] child per nested key, holding that key as its text; the
    nested values are dropped and no child is named after a nested key. *)
Theorem xml_nested_mapping_lists_keys error_msg key nested :
  xml_text_ok error_msg = true ->
  xml_name_ok key = true ->
  forallb (fun kv => xml_text_ok (fst kv)) nested = true ->
  xml_error_doc (default_context error_msg (PDict [(key, PDict nested)]))
  = Ok (xml_document error_msg
          (Some (etree.Elem "details" None
                   [etree.Elem key None
                      (map (fun kv => etree.Elem "element" (Some (fst kv)) [])
                         nested)]))).
Proof.
  intros Hmsg Hkey Hnested.
  rewrite xml_error_doc_mapping; [reflexivity|exact Hmsg| |].
  - constructor; [intros []|constructor].
  - constructor; [split; assumption|constructor].
Qed.
End Xml.

Lemma xml_nested_mapping_lists_keys_witness :
  @xml_error_doc ascii_lib
    (default_context "Invalid Payload"
       (PDict [("limits", PDict [("max", PStr "10")])]))
  = Ok (etree.Elem "error" None
          [etree.Elem "description" (Some "Invalid Payload") [];
           etree.Elem "details" None
             [etree.Elem "limits" None [etree.Elem "element" (Some "max") []]]]).
Proof.
  apply (@xml_nested_mapping_lists_keys ascii_lib "Invalid Payload" "limits"
           [("max", PStr "10")]); reflexivity.
Defined.

Example xml_nested_mapping_body :
  fst (@get_xml_error_response ascii_lib (ARequest 1%positive)
         "application/xml; charset=utf-8" 422 7%positive
         (with_context 7%positive
            (default_context "Invalid Payload"
               (PDict [("limits", PDict [("max", PStr "10")])])) json_world))
  = Ok "<error><description>Invalid Payload</description><details><limits><element>max</element></limits></details></error>".
Proof. vm_compute. reflexivity. Qed.

Lemma serializable_strings l : forallb json.serializable (map PStr l) = true.
Proof. induction l as [|s l IH]; [reflexivity|exact IH]. Qed.

Lemma xml_items_strings `{Library} l :
  forallb xml_text_ok l = true -> forallb xml_item_ok (map PStr l) = true.
Proof.
  induction l as [|s l IH]; [reflexivity|]. cbn [forallb map xml_item_ok].
  intros Hl. apply andb_true_iff in Hl as [Hs Hl]. rewrite Hs. exact (IH Hl).
Qed.

(** Modelled negotiation: when no supported type matches an entry of the
    header, the result is the empty string. *)
Lemma candidate_score_no_match cand entries :
  forallb (fun e => negb (mimeparser.matches cand e)) entries = true ->
  mimeparser.candidate_score cand entries None = None.
Proof.
  induction entries as [|e entries IH]; [reflexivity|].
  cbn [forallb mimeparser.candidate_score]. intros Hn.
  apply andb_true_iff in Hn as [He Hrest]. apply negb_true_iff in He.
  rewrite He. exact (IH Hrest).
Qed.

Lemma spec_best_match_no_match supported header :
  (forall c m, In c supported -> mimeparser.parse c = Some m ->
      forallb (fun e => negb (mimeparser.matches m e))
        (mimeparser.parse_accept header) = true) ->
  mimeparser.best_match supported header = "".
Proof.
  intros Hno. unfold mimeparser.best_match.
  assert (Hpick : mimeparser.pick (mimeparser.parse_accept header) supported None
                  = None).
  { induction supported as [|c supported IH]; [reflexivity|].
    cbn [mimeparser.pick].
    destruct (mimeparser.parse c) as [m|] eqn:Ec.
    - rewrite (candidate_score_no_match m _ (Hno c m (or_introl eq_refl) Ec)).
      apply IH. intros c' m' Hin. apply Hno. right. exact Hin.
    - apply IH. intros c' m' Hin. apply Hno. right. exact Hin. }
  rewrite Hpick. reflexivity.
Qed.

Section Produces.
Context `{Mimeparser} `{Library}.

(** What the wrapper of [produces] does for a live request passed by
    keyword. *)
Lemma produces_wrapper_live mime_types handler args kwargs l r w :
  request_of kwargs = ARequest l ->
  w_requests w !! l = Some r ->
  produces_wrapper mime_types handler args kwargs w
  = (if String.eqb (best_match mime_types (accept_of r)) ""
     then let* resp := build_error_response (ARequest l) 406 not_acceptable_msg
                         None None (supported_details mime_types) None in
          ret (AResponse resp)
     else delegate handler args kwargs)
      (with_request l
         (with_attr "best_response_mimetype" (best_match mime_types (accept_of r)) r)
         w).
Proof.
  intros Hreq Hl. unfold produces_wrapper. fold (request_of kwargs). rewrite Hreq.
  unfold bind at 1. rewrite (request_headers_live _ _ _ Hl).
  unfold bind at 1. fold (accept_of r).
  rewrite (request_setattr_live _ _ _ _ _ Hl).
  unfold bind at 1. rewrite request_getattr_set. reflexivity.
Qed.

(** The three renderings of the 406 answer. *)
Lemma render_not_acceptable_json mime_types :
  render_error "application/json; charset=utf-8"
    (default_context not_acceptable_msg (supported_details mime_types))
  = Ok (json.encode
          (PDict [("description", PStr not_acceptable_msg);
                  ("details", supported_details mime_types)])).
Proof.
  unfold render_error. cbn [String.eqb Ascii.eqb Bool.eqb].
  unfold json_error_body, default_context, supported_details.
  cbn [context_item pydict.get String.eqb Ascii.eqb Bool.eqb obind py_str pydict.set].
  unfold json.dumps. cbn [json.serializable forallb snd andb].
  rewrite serializable_strings. reflexivity.
Qed.

Lemma render_not_acceptable_xml mime_types :
  xml_text_ok not_acceptable_msg = true ->
  xml_name_ok "supported_mime_types" = true ->
  forallb xml_text_ok mime_types = true ->
  render_error "application/xml; charset=utf-8"
    (default_context not_acceptable_msg (supported_details mime_types))
  = Ok (etree.tostring
          (xml_document not_acceptable_msg
             (Some (etree.Elem "details" None
                      [etree.Elem "supported_mime_types" None
                         (map (fun m => etree.Elem "element" (Some m) [])
                            mime_types)])))).
Proof.
  intros Hmsg Hname Htypes. unfold render_error. cbn [String.eqb Ascii.eqb Bool.eqb].
  unfold supported_details. rewrite xml_error_doc_mapping.
  - cbn [obind map xml_entry snd fst]. rewrite map_map. reflexivity.
  - exact Hmsg.
  - constructor; [intros []|constructor].
  - constructor; [|constructor]. split; [exact Hname|].
    cbn [snd xml_value_ok]. apply xml_items_strings, Htypes.
Qed.

Lemma render_not_acceptable_plain content_type details :
  String.eqb content_type "application/json; charset=utf-8" = false ->
  String.eqb content_type "application/xml; charset=utf-8" = false ->
  render_error content_type (default_context not_acceptable_msg details)
  = Ok not_acceptable_msg.
Proof. intros Hj Hx. unfold render_error. rewrite Hj, Hx. reflexivity. Qed.

(** C4, amended: when the negotiation between [mime_types] and the
    [Accept] header of the request fails, the wrapper of [produces] stores
    the empty type on the request, starts no handler body and answers with
    the built-in rendering of the message and of the details
    [supported_mime_types: mime_types], status 406.  The JSON rendering
    holds the details; so does the XML rendering, one [<element>] per type,
    where the types are texts that XML accepts; the plain text rendering is
    the message alone and holds no entry for the supported types. *)
Theorem produces_not_acceptable mime_types handler args kwargs l r w :
  best_match_in_range ->
  request_of kwargs = ARequest l ->
  w_requests w !! l = Some r ->
  best_match mime_types (accept_of r) = "" ->
  exists content_type w',
    produces_wrapper mime_types handler args kwargs w
    = (match render_error content_type
               (default_context not_acceptable_msg (supported_details mime_types)) with
       | Ok body => Ok (AResponse (mkResponse body 406 (Some content_type) []))
       | Raise e => Raise e
       end, w')
    /\ w_calls w' = w_calls w
    /\ w_requests w' !! l = Some (with_attr "best_response_mimetype" "" r)
    /\ negotiate (req_headers r) ERROR_FORMATTERS = Ok content_type
    /\ (content_type = "application/json; charset=utf-8" ->
        render_error content_type
          (default_context not_acceptable_msg (supported_details mime_types))
        = Ok (json.encode
                (PDict [("description", PStr not_acceptable_msg);
                        ("details", supported_details mime_types)])))
    /\ (content_type = "application/xml; charset=utf-8" ->
        xml_text_ok not_acceptable_msg = true ->
        xml_name_ok "supported_mime_types" = true ->
        forallb xml_text_ok mime_types = true ->
        render_error content_type
          (default_context not_acceptable_msg (supported_details mime_types))
        = Ok (etree.tostring
                (xml_document not_acceptable_msg
                   (Some (etree.Elem "details" None
                            [etree.Elem "supported_mime_types" None
                               (map (fun m => etree.Elem "element" (Some m) [])
                                  mime_types)])))))
    /\ (content_type <> "application/json; charset=utf-8" ->
        content_type <> "application/xml; charset=utf-8" ->
        render_error content_type
          (default_context not_acceptable_msg (supported_details mime_types))
        = Ok not_acceptable_msg).
Proof.
  intros Hrange Hreq Hl Hfail.
  rewrite (produces_wrapper_live _ _ _ _ _ _ _ Hreq Hl), Hfail.
  cbn [String.eqb].
  set (r' := with_attr "best_response_mimetype" "" r).
  destruct (build_error_response_builtin l r' 406 not_acceptable_msg None
              (supported_details mime_types) (with_request l r' w) Hrange
              (with_request_lookup _ _ _)) as (ct & Hneg & _ & Hrun).
  exists ct. eexists. unfold bind. rewrite Hrun.
  split; [destruct (render_error _ _); reflexivity|].
  split; [reflexivity|]. split; [apply with_request_lookup|].
  split; [exact Hneg|]. split; [|split].
  - intros ->. apply render_not_acceptable_json.
  - intros ->. apply render_not_acceptable_xml.
  - intros Hj Hx. apply render_not_acceptable_plain; apply String.eqb_neq; assumption.
Qed.
End Produces.

(** C4, as stated, fails: [produces(["text/html"])] on a request that
    accepts only plain text answers 406 in plain text, and that body is
    the message alone: it mentions neither [supported_mime_types] nor
    [text/html]. *)
Lemma produces_plain_text_counterexample :
  fst (@produces_wrapper spec_mimeparser ascii_lib ["text/html"] sync_handler []
         [("request", ARequest 1%positive)] demo_world)
  = Ok (AResponse (mkResponse not_acceptable_msg 406
                     (Some "text/plain; charset=utf-8") []))
  /\ is_substring "supported_mime_types" not_acceptable_msg = false
  /\ is_substring "text/html" not_acceptable_msg = false.
Proof. repeat split; vm_compute; reflexivity. Qed.

Lemma produces_not_acceptable_witness :
  @best_match spec_mimeparser ["text/html"] (accept_of json_request) = ""
  /\ exists content_type w',
       @produces_wrapper spec_mimeparser ascii_lib ["text/html"] sync_handler []
         [("request", ARequest 1%positive)] json_world
       = (Ok (AResponse
                (mkResponse
                   (json.encode
                      (PDict [("description", PStr not_acceptable_msg);
                              ("details", supported_details ["text/html"])]))
                   406 (Some content_type) [])), w')
       /\ content_type = "application/json; charset=utf-8"
       /\ w_calls w' = [].
Proof.
  split; [reflexivity|].
  destruct (@produces_not_acceptable spec_mimeparser ascii_lib ["text/html"]
              sync_handler [] [("request", ARequest 1%positive)] 1%positive
              json_request json_world spec_best_match_in_range eq_refl eq_refl
              eq_refl)
    as (ct & w' & Hrun & Hcalls & _ & Hneg & Hjson & _).
  assert (Hct : ct = "application/json; charset=utf-8").
  { vm_compute in Hneg. inversion Hneg. reflexivity. }
  exists ct, w'. rewrite Hrun, (Hjson Hct). auto.
Defined.

Example produces_xml_body :
  fst (@produces_wrapper spec_mimeparser ascii_lib ["text/html"; "text/csv"]
         sync_handler []
         [("request", ARequest 1%positive)]
         (mkWorld {[ 1%positive := mkRequest [("accept", "application/xml")] [] ]}
            ∅ (fun _ => false) []))
  = Ok (AResponse
          (mkResponse
             ("<error><description>" +:+ not_acceptable_msg
              +:+ "</description><details><supported_mime_types><element>text/html</element><element>text/csv</element></supported_mime_types></details></error>")
             406 (Some "application/xml; charset=utf-8") [])).
Proof. vm_compute. reflexivity. Qed.

(** *** Reading back what [json.encode] writes: string literals *)

Lemma str_length_app s t :
  String.length (s +:+ t) = String.length s + String.length t.
Proof.
  induction s as [|c s IH]; [reflexivity|].
  rewrite str_app_cons. simpl. rewrite IH. reflexivity.
Qed.

(** An escaped character is read back as the character, and its rendering
    does not begin with a quote. *)
Lemma unescape_escape_char c r :
  json.unescape_head (json.escape_char c +:+ r) = Some (c, r).
Proof. destruct c as [[] [] [] [] [] [] [] []]; vm_compute; reflexivity. Qed.

Lemma escape_char_head c r :
  match json.escape_char c +:+ r with
  | String c0 _ => Ascii.eqb c0 json.dquote
  | EmptyString => true
  end = false.
Proof. destruct c as [[] [] [] [] [] [] [] []]; vm_compute; reflexivity. Qed.

Lemma parse_chars_escape s : forall fuel rest,
  String.length s < fuel ->
  json.parse_chars fuel (json.escape s +:+ String json.dquote rest) = Some (s, rest).
Proof.
  induction s as [|c s IH]; intros fuel rest Hfuel.
  - destruct fuel as [|f]; [inversion Hfuel|]. reflexivity.
  - destruct fuel as [|f]; [inversion Hfuel|].
    cbn [json.escape]. rewrite str_app_assoc.
    pose proof (unescape_escape_char c
                  (json.escape s +:+ String json.dquote rest)) as Hun.
    pose proof (escape_char_head c
                  (json.escape s +:+ String json.dquote rest)) as Hq.
    destruct (json.escape_char c +:+ json.escape s +:+ String json.dquote rest)
      as [|c0 r0]; [discriminate Hq|].
    cbn [json.parse_chars]. rewrite Hq, Hun, IH; [reflexivity|].
    simpl in Hfuel. lia.
Qed.

Lemma escape_length s : String.length s <= String.length (json.escape s).
Proof.
  induction s as [|c s IH]; [reflexivity|].
  cbn [json.escape]. rewrite str_length_app. simpl.
  assert (1 <= String.length (json.escape_char c)).
  { destruct c as [[] [] [] [] [] [] [] []]; vm_compute; lia. }
  lia.
Qed.

(** A string literal followed by anything is read back as the string. *)
Lemma parse_string_literal s rest :
  json.parse_chars
    (String.length (json.escape s +:+ String json.dquote rest))
    (json.escape s +:+ String json.dquote rest)
  = Some (s, rest).
Proof.
  apply parse_chars_escape. rewrite str_length_app. simpl.
  pose proof (escape_length s). lia.
Qed.

Lemma encode_str_unfold s rest :
  json.encode_str s +:+ rest
  = String json.dquote (json.escape s +:+ String json.dquote rest).
Proof.
  unfold json.encode_str, json.quote.
  rewrite str_app_cons, str_app_nil_l, str_app_cons, str_app_assoc.
  rewrite str_app_cons, str_app_nil_l.
  reflexivity.
Qed.

(** *** Reading back what [json.encode] writes: integers *)

Lemma span_digits_stop rest :
  ends_number rest = true -> json.span_digits rest = ("", rest).
Proof.
  destruct rest as [|c rest]; [reflexivity|].
  cbn [ends_number json.span_digits]. intros Hend.
  apply andb_true_iff in Hend as [Hd _]. apply negb_true_iff in Hd.
  rewrite Hd. reflexivity.
Qed.

Lemma span_digits_uint d : forall rest,
  ends_number rest = true ->
  json.span_digits (NilEmpty.string_of_uint d +:+ rest)
  = (NilEmpty.string_of_uint d, rest).
Proof.
  induction d; intros rest Hend;
    cbn [NilEmpty.string_of_uint];
    [rewrite str_app_nil_l; apply span_digits_stop, Hend|..];
    rewrite str_app_cons; cbn [json.span_digits];
    change (json.is_digit _) with true; cbn iota;
    rewrite (IHd _ Hend); reflexivity.
Qed.

(** The decimal digits of a positive number are normalised. *)
Lemma pos_to_uint_unorm p : Decimal.unorm (Pos.to_uint p) = Pos.to_uint p.
Proof.
  rewrite <- (DecimalPos.Unsigned.to_of (Pos.to_uint p)).
  rewrite DecimalPos.Unsigned.of_to. reflexivity.
Qed.

Lemma unorm_leading_zero d d' : Decimal.unorm d = Decimal.D0 d' -> d' = Decimal.Nil.
Proof.
  unfold Decimal.unorm. destruct (Decimal.nzhead d) eqn:E; intros Hd;
    try discriminate Hd.
  - inversion Hd. reflexivity.
  - exfalso. exact (nzhead_nonzero _ _ E).
Qed.

Lemma leading_zero_pos p :
  json.leading_zero (NilEmpty.string_of_uint (Pos.to_uint p)) = false.
Proof.
  pose proof (pos_to_uint_unorm p) as Hn.
  destruct (Pos.to_uint p) as [|d|d|d|d|d|d|d|d|d|d] eqn:E;
    [reflexivity
    |rewrite (unorm_leading_zero _ _ Hn); reflexivity
    |cbn [NilEmpty.string_of_uint json.leading_zero];
     destruct (NilEmpty.string_of_uint d); reflexivity..].
Qed.

Lemma uint_string_head d :
  d <> Decimal.Nil ->
  exists c t,
    NilEmpty.string_of_uint d = String c t
    /\ (N_of_ascii c =? 45)%N = false /\ Ascii.eqb c "-" = false.
Proof.
  destruct d; [congruence|..]; intros _; do 2 eexists;
    (split; [reflexivity|]); split; reflexivity.
Qed.

Lemma ends_number_no_fraction rest :
  ends_number rest = true -> json.starts_fraction rest = false.
Proof.
  destruct rest as [|c rest]; [reflexivity|].
  cbn [ends_number]. intros Hend. apply andb_true_iff in Hend as [_ Hf].
  apply negb_true_iff in Hf. exact Hf.
Qed.

Lemma uint_of_string_pos p :
  NilZero.uint_of_string (NilEmpty.string_of_uint (Pos.to_uint p))
  = Some (Pos.to_uint p).
Proof.
  pose proof (NilZero.usu (Pos.to_uint p) (DecimalPos.Unsigned.to_uint_nonnil p))
    as Husu.
  unfold NilZero.string_of_uint in Husu.
  destruct (Pos.to_uint p) eqn:E; try exact Husu.
  destruct (DecimalPos.Unsigned.to_uint_nonnil p E).
Qed.

(** The digits of a positive number, with or without a sign, followed by
    something that ends a number, are read back. *)
Lemma parse_digits_pos p rest :
  ends_number rest = true ->
  json.parse_int (NilEmpty.string_of_uint (Pos.to_uint p) +:+ rest)
  = Some (Z.pos p, rest).
Proof.
  intros Hend. unfold json.parse_int.
  destruct (uint_string_head _ (DecimalPos.Unsigned.to_uint_nonnil p))
    as (c & t & Hs & Hm & Hc).
  assert (Hhead : NilEmpty.string_of_uint (Pos.to_uint p) +:+ rest
                  = String c (t +:+ rest)).
  { rewrite Hs. apply str_app_cons. }
  rewrite Hhead, Hm, <- Hhead.
  rewrite (span_digits_uint _ _ Hend), leading_zero_pos.
  rewrite (ends_number_no_fraction _ Hend), Hs.
  cbn [pystr.nonempty negb orb]. rewrite <- Hs, str_app_nil_l.
  unfold NilZero.int_of_string. rewrite Hs, Hc, <- Hs, uint_of_string_pos.
  cbn [option_map Z.of_int].
  pose proof (DecimalZ.of_to (Z.pos p)) as Hz. cbn [Z.to_int Z.of_int] in Hz.
  rewrite Hz. reflexivity.
Qed.

Lemma parse_digits_neg p rest :
  ends_number rest = true ->
  json.parse_int (String "-" (NilEmpty.string_of_uint (Pos.to_uint p)) +:+ rest)
  = Some (Z.neg p, rest).
Proof.
  intros Hend. unfold json.parse_int. rewrite str_app_cons.
  change (N_of_ascii "-" =? 45)%N with true. cbn iota.
  destruct (uint_string_head _ (DecimalPos.Unsigned.to_uint_nonnil p))
    as (c & t & Hs & Hm & Hc).
  rewrite (span_digits_uint _ _ Hend), leading_zero_pos.
  rewrite (ends_number_no_fraction _ Hend), Hs.
  cbn [pystr.nonempty negb orb]. rewrite <- Hs.
  rewrite str_app_cons, str_app_nil_l.
  unfold NilZero.int_of_string. change (Ascii.eqb "-" "-") with true. cbn iota.
  rewrite uint_of_string_pos. cbn [option_map Z.of_int].
  pose proof (DecimalZ.of_to (Z.neg p)) as Hz. cbn [Z.to_int Z.of_int] in Hz.
  rewrite Hz. reflexivity.
Qed.

Lemma encode_int_cases z :
  json.encode_int z
  = match z with
    | Z0 => "0"
    | Z.pos p => NilEmpty.string_of_uint (Pos.to_uint p)
    | Z.neg p => String "-" (NilEmpty.string_of_uint (Pos.to_uint p))
    end.
Proof.
  unfold json.encode_int. destruct z as [|p|p]; cbn [Z.to_int NilZero.string_of_int].
  - reflexivity.
  - unfold NilZero.string_of_uint. destruct (Pos.to_uint p) eqn:E; try reflexivity.
    destruct (DecimalPos.Unsigned.to_uint_nonnil p E).
  - unfold NilZero.string_of_uint. destruct (Pos.to_uint p) eqn:E; try reflexivity.
    destruct (DecimalPos.Unsigned.to_uint_nonnil p E).
Qed.

(** An integer followed by something that ends a number is read back. *)
Lemma parse_int_encode z rest :
  ends_number rest = true ->
  json.parse_int (json.encode_int z +:+ rest) = Some (z, rest).
Proof.
  intros Hend. rewrite encode_int_cases. destruct z as [|p|p].
  - unfold json.parse_int. rewrite str_app_cons, str_app_nil_l.
    change (N_of_ascii "0" =? 45)%N with false. cbn iota.
    cbn [json.span_digits]. change (json.is_digit "0") with true. cbn iota.
    rewrite (span_digits_stop _ Hend), (ends_number_no_fraction _ Hend).
    reflexivity.
  - apply parse_digits_pos, Hend.
  - apply parse_digits_neg, Hend.
Qed.

(** *** Reading back what [json.encode] writes: values *)

Lemma pyval_nested_ind (P : pyval -> Prop) :
  P PNone ->
  (forall b, P (PBool b)) ->
  (forall z, P (PInt z)) ->
  (forall s, P (PStr s)) ->
  (forall l, Forall P l -> P (PList l)) ->
  (forall d, Forall (fun kv => P (snd kv)) d -> P (PDict d)) ->
  forall v, P v.
Proof.
  intros Hnone Hbool Hint Hstr Hlist Hdict.
  fix IH 1. intros [|b|z|s|l|d].
  - exact Hnone.
  - apply Hbool.
  - apply Hint.
  - apply Hstr.
  - apply Hlist. revert l. fix IHl 1. intros [|x l].
    + constructor.
    + constructor; [apply IH|apply IHl].
  - apply Hdict. revert d. fix IHd 1. intros [|[k x] d].
    + constructor.
    + constructor; [apply IH|apply IHd].
Qed.

(** The parser, one step at a time. *)
Lemma parse_value_string f x :
  json.parse_value (S f) (String json.dquote x)
  = match json.parse_chars (String.length x) x with
    | Some (str, rest) => Some (PStr str, rest)
    | None => None
    end.
Proof. reflexivity. Qed.

Lemma parse_value_list f r :
  json.parse_value (S f) (String "[" r)
  = match json.skip_ws r with
    | String c' r' =>
        if (N_of_ascii c' =? 93)%N then Some (PList [], r')
        else match json.parse_elems f r with
             | Some (l, rest) => Some (PList l, rest)
             | None => None
             end
    | EmptyString => None
    end.
Proof. reflexivity. Qed.

Lemma parse_value_dict f r :
  json.parse_value (S f) (String "{" r)
  = match json.skip_ws r with
    | String c' r' =>
        if (N_of_ascii c' =? 125)%N then Some (PDict [], r')
        else match json.parse_members f [] r with
             | Some (d, rest) => Some (PDict d, rest)
             | None => None
             end
    | EmptyString => None
    end.
Proof. reflexivity. Qed.

Lemma parse_value_number f c t :
  json.is_digit c || Ascii.eqb c "-" = true ->
  json.parse_value (S f) (String c t)
  = match json.parse_int (String c t) with
    | Some (z, rest) => Some (PInt z, rest)
    | None => None
    end.
Proof.
  destruct c as [[] [] [] [] [] [] [] []]; intros Hc;
    try (vm_compute in Hc; discriminate Hc); reflexivity.
Qed.

Lemma parse_elems_step g s :
  json.parse_elems (S g) s
  = match json.parse_value g s with
    | Some (v, r) =>
        match json.skip_ws r with
        | String c r' =>
            if (N_of_ascii c =? 44)%N then
              match json.parse_elems g r' with
              | Some (vs, rest) => Some (v :: vs, rest)
              | None => None
              end
            else if (N_of_ascii c =? 93)%N then Some ([v], r')
            else None
        | EmptyString => None
        end
    | None => None
    end.
Proof. reflexivity. Qed.

Lemma parse_members_step g acc r :
  json.parse_members (S g) acc (String json.dquote r)
  = match json.parse_chars (String.length r) r with
    | Some (k, r1) =>
        match json.skip_ws r1 with
        | String c r2 =>
            if (N_of_ascii c =? 58)%N then
              match json.parse_value g r2 with
              | Some (v, r3) =>
                  match json.skip_ws r3 with
                  | String c' r4 =>
                      if (N_of_ascii c' =? 44)%N
                      then json.parse_members g (pydict.set k v acc) r4
                      else if (N_of_ascii c' =? 125)%N
                      then Some (pydict.set k v acc, r4)
                      else None
                  | EmptyString => None
                  end
              | None => None
              end
            else None
        | EmptyString => None
        end
    | None => None
    end.
Proof. reflexivity. Qed.

Lemma encode_opens_value v rest : opens_value (json.encode v +:+ rest).
Proof.
  unfold opens_value. destruct v as [|[]|z|s|l|d].
  - do 2 eexists. split; [reflexivity|]. repeat split.
  - do 2 eexists. split; [reflexivity|]. repeat split.
  - do 2 eexists. split; [reflexivity|]. repeat split.
  - cbn [json.encode]. rewrite encode_int_cases. destruct z as [|p|p].
    + do 2 eexists. split; [reflexivity|]. repeat split.
    + destruct (uint_string_head _ (DecimalPos.Unsigned.to_uint_nonnil p))
        as (c & t & Hs & Hm & Hc).
      exists c, (t +:+ rest). rewrite Hs. split; [apply str_app_cons|].
      revert Hs. generalize (Pos.to_uint p). intros u Hs.
      destruct u; cbn [NilEmpty.string_of_uint] in Hs; inversion Hs; subst;
        repeat split.
    + do 2 eexists. split; [reflexivity|]. repeat split.
  - cbn [json.encode]. rewrite encode_str_unfold.
    do 2 eexists. split; [reflexivity|]. repeat split.
  - do 2 eexists. split; [reflexivity|]. repeat split.
  - do 2 eexists. split; [reflexivity|]. repeat split.
Qed.

Lemma skip_ws_opens s : opens_value s -> json.skip_ws s = s.
Proof.
  intros (c & t & -> & Hws & _). cbn [json.skip_ws]. rewrite Hws. reflexivity.
Qed.

Lemma parse_elems_encode xs : forall x g rest,
  Forall reads_back (x :: xs) ->
  forallb json.wf (x :: xs) = true ->
  cost_elems (x :: xs) <= g ->
  json.parse_elems g
    (String.concat "," (map json.encode (x :: xs)) +:+ String "]" rest)
  = Some (x :: xs, rest).
Proof.
  induction xs as [|y ys IH]; intros x g rest Hall Hwf Hcost;
    inversion Hall as [|? ? Hx Hrest]; subst;
    cbn [forallb] in Hwf; apply andb_true_iff in Hwf as [Hwx Hwrest];
    unfold cost_elems in Hcost; cbn [fold_right] in Hcost;
    (destruct g as [|g]; [lia|]); rewrite parse_elems_step.
  - cbn [map String.concat].
    rewrite (Hx Hwx g (String "]" rest)); [reflexivity|lia|reflexivity].
  - cbn [map]. rewrite concat_cons. cbn [map].
    change (json.encode x
            +:+ "," +:+ String.concat "," (json.encode y :: map json.encode ys))
      with (json.encode x
            +:+ "," +:+ String.concat "," (map json.encode (y :: ys))).
    rewrite !str_app_assoc, str_app_cons, str_app_nil_l.
    rewrite (Hx Hwx g); [|lia|reflexivity].
    cbn [json.skip_ws]. change (json.is_ws ",") with false. cbn iota.
    change (N_of_ascii "," =? 44)%N with true. cbn iota.
    rewrite (IH y g rest Hrest Hwrest); [reflexivity|].
    unfold cost_elems. cbn [fold_right]. lia.
Qed.

Lemma set_fresh {V} k (v : V) acc :
  pystr.mem k (map fst acc) = false -> pydict.set k v acc = acc ++ [(k, v)].
Proof.
  induction acc as [|[k' v'] acc IH]; [reflexivity|].
  cbn [map fst pystr.mem existsb pydict.set]. intros Hm.
  apply orb_false_iff in Hm as [Hk Hrest].
  rewrite String.eqb_sym, Hk. cbn [app]. f_equal. apply IH. exact Hrest.
Qed.

Lemma uniq_app_cons acc k (x : pyval) d :
  json.uniq (map fst (acc ++ (k, x) :: d)) = true ->
  pystr.mem k (map fst acc) = false
  /\ json.uniq (map fst ((acc ++ [(k, x)]) ++ d)) = true.
Proof.
  intros Hu. split.
  - induction acc as [|[k' v'] acc IH]; [reflexivity|].
    cbn [app map fst json.uniq] in Hu. apply andb_true_iff in Hu as [Hk Hrest].
    change (pystr.mem k (map fst ((k', v') :: acc)))
      with (String.eqb k k' || pystr.mem k (map fst acc)).
    rewrite (IH Hrest), orb_false_r.
    apply negb_true_iff in Hk.
    destruct (String.eqb k k') eqn:E; [|reflexivity].
    apply String.eqb_eq in E. subst k'. exfalso.
    assert (Hin : pystr.mem k (map fst (acc ++ (k, x) :: d)) = true).
    { apply mem_In. rewrite map_app. apply in_or_app. right. left. reflexivity. }
    rewrite Hin in Hk. discriminate.
  - rewrite <- List.app_assoc. exact Hu.
Qed.

Lemma parse_members_encode d : forall kv acc g rest,
  Forall (fun e => reads_back (snd e)) (kv :: d) ->
  forallb (fun e => json.wf (snd e)) (kv :: d) = true ->
  json.uniq (map fst (acc ++ kv :: d)) = true ->
  cost_members (kv :: d) <= g ->
  json.parse_members g acc
    (String.concat "," (map encode_member (kv :: d)) +:+ String "}" rest)
  = Some (acc ++ kv :: d, rest).
Proof.
  induction d as [|e d IH]; intros [k x] acc g rest Hall Hwf Hu Hcost;
    inversion Hall as [|? ? Hx Hrest]; subst;
    cbn [forallb snd] in Hwf; apply andb_true_iff in Hwf as [Hwx Hwrest];
    unfold cost_members in Hcost; cbn [fold_right snd] in Hcost;
    (destruct g as [|g]; [lia|]);
    destruct (uniq_app_cons _ _ _ _ Hu) as [Hfresh Hu'];
    cbn [snd] in Hx.
  - cbn [map String.concat]. unfold encode_member. cbn [fst snd].
    rewrite !str_app_assoc, encode_str_unfold, parse_members_step.
    rewrite parse_string_literal.
    rewrite str_app_cons, str_app_nil_l.
    cbn [json.skip_ws]. change (json.is_ws ":") with false. cbn iota.
    change (N_of_ascii ":" =? 58)%N with true. cbn iota.
    rewrite (Hx Hwx g (String "}" rest)); [|lia|reflexivity].
    cbn [json.skip_ws]. change (json.is_ws "}") with false. cbn iota.
    change (N_of_ascii "}" =? 44)%N with false.
    change (N_of_ascii "}" =? 125)%N with true. cbn iota.
    rewrite (set_fresh _ _ _ Hfresh). reflexivity.
  - cbn [map]. rewrite concat_cons. cbn [map].
    change (encode_member (k, x)
            +:+ "," +:+ String.concat "," (encode_member e :: map encode_member d))
      with (encode_member (k, x)
            +:+ "," +:+ String.concat "," (map encode_member (e :: d))).
    unfold encode_member at 1. cbn [fst snd].
    rewrite !str_app_assoc, encode_str_unfold, parse_members_step.
    rewrite parse_string_literal.
    rewrite str_app_cons, str_app_nil_l.
    cbn [json.skip_ws]. change (json.is_ws ":") with false. cbn iota.
    change (N_of_ascii ":" =? 58)%N with true. cbn iota.
    rewrite str_app_cons, str_app_nil_l.
    rewrite (Hx Hwx g); [|lia|reflexivity].
    cbn [json.skip_ws]. change (json.is_ws ",") with false. cbn iota.
    change (N_of_ascii "," =? 44)%N with true. cbn iota.
    rewrite (set_fresh _ _ _ Hfresh).
    rewrite (IH e (acc ++ [(k, x)]) g rest Hrest Hwrest Hu').
    + rewrite <- List.app_assoc. reflexivity.
    + unfold cost_members. cbn [fold_right snd]. lia.
Qed.

Lemma parse_value_encode v : reads_back v.
Proof.
  induction v as [|b|z|s|l IHl|d IHd] using pyval_nested_ind;
    intros Hwf fuel rest Hcost Hend;
    (destruct fuel as [|f]; [cbn [json.cost] in Hcost; lia|]).
  - reflexivity.
  - destruct b; reflexivity.
  - cbn [json.encode].
    destruct (encode_opens_value (PInt z) rest) as (c & t & Hs & _).
    cbn [json.encode] in Hs.
    assert (Hc : json.is_digit c || Ascii.eqb c "-" = true).
    { rewrite encode_int_cases in Hs. destruct z as [|p|p].
      - inversion Hs. reflexivity.
      - destruct (uint_string_head _ (DecimalPos.Unsigned.to_uint_nonnil p))
          as (c' & t' & Hs' & _).
        rewrite Hs', str_app_cons in Hs. inversion Hs; subst c'.
        revert Hs'. generalize (Pos.to_uint p). intros u Hs'.
        destruct u; cbn [NilEmpty.string_of_uint] in Hs'; inversion Hs';
          reflexivity.
      - inversion Hs. reflexivity. }
    rewrite Hs, (parse_value_number f c t Hc), <- Hs.
    rewrite (parse_int_encode z rest Hend). reflexivity.
  - cbn [json.encode]. rewrite encode_str_unfold, parse_value_string.
    rewrite parse_string_literal. reflexivity.
  - cbn [json.encode]. rewrite str_app_assoc, str_app_cons, str_app_nil_l.
    rewrite parse_value_list.
    destruct l as [|x xs].
    + reflexivity.
    + rewrite str_app_assoc, str_app_cons, str_app_nil_l.
      assert (Hopen : opens_value
                (String.concat "," (map json.encode (x :: xs)) +:+ String "]" rest)).
      { cbn [map]. rewrite concat_cons.
        destruct (map json.encode xs); [|rewrite str_app_assoc];
          apply encode_opens_value. }
      rewrite (skip_ws_opens _ Hopen).
      destruct Hopen as (c & t & Hs & _ & Hclose & _).
      rewrite Hs, Hclose, <- Hs.
      cbn [json.wf] in Hwf. cbn [json.cost] in Hcost.
      rewrite (parse_elems_encode xs x f rest IHl Hwf); [reflexivity|].
      unfold cost_elems. lia.
  - cbn [json.encode]. rewrite str_app_assoc, str_app_cons, str_app_nil_l.
    rewrite parse_value_dict.
    destruct d as [|kv d].
    + reflexivity.
    + rewrite str_app_assoc, str_app_cons, str_app_nil_l.
      change (map (fun kv0 : string * pyval =>
                     json.encode_str (fst kv0) +:+ ":" +:+ json.encode (snd kv0)))
        with (map encode_member).
      assert (Hopen : exists t,
                 String.concat "," (map encode_member (kv :: d)) +:+ String "}" rest
                 = String json.dquote t).
      { cbn [map]. rewrite concat_cons.
        destruct (map encode_member d); unfold encode_member;
          rewrite ?str_app_assoc, encode_str_unfold; eexists; reflexivity. }
      destruct Hopen as [t Hs]. rewrite Hs. cbn [json.skip_ws].
      change (json.is_ws json.dquote) with false. cbn iota.
      change (N_of_ascii json.dquote =? 125)%N with false. cbn iota.
      rewrite <- Hs.
      cbn [json.wf] in Hwf. apply andb_true_iff in Hwf as [Hu Hwf].
      cbn [json.cost] in Hcost.
      rewrite (parse_members_encode d kv [] f rest IHd Hwf Hu); [reflexivity|].
      unfold cost_members. lia.
Qed.

Lemma encode_nonempty v : 1 <= String.length (json.encode v).
Proof.
  destruct (encode_opens_value v "") as (c & t & Hs & _).
  rewrite str_app_nil_r in Hs. rewrite Hs. simpl. lia.
Qed.

Lemma cost_elems_le_length l :
  Forall (fun v => json.cost v <= String.length (json.encode v)) l ->
  cost_elems l <= String.length (String.concat "," (map json.encode l)) + 1.
Proof.
  induction 1 as [|x xs Hx Hxs IH]; [simpl; lia|].
  cbn [map]. rewrite concat_cons. unfold cost_elems in *. cbn [fold_right].
  cbv beta in Hx.
  destruct xs as [|y ys].
  - cbn [fold_right map]. lia.
  - cbn [map]. cbn [map] in IH. rewrite !str_length_app.
    change (String.length ",") with 1. lia.
Qed.

Lemma cost_members_le_length d :
  Forall (fun kv => json.cost (snd kv) <= String.length (json.encode (snd kv))) d ->
  cost_members d <= String.length (String.concat "," (map encode_member d)) + 1.
Proof.
  induction 1 as [|kv d Hkv Hd IH]; [simpl; lia|].
  cbn [map]. rewrite concat_cons. unfold cost_members in *. cbn [fold_right].
  cbv beta in Hkv.
  assert (Hm : json.cost (snd kv) + 1 <= String.length (encode_member kv)).
  { unfold encode_member. rewrite !str_length_app.
    change (String.length ":") with 1. lia. }
  destruct d as [|e d].
  - cbn [fold_right map]. lia.
  - cbn [map]. cbn [map] in IH. rewrite !str_length_app.
    change (String.length ",") with 1. lia.
Qed.

Lemma cost_le_length v : json.cost v <= String.length (json.encode v).
Proof.
  induction v as [|b|z|s|l IHl|d IHd] using pyval_nested_ind;
    try (apply encode_nonempty).
  - cbn [json.cost json.encode]. rewrite !str_length_app.
    pose proof (cost_elems_le_length l IHl) as Hl. unfold cost_elems in Hl.
    change (String.length "[") with 1. change (String.length "]") with 1. lia.
  - cbn [json.cost json.encode]. rewrite !str_length_app.
    pose proof (cost_members_le_length d IHd) as Hd. unfold cost_members in Hd.
    change (map (fun kv : string * pyval =>
                   json.encode_str (fst kv) +:+ ":" +:+ json.encode (snd kv)))
      with (map encode_member).
    change (String.length "{") with 1. change (String.length "}") with 1. lia.
Qed.

(** Round trip: the rendering of a value is read back as the value. *)
Lemma loads_encode v : json.wf v = true -> json.loads (json.encode v) = Some v.
Proof.
  intros Hwf. unfold json.loads.
  pose proof (parse_value_encode v Hwf (S (String.length (json.encode v))) "")
    as Hparse.
  rewrite str_app_nil_r in Hparse. rewrite Hparse; [reflexivity| |reflexivity].
  pose proof (cost_le_length v). lia.
Qed.

Section JsonFormatter.
Context `{Mimeparser} `{Library}.

(** C8: for a context whose message is the string [error_msg], the body of
    the JSON formatter is read back by [json.loads] as exactly the
    dictionary with the one key [description] when the details are absent
    or [None], and as that dictionary followed by the key [details],
    holding the details, otherwise. *)
Theorem json_error_body_round_trip request mimetype status_code c d w error_msg :
  w_dicts w !! c = Some d ->
  pydict.get "error_msg" d = Some (PStr error_msg) ->
  (pydict.get "details" d = None \/ pydict.get "details" d = Some PNone ->
   exists body,
     get_json_error_response request mimetype status_code c w = (Ok body, w)
     /\ json.loads body = Some (PDict [("description", PStr error_msg)])
     /\ pydict.mem "details" [("description", PStr error_msg)] = false)
  /\ (forall details,
        pydict.get "details" d = Some details ->
        details <> PNone ->
        json.serializable details = true ->
        json.wf details = true ->
        exists body,
          get_json_error_response request mimetype status_code c w = (Ok body, w)
          /\ json.loads body
             = Some (PDict [("description", PStr error_msg); ("details", details)])).
Proof.
  intros Hd Hmsg. split.
  - intros Hnone. rewrite (json_formatter_run _ _ _ _ _ _ Hd).
    unfold json_error_body, context_item. rewrite Hmsg. cbn [obind py_str].
    assert (Hbody : match pydict.get "details" d with
                    | None | Some PNone => Ok (PDict [("description", PStr error_msg)])
                    | Some details =>
                        Ok (PDict (pydict.set "details" details
                                     [("description", PStr error_msg)]))
                    end = Ok (PDict [("description", PStr error_msg)])).
    { destruct Hnone as [-> | ->]; reflexivity. }
    rewrite Hbody. cbn [obind]. unfold json.dumps.
    cbn [json.serializable forallb snd andb].
    eexists. split; [reflexivity|]. split; [|reflexivity].
    apply loads_encode. reflexivity.
  - intros details Hdet Hnn Hser Hwf. rewrite (json_formatter_run _ _ _ _ _ _ Hd).
    unfold json_error_body, context_item. rewrite Hmsg, Hdet. cbn [obind py_str].
    assert (Hbody : match details with
                    | PNone => Ok (PDict [("description", PStr error_msg)])
                    | _ => Ok (PDict (pydict.set "details" details
                                        [("description", PStr error_msg)]))
                    end
                    = Ok (PDict [("description", PStr error_msg);
                                 ("details", details)])).
    { destruct details; try reflexivity. congruence. }
    rewrite Hbody. cbn [obind]. unfold json.dumps.
    cbn [json.serializable forallb snd]. rewrite Hser. cbn [andb].
    eexists. split; [reflexivity|].
    apply loads_encode. cbn [json.wf map fst snd forallb]. rewrite Hwf. reflexivity.
Qed.
End JsonFormatter.

Lemma json_error_body_round_trip_witness :
  (exists body,
     @get_json_error_response ascii_lib (ARequest 1%positive)
       "application/json; charset=utf-8" 404 7%positive
       (with_context 7%positive (default_context "Page Not Found" PNone) json_world)
     = (Ok body,
        with_context 7%positive (default_context "Page Not Found" PNone) json_world)
     /\ json.loads body = Some (PDict [("description", PStr "Page Not Found")])
     /\ pydict.mem "details" [("description", PStr "Page Not Found")] = false)
  /\ (exists body,
        @get_json_error_response ascii_lib (ARequest 1%positive)
          "application/json; charset=utf-8" 406 7%positive
          (with_context 7%positive
             (default_context not_acceptable_msg (supported_details ["text/html"]))
             json_world)
        = (Ok body,
           with_context 7%positive
             (default_context not_acceptable_msg (supported_details ["text/html"]))
             json_world)
        /\ json.loads body
           = Some (PDict [("description", PStr not_acceptable_msg);
                          ("details", supported_details ["text/html"])])).
Proof.
  split.
  - apply (proj1 (@json_error_body_round_trip ascii_lib
                    (ARequest 1%positive) "application/json; charset=utf-8" 404
                    7%positive (default_context "Page Not Found" PNone)
                    (with_context 7%positive
                       (default_context "Page Not Found" PNone) json_world)
                    "Page Not Found" eq_refl eq_refl)).
    right. reflexivity.
  - apply (proj2 (@json_error_body_round_trip ascii_lib
                    (ARequest 1%positive) "application/json; charset=utf-8" 406
                    7%positive
                    (default_context not_acceptable_msg
                       (supported_details ["text/html"]))
                    (with_context 7%positive
                       (default_context not_acceptable_msg
                          (supported_details ["text/html"])) json_world)
                    not_acceptable_msg eq_refl eq_refl));
      [reflexivity|discriminate|reflexivity|reflexivity].
Defined.

(** ** The URL helpers *)

Lemma endswith_app_sep c s : pystr.endswith c (s +:+ String c "") = true.
Proof.
  rewrite endswith_app_nonempty by discriminate. simpl. apply Ascii.eqb_refl.
Qed.

Lemma prefix_app s t : String.prefix s (s +:+ t) = true.
Proof.
  induction s as [|c s IH]; [destruct t; reflexivity|].
  rewrite str_app_cons, prefix_cons. destruct (ascii_dec c c); [exact IH|congruence].
Qed.

Lemma prefix_refl s : String.prefix s s = true.
Proof. rewrite <- (str_app_nil_r s) at 2. apply prefix_app. Qed.

(** X1: [force_trailing_slash] raises [IndexError] exactly on the empty
    string.  Every other URL gives a result that ends with a slash, starts
    with the URL, is at most one character longer, and is left unchanged
    by a second application. *)
Theorem force_trailing_slash_idempotent url :
  (force_trailing_slash url = Raise (Exception "IndexError") <-> url = "")
  /\ (url <> "" ->
      exists r,
        force_trailing_slash url = Ok r
        /\ pystr.endswith "/"%char r = true
        /\ String.prefix url r = true
        /\ String.length r <= S (String.length url)
        /\ force_trailing_slash r = Ok r).
Proof.
  split.
  - split.
    + destruct url as [|c s]; [reflexivity|]. unfold force_trailing_slash.
      destruct (pystr.endswith _ _); discriminate.
    + intros ->. reflexivity.
  - intros Hne. destruct url as [|c s]; [congruence|].
    unfold force_trailing_slash at 1.
    destruct (pystr.endswith "/"%char (String c s)) eqn:E.
    + exists (String c s). split; [reflexivity|]. split; [exact E|].
      split; [apply prefix_refl|]. split; [lia|].
      unfold force_trailing_slash. rewrite E. reflexivity.
    + exists (String c s +:+ "/"). split; [reflexivity|].
      split; [apply endswith_app_sep|]. split; [apply prefix_app|].
      split; [rewrite str_length_app; simpl; lia|].
      rewrite str_app_cons. unfold force_trailing_slash.
      rewrite <- str_app_cons, endswith_app_sep. reflexivity.
Qed.

Lemma force_trailing_slash_idempotent_witness :
  "/api/workspace" <> ""
  /\ exists r,
       force_trailing_slash "/api/workspace" = Ok r
       /\ pystr.endswith "/"%char r = true
       /\ String.prefix "/api/workspace" r = true
       /\ String.length r <= S (String.length "/api/workspace")
       /\ force_trailing_slash r = Ok r.
Proof.
  split; [discriminate|].
  apply (proj2 (force_trailing_slash_idempotent "/api/workspace")). discriminate.
Defined.

(** X2: for a request whose URL carries no explicit port, so that
    [request.url.port] is [None], and with neither [FORCE_PROTO] nor
    [FORCE_PORT] set, [get_current_domain] compares the missing port with
    80 or 443, finds it different and appends it: the domain ends with
    [:None]. *)
Theorem get_current_domain_missing_port settings getfqdn secure host cache :
  FORCE_PROTO settings = None ->
  FORCE_PORT settings = None ->
  let servername :=
    match FORCE_DOMAIN settings with Some domain => domain | None => host end in
  get_current_domain settings getfqdn
    (Some (mkURL (Ok secure) (Ok (Some host)) (Ok None))) cache
  = (Ok (Some (servername +:+ ":None")), cache).
Proof.
  intros Hproto Hport servername. unfold get_current_domain, get_current_scheme.
  rewrite Hproto, Hport. cbn [request_url url_is_secure url_hostname url_port obind].
  unfold servername. destruct (FORCE_DOMAIN settings), secure; reflexivity.
Qed.

Lemma get_current_domain_missing_port_witness :
  FORCE_PROTO (mkUrlSettings None None None) = None
  /\ FORCE_PORT (mkUrlSettings None None None) = None
  /\ get_current_domain (mkUrlSettings None None None) "localhost"
       (Some (mkURL (Ok false) (Ok (Some "example.com")) (Ok None))) None
     = (Ok (Some "example.com:None"), None).
Proof.
  split; [reflexivity|]. split; [reflexivity|].
  apply (get_current_domain_missing_port (mkUrlSettings None None None) "localhost"
           false "example.com" None); reflexivity.
Defined.

(** The global after a call: it is set when it was empty, no domain is
    forced and the host name of the request cannot be read, because there
    is no request or because the access raises. *)
Lemma get_current_domain_state settings getfqdn request cache :
  snd (get_current_domain settings getfqdn request cache)
  = match FORCE_DOMAIN settings, request_url request url_hostname, cache with
    | None, Raise _, None => Some getfqdn
    | _, _, _ => cache
    end.
Proof.
  unfold get_current_domain.
  destruct (FORCE_DOMAIN settings) as [d|];
    [|destruct (request_url request url_hostname) as [[h|]|e]; [| |destruct cache]];
    destruct (get_current_scheme settings request); try reflexivity;
    destruct (_ || _); reflexivity.
Qed.

(** X3: the module global [_servername] is written at most once.  Once it
    holds a name, no call changes it and no call depends on what
    [socket.getfqdn] would answer.  It is first set, to the answer of
    [socket.getfqdn], by a call without [FORCE_DOMAIN] that cannot read
    the host name of its request: a call without a request, or with a
    request whose [url.hostname] raises, which the source catches in the
    same way.  No other call sets it. *)
Theorem servername_is_cached settings getfqdn getfqdn' request name :
  get_current_domain settings getfqdn request (Some name)
  = get_current_domain settings getfqdn' request (Some name)
  /\ snd (get_current_domain settings getfqdn request (Some name)) = Some name
  /\ (FORCE_DOMAIN settings = None ->
      snd (get_current_domain settings getfqdn None None) = Some getfqdn
      /\ get_current_domain settings getfqdn None None
         = get_current_domain settings getfqdn' None (Some getfqdn))
  /\ (forall url e,
        FORCE_DOMAIN settings = None ->
        url_hostname url = Raise e ->
        snd (get_current_domain settings getfqdn (Some url) None) = Some getfqdn)
  /\ (FORCE_DOMAIN settings <> None
      \/ (exists url hostname, request = Some url /\ url_hostname url = Ok hostname) ->
      snd (get_current_domain settings getfqdn request None) = None).
Proof.
  split; [|split; [|split; [|split]]].
  - unfold get_current_domain.
    destruct (FORCE_DOMAIN settings); [reflexivity|].
    destruct (request_url request url_hostname); reflexivity.
  - rewrite get_current_domain_state.
    destruct (FORCE_DOMAIN settings); [reflexivity|].
    destruct (request_url request url_hostname) as [[h|]|e]; reflexivity.
  - intros Hdom. split.
    + rewrite get_current_domain_state, Hdom. reflexivity.
    + unfold get_current_domain. rewrite Hdom. reflexivity.
  - intros url e Hdom Hhost. rewrite get_current_domain_state, Hdom.
    cbn [request_url]. rewrite Hhost. reflexivity.
  - rewrite get_current_domain_state. intros [Hdom|(url & hostname & -> & Hhost)].
    + destruct (FORCE_DOMAIN settings); [|congruence].
      destruct (request_url request url_hostname) as [[h|]|e]; reflexivity.
    + cbn [request_url]. rewrite Hhost.
      destruct (FORCE_DOMAIN settings), hostname; reflexivity.
Qed.

Lemma servername_is_cached_witness :
  FORCE_DOMAIN (mkUrlSettings None None None) = None
  /\ snd (get_current_domain (mkUrlSettings None None None) "host.example" None None)
     = Some "host.example"
  /\ get_current_domain (mkUrlSettings None None None) "host.example" None None
     = get_current_domain (mkUrlSettings None None None) "renamed.example" None
         (Some "host.example")
  /\ snd (get_current_domain (mkUrlSettings None None None) "host.example"
            (Some (mkURL (Ok false) (Raise (ValueError "Invalid IPv6 URL"))
                     (Ok (Some 8000%Z)))) None)
     = Some "host.example"
  /\ snd (get_current_domain (mkUrlSettings None None None) "host.example"
            (Some (mkURL (Ok false) (Ok (Some "example.com")) (Ok (Some 8000%Z)))) None)
     = None.
Proof.
  pose proof (servername_is_cached (mkUrlSettings None None None) "host.example"
                "renamed.example"
                (Some (mkURL (Ok false) (Ok (Some "example.com")) (Ok (Some 8000%Z))))
                "unused") as (_ & _ & Hfirst & Hraise & Hkept).
  split; [reflexivity|]. destruct (Hfirst eq_refl) as [Hset Hsame].
  split; [exact Hset|]. split; [exact Hsame|]. split.
  - apply (Hraise _ (ValueError "Invalid IPv6 URL")); reflexivity.
  - apply Hkept. right. eexists _, _. split; reflexivity.
Defined.

(** X4: the port is shown only for the schemes [http] and [https].  When
    [FORCE_PROTO] names any other scheme, [get_current_domain] returns the
    server name alone, whatever [FORCE_PORT] or the URL of the request
    say: the forced domain, else the host name of the request, else, when
    that cannot be read, the cached name or the answer of
    [socket.getfqdn], which is then cached. *)
Theorem forced_scheme_hides_port settings getfqdn request cache proto :
  FORCE_PROTO settings = Some proto ->
  proto <> "http" -> proto <> "https" ->
  get_current_domain settings getfqdn request cache
  = match FORCE_DOMAIN settings with
    | Some domain => (Ok (Some domain), cache)
    | None =>
        match request_url request url_hostname with
        | Ok hostname => (Ok hostname, cache)
        | Raise _ =>
            let name := match cache with Some name => name | None => getfqdn end in
            (Ok (Some name), Some name)
        end
    end.
Proof.
  intros Hproto Hhttp Hhttps. unfold get_current_domain, get_current_scheme.
  rewrite Hproto.
  apply String.eqb_neq in Hhttp, Hhttps. rewrite Hhttp, Hhttps. cbn [andb orb].
  destruct (FORCE_DOMAIN settings) as [d|]; [reflexivity|].
  destruct (request_url request url_hostname) as [h|e]; [reflexivity|].
  destruct cache; reflexivity.
Qed.

Lemma forced_scheme_hides_port_witness :
  get_current_domain (mkUrlSettings (Some "HTTPS") (Some "example.com") (Some 8443%Z))
    "localhost" None None
  = (Ok (Some "example.com"), None)
  /\ get_current_domain (mkUrlSettings (Some "ws") None None) "localhost"
       (Some (mkURL (Ok false) (Ok (Some "example.org")) (Ok (Some 8000%Z)))) None
     = (Ok (Some "example.org"), None).
Proof.
  split.
  - apply (forced_scheme_hides_port
             (mkUrlSettings (Some "HTTPS") (Some "example.com") (Some 8443%Z))
             "localhost" None None "HTTPS"); [reflexivity|discriminate|discriminate].
  - apply (forced_scheme_hides_port (mkUrlSettings (Some "ws") None None) "localhost"
             (Some (mkURL (Ok false) (Ok (Some "example.org")) (Ok (Some 8000%Z))))
             None "ws"); [reflexivity|discriminate|discriminate].
Defined.

(** X22: with no setting forced, the domain of a request whose URL names
    a host and a port is the host alone when the port is the default one
    of the scheme, 443 for a secure URL and 80 for any other, and the host
    followed by a colon and the port otherwise.  Without a request the
    domain is the cached server name, or the answer of [socket.getfqdn]
    when nothing is cached yet, never followed by a port. *)
Theorem default_port_is_left_out settings getfqdn secure host port cache :
  FORCE_PROTO settings = None ->
  FORCE_DOMAIN settings = None ->
  FORCE_PORT settings = None ->
  get_current_domain settings getfqdn
    (Some (mkURL (Ok secure) (Ok (Some host)) (Ok (Some port)))) cache
  = (Ok (Some (if (port =? (if secure then 443 else 80))%Z then host
               else host +:+ ":" +:+ int_str port)), cache)
  /\ get_current_domain settings getfqdn None cache
     = let name := match cache with Some name => name | None => getfqdn end in
       (Ok (Some name), Some name).
Proof.
  intros Hproto Hdomain Hport. unfold get_current_domain, get_current_scheme.
  rewrite Hproto, Hdomain, Hport.
  cbn [request_url url_is_secure url_hostname url_port obind]. split.
  - destruct secure; cbn [String.eqb Ascii.eqb Bool.eqb andb orb port_differs];
      destruct (port =? _)%Z; reflexivity.
  - destruct cache; reflexivity.
Qed.

Lemma default_port_is_left_out_witness :
  get_current_domain (mkUrlSettings None None None) "localhost"
    (Some (mkURL (Ok true) (Ok (Some "example.com")) (Ok (Some 443%Z)))) None
  = (Ok (Some "example.com"), None)
  /\ get_current_domain (mkUrlSettings None None None) "localhost"
       (Some (mkURL (Ok false) (Ok (Some "example.com")) (Ok (Some 8000%Z)))) None
     = (Ok (Some "example.com:8000"), None).
Proof.
  split.
  - apply (proj1 (default_port_is_left_out (mkUrlSettings None None None) "localhost"
                    true "example.com" 443%Z None eq_refl eq_refl eq_refl)).
  - apply (proj1 (default_port_is_left_out (mkUrlSettings None None None) "localhost"
                    false "example.com" 8000%Z None eq_refl eq_refl eq_refl)).
Defined.

(** ** [iri_to_uri] *)

Lemma all_chars_app p s t :
  all_chars p (s +:+ t) = all_chars p s && all_chars p t.
Proof.
  induction s as [|c s IH]; [rewrite str_app_nil_l; reflexivity|].
  rewrite str_app_cons. cbn [all_chars]. rewrite IH. apply andb_assoc.
Qed.

Lemma iri_to_uri_cons c s :
  iri_to_uri (String c s) = iri_to_uri (String c "") +:+ iri_to_uri s.
Proof.
  unfold iri_to_uri. cbn [urlquote.quote]. rewrite str_app_nil_r. reflexivity.
Qed.

(** What [iri_to_uri] writes for one character is made of kept
    characters. *)
Lemma iri_to_uri_char_kept c :
  all_chars uri_char (iri_to_uri (String c "")) = true.
Proof. destruct c as [[] [] [] [] [] [] [] []]; vm_compute; reflexivity. Qed.

(** A kept character is written as it is. *)
Lemma iri_to_uri_char_id c :
  uri_char c = true -> iri_to_uri (String c "") = String c "".
Proof.
  destruct c as [[] [] [] [] [] [] [] []]; intros Hc; vm_compute in Hc;
    try discriminate Hc; vm_compute; reflexivity.
Qed.

Lemma iri_to_uri_id s :
  all_chars uri_char s = true -> iri_to_uri s = s.
Proof.
  induction s as [|c s IH]; [reflexivity|]. cbn [all_chars].
  intros [Hc Hs]%andb_true_iff. rewrite iri_to_uri_cons, (iri_to_uri_char_id c Hc).
  rewrite IH by exact Hs. reflexivity.
Qed.

Lemma iri_to_uri_kept s : all_chars uri_char (iri_to_uri s) = true.
Proof.
  induction s as [|c s IH]; [reflexivity|].
  rewrite iri_to_uri_cons, all_chars_app, iri_to_uri_char_kept. exact IH.
Qed.

(** What [iri_to_uri] writes for an ASCII character other than [%] is read
    back by the percent decoding. *)
Lemma unquote_to_bytes_iri_to_uri_char c rest :
  plain_ascii c = true ->
  urllib.unquote_to_bytes (iri_to_uri (String c "") +:+ rest)
  = String c (urllib.unquote_to_bytes rest).
Proof.
  destruct c as [[] [] [] [] [] [] [] []]; intros Hc; vm_compute in Hc;
    try discriminate Hc; reflexivity.
Qed.

Lemma unquote_to_bytes_iri_to_uri s :
  all_chars plain_ascii s = true -> urllib.unquote_to_bytes (iri_to_uri s) = s.
Proof.
  induction s as [|c s IH]; [reflexivity|]. cbn [all_chars].
  intros [Hc Hs]%andb_true_iff.
  rewrite iri_to_uri_cons, (unquote_to_bytes_iri_to_uri_char c _ Hc), IH by exact Hs.
  reflexivity.
Qed.

Lemma unquote_to_bytes_no_percent s :
  pystr.contains "%"%char s = false -> urllib.unquote_to_bytes s = s.
Proof.
  induction s as [|c s IH]; [reflexivity|]. cbn [pystr.contains].
  intros [Hc Hs]%orb_false_iff. cbn [urllib.unquote_to_bytes].
  rewrite Hc, IH by exact Hs. reflexivity.
Qed.

Lemma all_chars_impl (p q : ascii -> bool) s :
  (forall c, p c = true -> q c = true) ->
  all_chars p s = true -> all_chars q s = true.
Proof.
  intros Hpq. induction s as [|c s IH]; [reflexivity|]. cbn [all_chars].
  intros [Hc Hs]%andb_true_iff. rewrite (Hpq c Hc), IH by exact Hs. reflexivity.
Qed.

Lemma uri_char_ascii c : uri_char c = true -> utf8.byte_in 0 127 c = true.
Proof.
  destruct c as [[] [] [] [] [] [] [] []]; intros Hc; vm_compute in Hc;
    try discriminate Hc; reflexivity.
Qed.

Lemma plain_ascii_ascii c : plain_ascii c = true -> utf8.byte_in 0 127 c = true.
Proof.
  destruct c as [[] [] [] [] [] [] [] []]; intros Hc; vm_compute in Hc;
    try discriminate Hc; reflexivity.
Qed.

Lemma decode_replace_ascii s :
  all_chars (utf8.byte_in 0 127) s = true -> utf8.decode_replace s = s.
Proof.
  induction s as [|c s IH]; [reflexivity|]. cbn [all_chars].
  intros [Hc Hs]%andb_true_iff. cbn [utf8.decode_replace].
  rewrite Hc, IH by exact Hs. reflexivity.
Qed.

(** On a text of ASCII characters the loop of [unquote] sees one run. *)
Lemma unquote_runs_ascii s : forall run,
  all_chars (utf8.byte_in 0 127) s = true ->
  urllib.unquote_runs run s = urllib.unquote_run (run +:+ s).
Proof.
  induction s as [|c s IH]; intros run.
  - rewrite str_app_nil_r. reflexivity.
  - cbn [all_chars]. intros [Hc Hs]%andb_true_iff. cbn [urllib.unquote_runs].
    rewrite Hc, IH by exact Hs. rewrite str_app_assoc, str_app_cons, str_app_nil_l.
    reflexivity.
Qed.

(** X5: the result of [iri_to_uri] holds no character but letters, digits
    and the characters of [_.-~/#%[]=:;$&()+,!?*@'], so no blank, no
    control character and nothing outside of ASCII; a text made of these
    characters is returned as it is; and [iri_to_uri] is idempotent: a
    percent sign is kept, so what is escaped once is not escaped again. *)
Theorem iri_to_uri_idempotent iri :
  all_chars uri_char (iri_to_uri iri) = true
  /\ (all_chars uri_char iri = true -> iri_to_uri iri = iri)
  /\ iri_to_uri (iri_to_uri iri) = iri_to_uri iri.
Proof.
  split; [apply iri_to_uri_kept|]. split; [apply iri_to_uri_id|].
  apply iri_to_uri_id, iri_to_uri_kept.
Qed.

Lemma iri_to_uri_idempotent_witness :
  all_chars uri_char "/wirecloud/workspace?name=a%20b" = true
  /\ iri_to_uri "/wirecloud/workspace?name=a%20b" = "/wirecloud/workspace?name=a%20b".
Proof.
  split; [reflexivity|].
  apply (proj1 (proj2 (iri_to_uri_idempotent "/wirecloud/workspace?name=a%20b"))).
  reflexivity.
Defined.

(** X6: [unquote], which the download helper applies to the requested
    path, reads back what [iri_to_uri] writes: for an ASCII text without a
    percent sign, decoding the encoded text gives the text. *)
Theorem unquote_iri_to_uri iri :
  all_chars plain_ascii iri = true ->
  urllib.unquote (iri_to_uri iri) = iri.
Proof.
  intros Hplain.
  pose proof (unquote_to_bytes_iri_to_uri iri Hplain) as Hbytes.
  unfold urllib.unquote.
  destruct (pystr.contains "%"%char (iri_to_uri iri)) eqn:Epercent; cbn [negb].
  - rewrite unquote_runs_ascii.
    + rewrite str_app_nil_l. unfold urllib.unquote_run. rewrite Hbytes.
      apply decode_replace_ascii.
      apply (all_chars_impl plain_ascii); [apply plain_ascii_ascii|exact Hplain].
    + apply (all_chars_impl uri_char); [apply uri_char_ascii|apply iri_to_uri_kept].
  - rewrite <- Hbytes at 2. symmetry. apply unquote_to_bytes_no_percent, Epercent.
Qed.

Lemma unquote_iri_to_uri_witness :
  all_chars plain_ascii "my files/a<b>.txt" = true
  /\ iri_to_uri "my files/a<b>.txt" = "my%20files/a%3Cb%3E.txt"
  /\ urllib.unquote (iri_to_uri "my files/a<b>.txt") = "my files/a<b>.txt".
Proof.
  split; [reflexivity|]. split; [reflexivity|].
  apply (unquote_iri_to_uri "my files/a<b>.txt"). reflexivity.
Defined.

(** ** Reversing a URL pattern *)

Lemma brace_app s : "{" +:+ s = String "{" s.
Proof. rewrite str_app_cons, str_app_nil_l. reflexivity. Qed.

Lemma prefix_brace_mismatch o c s :
  Ascii.eqb c "{"%char = false -> String.prefix (String "{" o) (String c s) = false.
Proof.
  intros Hc. rewrite prefix_cons. destruct (ascii_dec "{" c) as [<-|]; [|reflexivity].
  rewrite Ascii.eqb_refl in Hc. discriminate.
Qed.

Lemma replace_from_no_brace o new s :
  pystr.contains "{"%char s = false -> replace_from (String "{" o) new 0 s = s.
Proof.
  induction s as [|c s IH]; [reflexivity|]. cbn [pystr.contains].
  intros [Hc Hs]%orb_false_iff. cbn [replace_from].
  rewrite (prefix_brace_mismatch o c s Hc), IH by exact Hs. reflexivity.
Qed.

Lemma is_substring_no_brace o s :
  pystr.contains "{"%char s = false -> is_substring (String "{" o) s = false.
Proof.
  induction s as [|c s IH]; [reflexivity|]. cbn [pystr.contains].
  intros [Hc Hs]%orb_false_iff. cbn [is_substring].
  rewrite (prefix_brace_mismatch o c s Hc), IH by exact Hs. reflexivity.
Qed.

Lemma replace_from_skip old new a b :
  replace_from old new (String.length a) (a +:+ b) = replace_from old new 0 b.
Proof.
  induction a as [|c a IH]; [rewrite str_app_nil_l; reflexivity|].
  rewrite str_app_cons. exact IH.
Qed.

Lemma prefix_app_same k a b : String.prefix (k +:+ a) (k +:+ b) = String.prefix a b.
Proof.
  induction k as [|c k IH]; [rewrite !str_app_nil_l; reflexivity|].
  rewrite !str_app_cons, prefix_cons. destruct (ascii_dec c c); [exact IH|congruence].
Qed.

(** The first occurrence of a placeholder is replaced, and the text before
    it and after it, which hold no brace, is kept. *)
Lemma replace_from_placeholder o new pre post :
  pystr.contains "{"%char pre = false ->
  pystr.contains "{"%char post = false ->
  replace_from (String "{" o) new 0 (pre +:+ String "{" o +:+ post)
  = pre +:+ new +:+ post.
Proof.
  intros Hpre Hpost. induction pre as [|c pre IH].
  - rewrite !str_app_nil_l, str_app_cons. cbn [replace_from].
    rewrite <- str_app_cons, prefix_app. cbn [String.length].
    replace (S (String.length o) - 1) with (String.length o) by lia.
    rewrite replace_from_skip, replace_from_no_brace by exact Hpost.
    reflexivity.
  - cbn [pystr.contains] in Hpre. apply orb_false_iff in Hpre as [Hc Hpre].
    rewrite !(str_app_cons c pre). cbn [replace_from].
    rewrite (prefix_brace_mismatch o c _ Hc), IH by exact Hpre. reflexivity.
Qed.

Lemma is_substring_skip o pre s :
  pystr.contains "{"%char pre = false ->
  is_substring (String "{" o) (pre +:+ s) = is_substring (String "{" o) s.
Proof.
  intros Hpre. induction pre as [|c pre IH]; [rewrite str_app_nil_l; reflexivity|].
  cbn [pystr.contains] in Hpre. apply orb_false_iff in Hpre as [Hc Hpre].
  rewrite str_app_cons. cbn [is_substring].
  rewrite (prefix_brace_mismatch o c _ Hc), IH by exact Hpre. reflexivity.
Qed.

Lemma is_substring_here o s : is_substring (String "{" o) (String "{" o +:+ s) = true.
Proof.
  rewrite str_app_cons. cbn [is_substring].
  rewrite <- str_app_cons, prefix_app. reflexivity.
Qed.

Section ReverseTheorems.
Context `{Library}.

(** X7: [get_relative_reverse_url] raises [ValueError] for a view without
    a pattern, and it returns a pattern without any placeholder as it is,
    whatever the keyword arguments: arguments that name no placeholder are
    ignored, silently. *)
Theorem reverse_without_placeholder patterns viewname kwargs :
  (pydict.get viewname patterns = None ->
   get_relative_reverse_url patterns viewname kwargs
   = Raise (ValueError ("No URL pattern found for view " +:+ json.quote
                        +:+ viewname +:+ json.quote)))
  /\ (forall url,
        pydict.get viewname patterns = Some url ->
        pystr.contains "{"%char url = false ->
        get_relative_reverse_url patterns viewname kwargs = Ok url).
Proof.
  unfold get_relative_reverse_url. split.
  - intros ->. reflexivity.
  - intros url -> Hurl. induction kwargs as [|[key value] kwargs IH]; [reflexivity|].
    cbn [for_each]. unfold reverse_step at 1. cbn [fst snd].
    rewrite !brace_app, (is_substring_no_brace _ _ Hurl).
    unfold str_replace. rewrite (replace_from_no_brace _ _ _ Hurl). exact IH.
Qed.

(** X8: a pattern with one placeholder, reversed with its argument.  The
    placeholder [{key}] is replaced by [str] of the value; the placeholder
    [{key:path}] is replaced by the value itself when that is a string,
    and raises [TypeError] for any other value.  The text around the
    placeholder is kept. *)
Theorem reverse_fills_placeholder patterns viewname pre post key value :
  pystr.contains "{"%char pre = false ->
  pystr.contains "{"%char post = false ->
  pystr.contains "{"%char key = false ->
  (pydict.get viewname patterns = Some (pre +:+ "{" +:+ key +:+ "}" +:+ post) ->
   get_relative_reverse_url patterns viewname [(key, value)]
   = Ok (pre +:+ py_str value +:+ post))
  /\ (pydict.get viewname patterns = Some (pre +:+ "{" +:+ key +:+ ":path}" +:+ post) ->
      get_relative_reverse_url patterns viewname [(key, value)]
      = match value with
        | PStr v => Ok (pre +:+ v +:+ post)
        | _ => Raise (TypeError "replace() argument 2 must be str")
        end).
Proof.
  intros Hpre Hpost Hkey. unfold get_relative_reverse_url. split; intros ->.
  - cbn [for_each obind]. unfold reverse_step. cbn [fst snd].
    assert (Hno : is_substring ("{" +:+ (key +:+ ":path") +:+ "}")
                    (pre +:+ "{" +:+ key +:+ "}" +:+ post) = false).
    { rewrite !brace_app, (is_substring_skip _ _ _ Hpre). cbn [is_substring].
      rewrite prefix_cons. destruct (ascii_dec "{" "{"); [|congruence].
      rewrite str_app_assoc, prefix_app_same.
      rewrite is_substring_no_brace; [reflexivity|].
      rewrite !contains_app, Hkey, Hpost. reflexivity. }
    rewrite Hno. unfold str_replace. rewrite !brace_app.
    rewrite <- (str_app_assoc key "}" post).
    rewrite <- (str_app_cons "{"%char (key +:+ "}") post).
    rewrite (replace_from_placeholder _ _ _ _ Hpre Hpost). reflexivity.
  - cbn [for_each obind]. unfold reverse_step. cbn [fst snd].
    rewrite !brace_app, !str_app_assoc.
    change (":path" +:+ "}") with ":path}".
    rewrite <- (str_app_assoc key ":path}" post).
    rewrite <- (str_app_cons "{"%char (key +:+ ":path}") post).
    rewrite (is_substring_skip _ _ _ Hpre), is_substring_here.
    destruct value; try reflexivity.
    unfold str_replace. rewrite (replace_from_placeholder _ _ _ _ Hpre Hpost).
    reflexivity.
Qed.

End ReverseTheorems.

Lemma reverse_without_placeholder_witness :
  pydict.get "wirecloud.root" [("wirecloud.root", "/api/workspaces")]
  = Some "/api/workspaces"
  /\ pystr.contains "{"%char "/api/workspaces" = false
  /\ @get_relative_reverse_url ascii_lib [("wirecloud.root", "/api/workspaces")]
       "wirecloud.root" [("workspace_id", PInt 7)] = Ok "/api/workspaces"
  /\ @get_relative_reverse_url ascii_lib [("wirecloud.root", "/api/workspaces")]
       "missing" []
     = Raise (ValueError ("No URL pattern found for view " +:+ json.quote
                          +:+ "missing" +:+ json.quote)).
Proof.
  split; [reflexivity|]. split; [reflexivity|].
  split.
  - apply (proj2 (@reverse_without_placeholder ascii_lib
                    [("wirecloud.root", "/api/workspaces")] "wirecloud.root"
                    [("workspace_id", PInt 7)])); reflexivity.
  - apply (proj1 (@reverse_without_placeholder ascii_lib
                    [("wirecloud.root", "/api/workspaces")] "missing" [])).
    reflexivity.
Defined.

Lemma reverse_fills_placeholder_witness :
  @get_relative_reverse_url ascii_lib
    [("wirecloud.workspace_entry", "/api/workspace/{workspace_id}/tabs")]
    "wirecloud.workspace_entry" [("workspace_id", PInt 7)]
  = Ok "/api/workspace/7/tabs"
  /\ @get_relative_reverse_url ascii_lib
       [("wirecloud.showcase_media", "/showcase/media/{path:path}")]
       "wirecloud.showcase_media" [("path", PInt 7)]
     = Raise (TypeError "replace() argument 2 must be str").
Proof.
  split.
  - apply (proj1 (@reverse_fills_placeholder ascii_lib
                    [("wirecloud.workspace_entry", "/api/workspace/{workspace_id}/tabs")]
                    "wirecloud.workspace_entry" "/api/workspace/" "/tabs"
                    "workspace_id" (PInt 7) eq_refl eq_refl eq_refl)).
    reflexivity.
  - apply (proj2 (@reverse_fills_placeholder ascii_lib
                    [("wirecloud.showcase_media", "/showcase/media/{path:path}")]
                    "wirecloud.showcase_media" "/showcase/media/" ""
                    "path" (PInt 7) eq_refl eq_refl eq_refl)).
    reflexivity.
Defined.

(** ** More on the error responses *)

Lemma pydict_get_In_keys {V} k (d : list (string * V)) :
  In k (pydict.keys d) -> exists v, pydict.get k d = Some v.
Proof.
  induction d as [|[k' v'] d IH]; [intros []|].
  cbn [pydict.keys map fst In pydict.get]. intros [->|Hin].
  - rewrite String.eqb_refl. eexists; reflexivity.
  - destruct (String.eqb k' k); [eexists; reflexivity|apply IH, Hin].
Qed.

Lemma pydict_get_keys_In {V} k (v : V) d :
  pydict.get k d = Some v -> In k (pydict.keys d).
Proof.
  induction d as [|[k' v'] d IH]; [discriminate|].
  cbn [pydict.keys map fst In pydict.get].
  destruct (String.eqb k' k) eqn:E.
  - apply String.eqb_eq in E. auto.
  - intros Hget. right. apply IH, Hget.
Qed.

Lemma list_remove_In x l :
  In x l -> exists r, list_remove x l = Ok r /\ forall y, In y r -> In y l.
Proof.
  induction l as [|y l IH]; [intros []|]. intros Hin. cbn [list_remove].
  destruct (String.eqb y x) eqn:E.
  - exists l. split; [reflexivity|]. intros z Hz. right. exact Hz.
  - destruct IH as (r & -> & Hr).
    { destruct Hin as [->|Hin]; [rewrite String.eqb_refl in E; discriminate|exact Hin]. }
    exists (y :: r). split; [reflexivity|].
    intros z [->|Hz]; [left; reflexivity|right; apply Hr, Hz].
Qed.

Section MoreErrorResponse.
Context `{Mimeparser} `{Library}.

Lemma merged_formatters_builtin extra key f :
  pydict.get key ERROR_FORMATTERS = Some f ->
  pydict.get key (merged_formatters extra) = Some f.
Proof.
  intros Hf. destruct extra as [extra|]; [|exact Hf].
  rewrite merged_formatters_get, Hf. reflexivity.
Qed.

(** X9: the negotiation of [build_error_response] never fails.  Whatever
    table of extra formats the caller passes and whatever the headers of
    the request, the table in use holds the fallback key, so that removing
    it cannot raise, and, with a [best_match] that answers one of the
    offered types or the empty string, the content type that is settled on
    has a formatter: the exception [No suitable formatter found] is never
    raised. *)
Theorem negotiation_never_fails extra hs :
  best_match_in_range ->
  exists content_type f,
    negotiate hs (merged_formatters extra) = Ok content_type
    /\ pydict.get content_type (merged_formatters extra) = Some f.
Proof.
  intros Hrange. unfold negotiate.
  destruct (String.eqb _ "XMLHttpRequest").
  { eexists _, _. split; [reflexivity|].
    apply merged_formatters_builtin. reflexivity. }
  assert (Hempty : pydict.get "" (merged_formatters extra)
                   = Some get_plain_text_error_response).
  { apply merged_formatters_builtin. reflexivity. }
  destruct (list_remove_In "" (pydict.keys (merged_formatters extra))
              (pydict_get_keys_In _ _ _ Hempty)) as (keys & -> & Hkeys).
  cbn [obind].
  destruct (Hrange keys (headers_get_default hs "Accept" "*/*")) as [->|Hin].
  - eexists _, _. split; [reflexivity|exact Hempty].
  - destruct (pydict_get_In_keys _ _ (Hkeys _ Hin)) as [f Hf].
    eexists _, _. split; [reflexivity|exact Hf].
Qed.

Lemma error_response_world request status_code error_msg headers details w :
  snd (build_error_response request status_code error_msg None headers details None w)
  = with_context (fresh (dom (w_dicts w))) (default_context error_msg details) w.
Proof.
  unfold build_error_response, bind, new_dict, dict_update.
  cbn [w_dicts set_dicts]. rewrite lookup_insert_eq.
  cbn [merged_formatters]. rewrite build_response_builtin_world.
  unfold with_context, set_dicts. cbn [w_dicts w_requests w_isfile w_calls].
  rewrite insert_insert_eq. reflexivity.
Qed.

(** X10: an error response built with the default table and without a
    context writes one new dictionary object and nothing else, whether it
    returns or raises and whatever the request argument is: the request
    objects, the file system and the log of started handlers are as
    before, every dictionary object that existed is unchanged, and the
    new object holds the message and the details. *)
Theorem error_response_frame request status_code error_msg headers details w :
  let w' := snd (build_error_response request status_code error_msg None headers
                   details None w) in
  w_requests w' = w_requests w
  /\ w_calls w' = w_calls w
  /\ w_isfile w' = w_isfile w
  /\ (forall c d, w_dicts w !! c = Some d -> w_dicts w' !! c = Some d)
  /\ w_dicts w !! fresh (dom (w_dicts w)) = None
  /\ w_dicts w' !! fresh (dom (w_dicts w)) = Some (default_context error_msg details).
Proof.
  intros w'. unfold w'. rewrite error_response_world.
  assert (Hfresh : w_dicts w !! fresh (dom (w_dicts w)) = None).
  { apply not_elem_of_dom, is_fresh. }
  repeat split; try exact Hfresh.
  - intros c d Hc. unfold with_context, set_dicts. cbn [w_dicts].
    rewrite lookup_insert_ne; [exact Hc|]. intros <-. congruence.
  - apply with_context_lookup.
Qed.

(** X11: a request sent with [X-Requested-With: XMLHttpRequest] gets its
    error as JSON, whatever its [Accept] header asks for and whatever
    extra formats the caller passes: the content type is
    [application/json; charset=utf-8] and the body is the built-in JSON
    rendering of the message and the details. *)
Theorem xhr_gets_json extra l r status_code error_msg headers details w :
  w_requests w !! l = Some r ->
  headers_get (req_headers r) "X-Requested-With" = Some "XMLHttpRequest" ->
  fst (build_error_response (ARequest l) status_code error_msg extra headers
         details None w)
  = match render_error "application/json; charset=utf-8"
            (default_context error_msg details) with
    | Ok body =>
        Ok (mkResponse body status_code (Some "application/json; charset=utf-8")
              (response_headers (match headers with Some h => h | None => [] end)))
    | Raise e => Raise e
    end.
Proof.
  intros Hl Hxhr.
  rewrite (build_error_response_fresh _ _ _ _ _ _ _ _ Hl).
  rewrite (build_response_live l r); [|exact Hl].
  unfold negotiate, headers_get_default. rewrite Hxhr. cbn [String.eqb Ascii.eqb Bool.eqb].
  rewrite (merged_formatters_builtin extra "application/json; charset=utf-8"
             get_json_error_response eq_refl).
  rewrite (json_formatter_run _ _ _ _ _ _ (with_context_lookup _ _ _)).
  unfold render_error. cbn [String.eqb Ascii.eqb Bool.eqb].
  destruct (obind _ _); reflexivity.
Qed.

(** X12: when nothing the default table offers is acceptable to the
    client, [best_match] answers the empty string and the error is still
    delivered, by the fallback formatter: the body is the message alone,
    without the details, and the media type of the response is the empty
    string. *)
Theorem unacceptable_falls_back_to_plain_text l r status_code error_msg headers
    details w :
  w_requests w !! l = Some r ->
  headers_get_default (req_headers r) "X-Requested-With" "" <> "XMLHttpRequest" ->
  best_match ["application/json; charset=utf-8"; "application/xml; charset=utf-8";
              "text/plain; charset=utf-8"] (accept_of r) = "" ->
  fst (build_error_response (ARequest l) status_code error_msg None headers
         details None w)
  = Ok (mkResponse error_msg status_code (Some "")
          (response_headers (match headers with Some h => h | None => [] end))).
Proof.
  intros Hl Hxhr Hbest.
  rewrite (build_error_response_fresh _ _ _ _ _ _ _ _ Hl).
  rewrite (build_response_live l r); [|exact Hl].
  unfold negotiate. apply String.eqb_neq in Hxhr. rewrite Hxhr.
  cbn [merged_formatters pydict.keys ERROR_FORMATTERS map fst list_remove String.eqb
         Ascii.eqb Bool.eqb obind].
  unfold accept_of in Hbest. rewrite Hbest.
  cbn [pydict.get ERROR_FORMATTERS String.eqb Ascii.eqb Bool.eqb].
  rewrite (plain_formatter_run _ _ _ _ _ _ (with_context_lookup _ _ _)).
  reflexivity.
Qed.

(** X13: each built-in formatter needs the entry [error_msg]: called on a
    context without it, the JSON, the XML and the plain text formatter all
    raise [KeyError] for that key, before they look at anything else, and
    leave the state as it is. *)
Theorem formatters_need_error_msg content_type f request status_code c d w :
  pydict.get content_type ERROR_FORMATTERS = Some f ->
  w_dicts w !! c = Some d ->
  pydict.get "error_msg" d = None ->
  f request content_type status_code c w = (Raise (KeyError "error_msg"), w).
Proof.
  intros Hf Hd Hmsg. rewrite (builtin_formatter_run _ _ _ _ _ _ _ Hf Hd).
  unfold render_error, json_error_body, xml_error_doc, context_item. rewrite Hmsg.
  repeat match goal with |- context [if ?b then _ else _] => destruct b end;
    reflexivity.
Qed.

End MoreErrorResponse.

Lemma negotiation_never_fails_witness :
  exists content_type f,
    @negotiate spec_mimeparser [("accept", "image/png")]
      (@merged_formatters ascii_lib (Some [("image/png", custom_formatter)]))
    = Ok content_type
    /\ pydict.get content_type
         (@merged_formatters ascii_lib (Some [("image/png", custom_formatter)]))
       = Some f.
Proof.
  apply (@negotiation_never_fails spec_mimeparser ascii_lib
           (Some [("image/png", custom_formatter)]) [("accept", "image/png")]).
  apply spec_best_match_in_range.
Defined.

Lemma xhr_gets_json_witness :
  fst (@build_error_response spec_mimeparser ascii_lib (ARequest 1%positive) 404
         "Page Not Found" None None PNone None
         (mkWorld {[ 1%positive := mkRequest [("accept", "application/xml");
                                              ("x-requested-with", "XMLHttpRequest")] [] ]}
            ∅ (fun _ => false) []))
  = match @render_error ascii_lib "application/json; charset=utf-8"
            (default_context "Page Not Found" PNone) with
    | Ok body =>
        Ok (mkResponse body 404 (Some "application/json; charset=utf-8")
              (response_headers []))
    | Raise e => Raise e
    end.
Proof.
  apply (@xhr_gets_json spec_mimeparser ascii_lib None 1%positive
           (mkRequest [("accept", "application/xml");
                       ("x-requested-with", "XMLHttpRequest")] []));
    reflexivity.
Defined.

Lemma unacceptable_falls_back_to_plain_text_witness :
  fst (@build_error_response spec_mimeparser ascii_lib (ARequest 1%positive) 404
         "Page Not Found" None None (PStr "no such workspace") None
         (mkWorld {[ 1%positive := mkRequest [("accept", "image/png")] [] ]}
            ∅ (fun _ => false) []))
  = Ok (mkResponse "Page Not Found" 404 (Some "") (response_headers [])).
Proof.
  apply (@unacceptable_falls_back_to_plain_text spec_mimeparser ascii_lib 1%positive
           (mkRequest [("accept", "image/png")] []));
    [reflexivity|discriminate|vm_compute; reflexivity].
Defined.

Lemma formatters_need_error_msg_witness :
  @get_xml_error_response ascii_lib (ARequest 1%positive)
    "application/xml; charset=utf-8" 500 7%positive
    (with_context 7%positive [("details", PStr "lost")] json_world)
  = (Raise (KeyError "error_msg"),
     with_context 7%positive [("details", PStr "lost")] json_world).
Proof.
  apply (@formatters_need_error_msg ascii_lib
           "application/xml; charset=utf-8" (@get_xml_error_response ascii_lib)
           (ARequest 1%positive) 500 7%positive [("details", PStr "lost")]);
    reflexivity.
Defined.

Lemma error_response_frame_witness :
  w_dicts context_world !! 7%positive = Some caller_context
  /\ w_dicts (snd (@build_error_response spec_mimeparser ascii_lib (ARequest 1%positive)
                     404 "Page Not Found" None None PNone None context_world))
       !! 7%positive = Some caller_context.
Proof.
  split; [reflexivity|].
  apply (proj1 (proj2 (proj2 (proj2
           (@error_response_frame spec_mimeparser ascii_lib (ARequest 1%positive) 404
              "Page Not Found" None PNone context_world))))).
  reflexivity.
Defined.

Lemma pydict_get_None_keys {V} k (d : list (string * V)) :
  pydict.get k d = None -> ~ In k (pydict.keys d).
Proof.
  intros Hget Hin. destruct (pydict_get_In_keys _ _ Hin) as [v Hv]. congruence.
Qed.

Lemma list_remove_missing x l :
  ~ In x l -> list_remove x l = Raise (ValueError "list.remove(x): x not in list").
Proof.
  induction l as [|y l IH]; [reflexivity|]. intros Hnot. cbn [list_remove].
  destruct (String.eqb y x) eqn:E.
  - apply String.eqb_eq in E. subst. destruct Hnot. left. reflexivity.
  - rewrite IH; [reflexivity|]. intros Hin. apply Hnot. right. exact Hin.
Qed.

Section BuildResponseKeys.
Context `{Mimeparser} `{Library}.

(** X23: [build_response] relies on two keys of the table it is given.
    For a request that is not an [XMLHttpRequest] one, a table without the
    fallback key, the empty string, makes [list.remove] raise
    [ValueError]; for an [XMLHttpRequest] request, a table without the
    JSON key raises [No suitable formatter found].  In both cases no
    formatter has run and the state is unchanged. *)
Theorem build_response_needs_its_keys l r status_code c formatters headers w :
  w_requests w !! l = Some r ->
  (headers_get_default (req_headers r) "X-Requested-With" "" <> "XMLHttpRequest" ->
   pydict.get "" formatters = None ->
   build_response (ARequest l) status_code c formatters headers w
   = (Raise (ValueError "list.remove(x): x not in list"), w))
  /\ (headers_get_default (req_headers r) "X-Requested-With" "" = "XMLHttpRequest" ->
      pydict.get "application/json; charset=utf-8" formatters = None ->
      build_response (ARequest l) status_code c formatters headers w
      = (Raise (Exception "No suitable formatter found"), w)).
Proof.
  intros Hl. rewrite (build_response_live l r); [|exact Hl]. unfold negotiate. split.
  - intros Hxhr Hkey. apply String.eqb_neq in Hxhr. rewrite Hxhr.
    rewrite (list_remove_missing _ _ (pydict_get_None_keys _ _ Hkey)). reflexivity.
  - intros Hxhr Hkey. rewrite Hxhr. cbn [String.eqb Ascii.eqb Bool.eqb].
    rewrite Hkey. reflexivity.
Qed.

End BuildResponseKeys.

Lemma build_response_needs_its_keys_witness :
  @build_response spec_mimeparser (ARequest 1%positive) 500 7%positive
    [("text/html", custom_formatter)] None context_world
  = (Raise (ValueError "list.remove(x): x not in list"), context_world).
Proof.
  apply (proj1 (@build_response_needs_its_keys spec_mimeparser 1%positive demo_request
                  500 7%positive [("text/html", custom_formatter)] None context_world
                  eq_refl)).
  - discriminate.
  - reflexivity.
Defined.

(** ** What the formatters accept *)

(** A loop raises when its body raises on one of the visited values,
    whatever the state of the loop is by then. *)
Lemma for_each_raises {A S : Type} (body : S -> A -> outcome S) x l :
  In x l ->
  (forall s, exists e, body s x = Raise e) ->
  forall s, exists e, for_each l body s = Raise e.
Proof.
  intros Hin Hbody. induction l as [|y l IH]; [destruct Hin|].
  intros s. cbn [for_each]. destruct Hin as [->|Hin].
  - destruct (Hbody s) as [e ->]. exists e. reflexivity.
  - destruct (body s y) as [s'|e]; [apply (IH Hin)|exists e; reflexivity].
Qed.

Section FormatterInputs.
Context `{Library}.

Lemma xml_details_item_scalar details key value element :
  pydict.get key details = Some value ->
  is_str value = false ->
  has_iter value = false ->
  exists e, xml_details_item (PDict details) element (PStr key) = Raise e.
Proof.
  intros Hget Hstr Hiter. unfold xml_details_item.
  destruct (etree.Element (PStr key)) as [el|e]; [|exists e; reflexivity].
  cbn [obind py_getitem]. rewrite Hget. cbn [obind]. rewrite Hstr, Hiter.
  destruct value; try discriminate; eexists; reflexivity.
Qed.

(** X14: the XML formatter cannot render a [details] mapping in which some
    value is [None], a boolean or an integer: such a value is no string and
    has no [__iter__], so the loop reaches its last branch, which iterates
    over the value and raises.  The JSON formatter renders the same
    context whenever its values are serialisable. *)
Theorem xml_rejects_scalar_values context error_msg details key value :
  pydict.get "error_msg" context = Some error_msg ->
  pydict.get "details" context = Some (PDict details) ->
  pydict.get key details = Some value ->
  is_str value = false ->
  has_iter value = false ->
  (exists e, render_error "application/xml; charset=utf-8" context = Raise e)
  /\ (json.serializable (PDict details) = true ->
      render_error "application/json; charset=utf-8" context
      = Ok (json.encode (PDict [("description", PStr (py_str error_msg));
                                ("details", PDict details)]))).
Proof.
  intros Hmsg Hdet Hget Hstr Hiter. unfold render_error.
  cbn [String.eqb Ascii.eqb Bool.eqb]. split.
  - unfold xml_error_doc, context_item. rewrite Hmsg. cbn [obind].
    destruct (etree.set_text _ _) as [description|e]; [|exists e; reflexivity].
    cbn [obind]. rewrite Hdet. cbn [is_str py_iter obind].
    destruct (for_each_raises (xml_details_item (PDict details)) (PStr key)
                (map (fun kv => PStr (fst kv)) details)) with
      (s := etree.Elem "details" None []) as [e He].
    + apply (in_map (fun kv => PStr (fst kv))) with (x := (key, value)).
      clear - Hget. induction details as [|[k v] d IH]; [discriminate|].
      cbn [pydict.get] in Hget. destruct (String.eqb k key) eqn:E.
      * apply String.eqb_eq in E. injection Hget as ->. subst. left. reflexivity.
      * right. apply IH, Hget.
    + intros s. apply (xml_details_item_scalar details key value s Hget Hstr Hiter).
    + rewrite He. exists e. reflexivity.
  - intros Hser. unfold json_error_body, context_item. rewrite Hmsg, Hdet.
    cbn [obind pydict.set String.eqb Ascii.eqb Bool.eqb].
    unfold json.dumps.
    change (json.serializable
              (PDict [("description", PStr (py_str error_msg));
                      ("details", PDict details)]))
      with (json.serializable (PDict details) && true).
    rewrite Hser. reflexivity.
Qed.

(** X15: the details are left out when the context holds [None] for them
    or holds no such entry: the JSON body is the description alone, the
    XML document has no [details] element, and the plain text body is the
    message. *)
Theorem details_omitted_when_none context error_msg :
  pydict.get "error_msg" context = Some (PStr error_msg) ->
  pydict.get "details" context = None \/ pydict.get "details" context = Some PNone ->
  render_error "application/json; charset=utf-8" context
  = Ok (json.encode (PDict [("description", PStr error_msg)]))
  /\ (xml_text_ok error_msg = true ->
      render_error "application/xml; charset=utf-8" context
      = Ok (etree.tostring (xml_document error_msg None)))
  /\ render_error "text/plain; charset=utf-8" context = Ok error_msg.
Proof.
  intros Hmsg Hdet. unfold render_error. cbn [String.eqb Ascii.eqb Bool.eqb].
  unfold json_error_body, xml_error_doc, context_item. rewrite Hmsg.
  cbn [obind py_str etree.set_text].
  split; [|split].
  - destruct Hdet as [-> | ->]; reflexivity.
  - intros ->. cbn [obind]. destruct Hdet as [-> | ->]; reflexivity.
  - reflexivity.
Qed.

End FormatterInputs.

Lemma xml_rejects_scalar_values_witness :
  (exists e,
     @render_error ascii_lib "application/xml; charset=utf-8"
       (default_context "Invalid Payload" (PDict [("code", PInt 42)])) = Raise e)
  /\ @render_error ascii_lib "application/json; charset=utf-8"
       (default_context "Invalid Payload" (PDict [("code", PInt 42)]))
     = Ok (json.encode (PDict [("description", PStr "Invalid Payload");
                               ("details", PDict [("code", PInt 42)])])).
Proof.
  pose proof (@xml_rejects_scalar_values ascii_lib
                (default_context "Invalid Payload" (PDict [("code", PInt 42)]))
                (PStr "Invalid Payload") [("code", PInt 42)] "code" (PInt 42)
                eq_refl eq_refl eq_refl eq_refl eq_refl) as [Hxml Hjson].
  split; [exact Hxml|apply Hjson; reflexivity].
Defined.

Lemma details_omitted_when_none_witness :
  @render_error ascii_lib "application/json; charset=utf-8"
    [("error_msg", PStr "Page Not Found")]
  = Ok (json.encode (PDict [("description", PStr "Page Not Found")]))
  /\ @render_error ascii_lib "application/xml; charset=utf-8"
       [("error_msg", PStr "Page Not Found")]
     = Ok "<error><description>Page Not Found</description></error>".
Proof.
  pose proof (@details_omitted_when_none ascii_lib
                [("error_msg", PStr "Page Not Found")] "Page Not Found"
                eq_refl (or_introl eq_refl)) as (Hjson & Hxml & _).
  split; [exact Hjson|apply Hxml; reflexivity].
Defined.

(** ** The headers of a response *)

Lemma pydict_keys_set {V} k (v : V) d :
  pydict.keys (pydict.set k v d)
  = if pydict.mem k d then pydict.keys d else pydict.keys d ++ [k].
Proof.
  unfold pydict.mem. induction d as [|[k' v'] d IH]; [reflexivity|].
  cbn [pydict.set pydict.get]. destruct (String.eqb k' k) eqn:E.
  - apply String.eqb_eq in E. subst. reflexivity.
  - cbn [pydict.keys map fst]. fold (pydict.keys (pydict.set k v d)).
    rewrite IH. destruct (pydict.get k d); reflexivity.
Qed.

Lemma pydict_set_wf {V} k (v : V) d : pydict.wf d -> pydict.wf (pydict.set k v d).
Proof.
  unfold pydict.wf. intros Hwf. rewrite pydict_keys_set. unfold pydict.mem.
  destruct (pydict.get k d) as [x|] eqn:E; [exact Hwf|].
  apply List.NoDup_rev in Hwf. rewrite <- (rev_involutive (_ ++ _)).
  apply List.NoDup_rev. rewrite rev_app_distr. cbn [rev app].
  constructor; [|exact Hwf].
  rewrite <- in_rev. intros Hin. destruct (pydict_get_In_keys _ _ Hin) as [x Hx].
  congruence.
Qed.

(** X16: the headers a caller passes reach the response under their names
    in lower case.  Header names are compared without regard to case: of
    two entries whose names differ in case only, the later replaces the
    earlier, and no name occurs twice in the response. *)
Theorem response_headers_last_wins headers name :
  pydict.get name (response_headers headers)
  = pydict.get name (rev (map (fun kv => (lower (fst kv), snd kv)) headers))
  /\ pydict.wf (response_headers headers).
Proof.
  unfold response_headers. induction headers as [|[k v] hs IH] using rev_ind.
  - split; [reflexivity|constructor].
  - rewrite fold_left_app, map_app, rev_app_distr. cbn [fold_left map rev app fst snd].
    destruct IH as [IHget IHwf]. split.
    + rewrite pydict_get_set_cases. cbn [pydict.get]. rewrite IHget. reflexivity.
    + apply pydict_set_wf, IHwf.
Qed.

(** ** More on the guards *)

Section MoreGuards.
Context `{Mimeparser} `{Library}.

Lemma consumes_wrapper_live mime_types handler args kwargs l r w :
  request_of kwargs = ARequest l ->
  w_requests w !! l = Some r ->
  consumes_wrapper mime_types handler args kwargs w
  = (if negb (pystr.mem (content_type_of r) mime_types)
     then let* resp := build_error_response (ARequest l) 415
                         "Unsupported request media type" None None PNone None in
          ret (AResponse resp)
     else delegate handler args kwargs)
      (with_request l (with_attr "mimetype" (content_type_of r) r) w).
Proof.
  intros Hreq Hl. unfold consumes_wrapper. fold (request_of kwargs). rewrite Hreq.
  unfold bind at 1. destruct (get_content_type_live l r w Hl) as [ps ->].
  unfold bind at 1. cbn [fst].
  rewrite (request_setattr_live _ _ _ _ _ Hl).
  unfold bind at 1. rewrite request_getattr_set. reflexivity.
Qed.

Lemma declares_wrapped handler body name :
  declares (wrapped handler body) name = declares handler name.
Proof. reflexivity. Qed.

(** X17: when the negotiation between [mime_types] and the [Accept]
    header of the request succeeds, the wrapper of [produces] stores the
    negotiated type in the attribute [best_response_mimetype] of the
    request and runs the handler on the request that carries the
    attribute; what the handler returns or raises is the result. *)
Theorem produces_runs_handler mime_types handler args kwargs l r w :
  request_of kwargs = ARequest l ->
  w_requests w !! l = Some r ->
  best_match mime_types (accept_of r) <> "" ->
  let best := best_match mime_types (accept_of r) in
  let w1 := with_request l (with_attr "best_response_mimetype" best r) w in
  produces_wrapper mime_types handler args kwargs w
  = run_body handler args kwargs w1
  /\ w_requests w1 !! l = Some (with_attr "best_response_mimetype" best r)
  /\ pydict.get "best_response_mimetype"
       (req_attrs (with_attr "best_response_mimetype" best r)) = Some best
  /\ req_headers (with_attr "best_response_mimetype" best r) = req_headers r.
Proof.
  intros Hreq Hl Hbest best w1.
  rewrite (produces_wrapper_live _ _ _ _ _ _ _ Hreq Hl).
  apply String.eqb_neq in Hbest. rewrite Hbest.
  split; [apply delegate_runs_body|]. split; [apply with_request_lookup|].
  split; [apply pydict_get_set|reflexivity].
Qed.

(** X18: the guards stack, in the order [routes.py] uses them:
    [produces] over [authentication_required].  A wrapper has the name and
    the signature of the handler it wraps, so the second decorator accepts
    what the first returns.  The stacked wrapper negotiates first: when
    nothing is acceptable it answers 406, whoever the user is, and starts
    nothing; otherwise it starts the inner wrapper, which answers 401 for
    a missing user and else runs the handler, on the request that carries
    the negotiated type. *)
Theorem guards_stack mime_types handler :
  declares handler "user" = true ->
  declares handler "request" = true ->
  exists guarded stacked,
    authentication_required handler = Ok guarded
    /\ produces mime_types guarded = Ok stacked
    /\ h_name stacked = h_name handler
    /\ h_params stacked = h_params handler
    /\ forall args kwargs l r w,
         best_match_in_range ->
         xml_text_ok "Authentication Required" = true ->
         request_of kwargs = ARequest l ->
         w_requests w !! l = Some r ->
         let best := best_match mime_types (accept_of r) in
         let w1 := with_request l (with_attr "best_response_mimetype" best r) w in
         (best = "" ->
          exists content_type w',
            h_body stacked args kwargs w
            = (match render_error content_type
                       (default_context not_acceptable_msg
                          (supported_details mime_types)) with
               | Ok body => Ok (AResponse (mkResponse body 406 (Some content_type) []))
               | Raise e => Raise e
               end, w')
            /\ w_calls w' = w_calls w)
         /\ (best <> "" -> is_none (user_of kwargs) = true ->
             exists body content_type w',
               h_body stacked args kwargs w
               = (Ok (AResponse (mkResponse body 401 (Some content_type) [])), w')
               /\ w_calls w' = w_calls w ++ [h_name handler])
         /\ (best <> "" -> is_none (user_of kwargs) = false ->
             h_body stacked args kwargs w
             = run_body handler args kwargs (log_call (h_name handler) w1)).
Proof.
  intros Huser Hrequest.
  exists (wrapped handler (authentication_required_wrapper handler)).
  exists (wrapped (wrapped handler (authentication_required_wrapper handler))
            (produces_wrapper mime_types
               (wrapped handler (authentication_required_wrapper handler)))).
  split.
  { unfold authentication_required. rewrite check_decorator_params_spec.
    cbn [find]. rewrite Huser, Hrequest. reflexivity. }
  split.
  { unfold produces. rewrite check_decorator_params_spec.
    cbn [find]. rewrite declares_wrapped, Hrequest. reflexivity. }
  split; [reflexivity|]. split; [reflexivity|].
  intros args kwargs l r w Hrange Htext Hreq Hl best w1.
  cbn [h_body wrapped].
  rewrite (produces_wrapper_live _ _ _ _ _ _ _ Hreq Hl). fold best. fold w1.
  split; [|split].
  - intros Hbest. rewrite Hbest. cbn [String.eqb].
    destruct (build_error_response_builtin l (with_attr "best_response_mimetype" best r)
                406 not_acceptable_msg None (supported_details mime_types) w1 Hrange
                (with_request_lookup _ _ _)) as (ct & _ & _ & Hrun).
    exists ct. eexists. unfold bind, ret. rewrite Hbest, Hrun.
    split; [destruct (render_error _ _); reflexivity|reflexivity].
  - intros Hbest Hnone. apply String.eqb_neq in Hbest. rewrite Hbest.
    rewrite delegate_runs_body. unfold run_body. cbn [h_body h_name wrapped].
    unfold authentication_required_wrapper.
    fold (user_of kwargs). fold (request_of kwargs). rewrite Hnone, Hreq.
    destruct (build_error_response_message l
                (with_attr "best_response_mimetype" best r) 401
                "Authentication Required" (log_call (h_name handler) w1)
                Hrange Htext (with_request_lookup _ _ _))
      as (body & ct & _ & _ & Hrun).
    exists body, ct. eexists. unfold bind, ret. rewrite Hrun.
    split; reflexivity.
  - intros Hbest Hsome. apply String.eqb_neq in Hbest. rewrite Hbest.
    rewrite delegate_runs_body. unfold run_body at 1. cbn [h_body h_name wrapped].
    unfold authentication_required_wrapper.
    fold (user_of kwargs). rewrite Hsome. apply delegate_runs_body.
Qed.

(** X19: a request without a [Content-Type] header, or with one that
    [parse_mime_type] rejects, has the empty string for its type.  The
    wrapper of [consumes] stores it in the attribute [mimetype] and
    answers 415 without starting the handler, unless the empty string is
    one of [mime_types], in which case the handler runs. *)
Theorem consumes_without_content_type mime_types handler args kwargs l r w :
  best_match_in_range ->
  xml_text_ok "Unsupported request media type" = true ->
  request_of kwargs = ARequest l ->
  w_requests w !! l = Some r ->
  match headers_get (req_headers r) "Content-Type" with
  | Some header => parse_mime_type header = None
  | None => True
  end ->
  let w1 := with_request l (with_attr "mimetype" "" r) w in
  (pystr.mem "" mime_types = false ->
   exists body content_type w',
     consumes_wrapper mime_types handler args kwargs w
     = (Ok (AResponse (mkResponse body 415 (Some content_type) [])), w')
     /\ w_calls w' = w_calls w
     /\ w_requests w' !! l = Some (with_attr "mimetype" "" r))
  /\ (pystr.mem "" mime_types = true ->
      consumes_wrapper mime_types handler args kwargs w
      = run_body handler args kwargs w1).
Proof.
  intros Hrange Htext Hreq Hl Hheader w1.
  assert (Htype : content_type_of r = "").
  { unfold content_type_of. destruct (headers_get _ _) as [h|]; [|reflexivity].
    rewrite Hheader. reflexivity. }
  rewrite (consumes_wrapper_live _ _ _ _ _ _ _ Hreq Hl), Htype. fold w1.
  split; intros Hmem; rewrite Hmem; cbn [negb].
  - destruct (build_error_response_message l (with_attr "mimetype" "" r) 415
                "Unsupported request media type" w1 Hrange Htext
                (with_request_lookup _ _ _)) as (body & ct & _ & _ & Hrun).
    exists body, ct. eexists. unfold bind, ret. rewrite Hrun.
    split; [reflexivity|]. split; [reflexivity|].
    rewrite with_context_requests. apply with_request_lookup.
  - apply delegate_runs_body.
Qed.

End MoreGuards.

Lemma produces_runs_handler_witness :
  @best_match spec_mimeparser ["application/json"] (accept_of json_request)
  = "application/json"
  /\ @produces_wrapper spec_mimeparser ascii_lib ["application/json"] sync_handler []
       [("request", ARequest 1%positive)] json_world
     = run_body sync_handler [] [("request", ARequest 1%positive)]
         (with_request 1%positive
            (with_attr "best_response_mimetype" "application/json" json_request)
            json_world).
Proof.
  split; [vm_compute; reflexivity|].
  apply (@produces_runs_handler spec_mimeparser ascii_lib ["application/json"]
           sync_handler [] [("request", ARequest 1%positive)] 1%positive json_request
           json_world eq_refl eq_refl).
  vm_compute. discriminate.
Defined.

Lemma guards_stack_witness :
  exists guarded stacked,
    @authentication_required spec_mimeparser ascii_lib sync_handler = Ok guarded
    /\ @produces spec_mimeparser ascii_lib ["application/json"] guarded = Ok stacked
    /\ h_body stacked []
         [("request", ARequest 1%positive); ("user", AObject "alice")] json_world
       = run_body sync_handler []
           [("request", ARequest 1%positive); ("user", AObject "alice")]
           (log_call "sync_handler"
              (with_request 1%positive
                 (with_attr "best_response_mimetype" "application/json" json_request)
                 json_world))
    /\ exists body content_type w',
         h_body stacked [] [("request", ARequest 1%positive); ("user", ANone)]
           json_world
         = (Ok (AResponse (mkResponse body 401 (Some content_type) [])), w')
         /\ w_calls w' = w_calls json_world ++ ["sync_handler"].
Proof.
  destruct (@guards_stack spec_mimeparser ascii_lib ["application/json"] sync_handler
              eq_refl eq_refl) as (guarded & stacked & Hauth & Hprod & _ & _ & Hrun).
  exists guarded, stacked. split; [exact Hauth|]. split; [exact Hprod|]. split.
  - pose proof (Hrun [] [("request", ARequest 1%positive); ("user", AObject "alice")]
                  1%positive json_request json_world spec_best_match_in_range
                  eq_refl eq_refl eq_refl) as Hcase.
    cbv zeta in Hcase. destruct Hcase as (_ & _ & Hok).
    apply Hok; [vm_compute; discriminate|reflexivity].
  - pose proof (Hrun [] [("request", ARequest 1%positive); ("user", ANone)]
                  1%positive json_request json_world spec_best_match_in_range
                  eq_refl eq_refl eq_refl) as Hcase.
    cbv zeta in Hcase. destruct Hcase as (_ & Hrefuse & _).
    apply Hrefuse; [vm_compute; discriminate|reflexivity].
Defined.

Lemma consumes_without_content_type_witness :
  headers_get (req_headers demo_request) "Content-Type" = None
  /\ (exists body content_type w',
        @consumes_wrapper spec_mimeparser ascii_lib ["application/json"] sync_handler
          [] [("request", ARequest 1%positive)] demo_world
        = (Ok (AResponse (mkResponse body 415 (Some content_type) [])), w')
        /\ w_calls w' = w_calls demo_world
        /\ w_requests w' !! 1%positive = Some (with_attr "mimetype" "" demo_request))
  /\ @consumes_wrapper spec_mimeparser ascii_lib [""; "application/json"] sync_handler
       [] [("request", ARequest 1%positive)] demo_world
     = run_body sync_handler [] [("request", ARequest 1%positive)]
         (with_request 1%positive (with_attr "mimetype" "" demo_request) demo_world).
Proof.
  split; [reflexivity|]. split.
  - apply (proj1 (@consumes_without_content_type spec_mimeparser ascii_lib
                    ["application/json"] sync_handler []
                    [("request", ARequest 1%positive)] 1%positive demo_request
                    demo_world spec_best_match_in_range eq_refl eq_refl eq_refl I)).
    reflexivity.
  - apply (proj2 (@consumes_without_content_type spec_mimeparser ascii_lib
                    [""; "application/json"] sync_handler []
                    [("request", ARequest 1%positive)] 1%positive demo_request
                    demo_world spec_best_match_in_range eq_refl eq_refl eq_refl I)).
    reflexivity.
Defined.

(** ** More on the download helper *)

Lemma unquote_no_percent s :
  pystr.contains "%"%char s = false -> urllib.unquote s = s.
Proof. intros Hs. unfold urllib.unquote. rewrite Hs. reflexivity. Qed.

Lemma join_split sep s : pystr.join (String sep "") (pystr.split sep s) = s.
Proof.
  unfold pystr.join. induction s as [|c s IH]; [reflexivity|].
  cbn [pystr.split]. destruct (Ascii.eqb c sep) eqn:E.
  - apply Ascii.eqb_eq in E. subst c. rewrite concat_cons.
    destruct (pystr.split sep s) eqn:Es; [destruct (split_nonnil _ _ Es)|].
    rewrite IH, str_app_nil_l, str_app_cons, str_app_nil_l. reflexivity.
  - destruct (pystr.split sep s) as [|h t] eqn:Es; [destruct (split_nonnil _ _ Es)|].
    rewrite concat_cons. rewrite concat_cons in IH.
    destruct t; [rewrite <- IH; reflexivity|].
    rewrite str_app_cons, IH. reflexivity.
Qed.

Lemma normpath_loop_clean comps : forall acc,
  Forall plain_component comps ->
  Forall (fun part => kept part = true) comps ->
  fold_left (posixpath.normpath_step 0) comps acc = acc ++ comps.
Proof.
  induction comps as [|comp comps IH]; intros acc Hplain Hkept.
  - rewrite List.app_nil_r. reflexivity.
  - inversion Hplain as [|? ? [Hne _] Hplain']; subst.
    inversion Hkept as [|? ? Hk Hkept']; subst.
    cbn [fold_left]. unfold posixpath.normpath_step at 2.
    unfold kept in Hk. apply negb_true_iff, orb_false_iff in Hk as [Hcur Hpar].
    apply String.eqb_neq in Hne. rewrite Hne, Hcur, Hpar. cbn [orb negb].
    rewrite IH by assumption. rewrite <- List.app_assoc. reflexivity.
Qed.

Lemma filter_all {A} (f : A -> bool) l :
  Forall (fun x => f x = true) l -> List.filter f l = l.
Proof.
  induction 1 as [|x l Hx _ IH]; [reflexivity|].
  cbn [List.filter]. rewrite Hx, IH. reflexivity.
Qed.

(** A path made of plain components does not start with a separator and
    is not empty. *)
Lemma clean_path_head path :
  Forall plain_component (pystr.split "/"%char path) ->
  exists c rest, path = String c rest /\ Ascii.eqb c "/"%char = false.
Proof.
  intros Hplain. destruct path as [|c rest].
  - inversion Hplain as [|? ? [Hne _] _]. congruence.
  - exists c, rest. split; [reflexivity|].
    destruct (Ascii.eqb c "/"%char) eqn:E; [|reflexivity].
    cbn [pystr.split] in Hplain. rewrite E in Hplain.
    inversion Hplain as [|? ? [Hne _] _]. congruence.
Qed.

Lemma normpath_clean path :
  Forall plain_component (pystr.split "/"%char path) ->
  Forall (fun part => kept part = true) (pystr.split "/"%char path) ->
  posixpath.normpath path = path.
Proof.
  intros Hplain Hkept.
  destruct (clean_path_head path Hplain) as (c & rest & -> & Hc).
  unfold posixpath.normpath. cbn [String.eqb].
  rewrite startswith_sep, Hc. cbv zeta. unfold posixpath.sep.
  rewrite (normpath_loop_clean _ [] Hplain Hkept). cbn [app].
  rewrite (join_split "/"%char). reflexivity.
Qed.

Section CleanPath.
Context `{Mimeparser} `{Library}.

(** X20: a requested path without a percent sign whose components are
    plain, none of them [.] or [..], passes the normalisation and the loop
    unchanged and is never redirected: the answer is the file at
    [base_dir] joined with the path as requested, or the 404 response when
    there is no such file.  With [USE_XSENDFILE] the file is named in the
    [X-Sendfile] header, Latin-1 encoded, and the call raises when the
    name cannot be encoded. *)
Theorem clean_path_is_served settings request file_path base_dir w :
  pystr.contains "%"%char file_path = false ->
  Forall plain_component (pystr.split "/"%char file_path) ->
  Forall (fun part => kept part = true) (pystr.split "/"%char file_path) ->
  normalized_path file_path = file_path
  /\ reconstructed_path file_path = file_path
  /\ build_downloadfile_response settings request file_path base_dir w
     = let fullpath := posixpath.join base_dir file_path in
       if negb (w_isfile w fullpath) then build_not_found_response request w
       else if negb (match USE_XSENDFILE settings with
                     | Some b => b
                     | None => false
                     end)
       then (Ok (FileResponse fullpath "application/octet-stream"), w)
       else (match encode_latin1 fullpath with
             | Ok value => Ok (mkResponse "" 200 None [("x-sendfile", value)])
             | Raise e => Raise e
             end, w).
Proof.
  intros Hpercent Hplain Hkept.
  assert (Hnorm : normalized_path file_path = file_path).
  { unfold normalized_path.
    rewrite (unquote_no_percent _ Hpercent), (normpath_clean _ Hplain Hkept).
    destruct (clean_path_head _ Hplain) as (c & rest & -> & Hc).
    cbn [pystr.lstrip]. rewrite Hc. reflexivity. }
  assert (Hloop : reconstructed_path file_path = file_path).
  { rewrite (reconstructed_path_discards _ Hplain), (filter_all _ _ Hkept).
    apply join_split. }
  split; [exact Hnorm|]. split; [exact Hloop|].
  rewrite download_no_redirect; rewrite Hnorm, Hloop; [reflexivity|].
  right. reflexivity.
Qed.

End CleanPath.

Lemma clean_path_is_served_witness :
  normalized_path "etc/passwd" = "etc/passwd"
  /\ reconstructed_path "etc/passwd" = "etc/passwd"
  /\ @build_downloadfile_response spec_mimeparser ascii_lib (mkSettings (Some true))
       (ARequest 1%positive) "etc/passwd" "/srv/files" demo_world
     = (Ok (mkResponse "" 200 None [("x-sendfile", "/srv/files/etc/passwd")]),
        demo_world).
Proof.
  apply (@clean_path_is_served spec_mimeparser ascii_lib (mkSettings (Some true))
           (ARequest 1%positive) "etc/passwd" "/srv/files" demo_world).
  - reflexivity.
  - repeat constructor; discriminate.
  - repeat constructor.
Defined.

Lemma sanitize_step_nonempty np part :
  pystr.contains "/"%char part = false ->
  pystr.nonempty np = true ->
  pystr.nonempty (sanitize_step np part) = true.
Proof.
  intros Hsep Hnp. rewrite (sanitize_step_no_sep _ _ Hsep).
  destruct (_ || _); [exact Hnp|].
  unfold posixpath.join. rewrite (startswith_sep_no_sep _ Hsep), Hnp. cbn [negb orb].
  destruct np as [|c np]; [discriminate|].
  destruct (pystr.endswith _ _); rewrite str_app_cons; reflexivity.
Qed.

Lemma sanitize_step_backslash np part :
  pystr.contains "/"%char part = false ->
  pystr.contains "\"%char part = true ->
  pystr.nonempty (sanitize_step np part) = true.
Proof.
  intros Hsep Hback. rewrite (sanitize_step_no_sep _ _ Hsep).
  destruct (String.eqb part posixpath.curdir) eqn:Ecur.
  { apply String.eqb_eq in Ecur. subst. discriminate. }
  destruct (String.eqb part posixpath.pardir) eqn:Epar.
  { apply String.eqb_eq in Epar. subst. discriminate. }
  cbn [orb]. unfold posixpath.join. rewrite (startswith_sep_no_sep _ Hsep).
  destruct part as [|c part]; [discriminate|].
  destruct np as [|d np]; [reflexivity|].
  cbn [pystr.nonempty negb orb].
  destruct (pystr.endswith _ _); rewrite str_app_cons; reflexivity.
Qed.

Lemma sanitize_loop_nonempty parts : forall np,
  Forall (fun p => pystr.contains "/"%char p = false) parts ->
  pystr.nonempty np = true
  \/ Exists (fun p => pystr.contains "\"%char p = true) parts ->
  pystr.nonempty (fold_left sanitize_step parts np) = true.
Proof.
  induction parts as [|part parts IH]; intros np Hsep Hcase.
  - destruct Hcase as [Hnp|Hex]; [exact Hnp|inversion Hex].
  - inversion Hsep as [|? ? Hpart Hsep']; subst. cbn [fold_left].
    apply IH; [exact Hsep'|].
    destruct Hcase as [Hnp|Hex].
    + left. apply sanitize_step_nonempty; assumption.
    + inversion Hex as [? ? Hback|? ? Hex']; subst.
      * left. apply sanitize_step_backslash; assumption.
      * right. exact Hex'.
Qed.

Lemma split_exists_contains c sep s :
  pystr.contains c s = true ->
  Ascii.eqb sep c = false ->
  Exists (fun p => pystr.contains c p = true) (pystr.split sep s).
Proof.
  intros Hs Hne. induction s as [|d s IH]; [discriminate|].
  cbn [pystr.contains] in Hs. cbn [pystr.split].
  destruct (Ascii.eqb d sep) eqn:Ed.
  - apply Ascii.eqb_eq in Ed. subst d. rewrite Hne in Hs. cbn [orb] in Hs.
    right. apply IH, Hs.
  - destruct (pystr.split sep s) as [|h t] eqn:Es; [destruct (split_nonnil _ _ Es)|].
    destruct (Ascii.eqb d c) eqn:Edc.
    + left. cbn [pystr.contains]. rewrite Edc. reflexivity.
    + cbn [orb] in Hs. specialize (IH Hs).
      inversion IH as [? ? Hh|? ? Ht]; subst.
      * left. cbn [pystr.contains]. rewrite Hh. apply orb_true_r.
      * right. exact Ht.
Qed.

Lemma ascii_eqb_by_code c a :
  N_of_ascii c <> N_of_ascii a -> Ascii.eqb c a = false.
Proof. intros Hne. apply Ascii.eqb_neq. congruence. Qed.

(** The Latin-1 encoding keeps the ASCII characters where they are and
    adds none. *)
Lemma encode_latin1_contains_both a s :
  (N_of_ascii a < 128)%N ->
  (forall t, encode_latin1 s = Ok t -> pystr.contains a t = pystr.contains a s)
  /\ (forall c t, encode_latin1 (String c s) = Ok t ->
                  pystr.contains a t = pystr.contains a (String c s)).
Proof.
  intros Ha. induction s as [|c' s [IH0 IH1]].
  - split; [intros t [= <-]; reflexivity|]. intros c t. rewrite encode_latin1_cons.
    destruct (N_of_ascii c <? 128)%N; [|discriminate]. intros [= <-]. reflexivity.
  - split; [exact (IH1 c')|]. intros c t. rewrite encode_latin1_cons.
    destruct (N_of_ascii c <? 128)%N eqn:Ec.
    + destruct (encode_latin1 (String c' s)) as [t0|e] eqn:E; cbn [obind];
        [|discriminate].
      intros [= <-]. cbn [pystr.contains]. rewrite (IH1 c' t0 E). reflexivity.
    + destruct (_ && _) eqn:Econd; [|discriminate].
      destruct (encode_latin1 s) as [t0|e] eqn:E; cbn [obind]; [|discriminate].
      intros [= <-]. cbn [pystr.contains]. rewrite (IH0 t0 eq_refl).
      apply andb_true_iff in Econd as [Hlead Hcont].
      unfold utf8.byte_in in Hcont. apply andb_true_iff in Hcont as [Hlo Hhi].
      apply N.leb_le in Hlo, Hhi. apply N.ltb_ge in Ec.
      assert (Hc : Ascii.eqb c a = false) by (apply ascii_eqb_by_code; lia).
      assert (Hc' : Ascii.eqb c' a = false) by (apply ascii_eqb_by_code; lia).
      rewrite Hc, Hc'. cbn [orb].
      rewrite ascii_eqb_by_code; [reflexivity|].
      rewrite N_ascii_embedding.
      * apply orb_true_iff in Hlead as [Hl|Hl]; apply N.eqb_eq in Hl; lia.
      * apply orb_true_iff in Hlead as [Hl|Hl]; apply N.eqb_eq in Hl; lia.
Qed.

Lemma encode_latin1_contains a s t :
  (N_of_ascii a < 128)%N ->
  encode_latin1 s = Ok t -> pystr.contains a t = pystr.contains a s.
Proof. intros Ha. apply (proj1 (encode_latin1_contains_both a s Ha)). Qed.

Lemma encode_latin1_nonempty s t :
  encode_latin1 s = Ok t -> s <> "" -> t <> "".
Proof.
  destruct s as [|c s]; [congruence|]. rewrite encode_latin1_cons. intros Henc _.
  destruct (N_of_ascii c <? 128)%N.
  - destruct (encode_latin1 s); [|discriminate]. injection Henc as <-. discriminate.
  - destruct s as [|c' s]; [discriminate|]. destruct (_ && _); [|discriminate].
    destruct (encode_latin1 s); [|discriminate]. injection Henc as <-. discriminate.
Qed.

Section BackslashPath.
Context `{Mimeparser} `{Library}.

(** X21: a requested path that, decoded and normalised, still holds a
    backslash is never served under that name: the loop rewrites every
    backslash into a slash, so the reconstructed path is not empty and
    differs, and the answer is the redirect to it, whose [Location] holds
    no backslash and is not empty, or [UnicodeEncodeError] when the
    reconstructed path holds a character that Latin-1 cannot encode; the
    state is left as it is. *)
Theorem backslash_path_is_redirected settings request file_path base_dir w :
  pystr.contains "\"%char (normalized_path file_path) = true ->
  let newpath := reconstructed_path (normalized_path file_path) in
  build_downloadfile_response settings request file_path base_dir w
  = (match encode_latin1 newpath with
     | Ok location => Ok (mkResponse "" 302 None [("location", location)])
     | Raise e => Raise e
     end, w)
  /\ (forall location,
        encode_latin1 newpath = Ok location ->
        pystr.contains "\"%char location = false /\ location <> "")
  /\ (forall e,
        encode_latin1 newpath = Raise e ->
        e = UnicodeEncodeError "'latin-1' codec can't encode character").
Proof.
  intros Hback newpath.
  assert (Hne : pystr.nonempty newpath = true).
  { unfold newpath, reconstructed_path. apply sanitize_loop_nonempty.
    - apply split_parts_no_sep.
    - right. apply split_exists_contains; [exact Hback|reflexivity]. }
  assert (Hno : pystr.contains "\"%char newpath = false).
  { apply reconstructed_no_backslash. }
  assert (Hdiff : newpath <> normalized_path file_path).
  { intros Heq. rewrite Heq in Hno. congruence. }
  split; [apply download_redirect; assumption|]. split.
  - intros location Henc. split.
    + rewrite (encode_latin1_contains "\"%char _ _ eq_refl Henc). exact Hno.
    + apply (encode_latin1_nonempty _ _ Henc). intros Heq. rewrite Heq in Hne.
      discriminate.
  - intros e. apply encode_latin1_raise.
Qed.

End BackslashPath.

Lemma backslash_path_is_redirected_witness :
  normalized_path "docs%5C..%5Csecret.txt" = "docs\..\secret.txt"
  /\ @build_downloadfile_response spec_mimeparser ascii_lib (mkSettings None)
       (ARequest 1%positive) "docs%5C..%5Csecret.txt" "/srv/files" demo_world
     = (Ok (mkResponse "" 302 None [("location", "docs/../secret.txt")]), demo_world)
  /\ pystr.contains "\"%char (normalized_path "%E2%82%AC%5Cx") = true
  /\ @build_downloadfile_response spec_mimeparser ascii_lib (mkSettings None)
       (ARequest 1%positive) "%E2%82%AC%5Cx" "/srv/files" demo_world
     = (Raise (UnicodeEncodeError "'latin-1' codec can't encode character"),
        demo_world).
Proof.
  split; [reflexivity|]. split; [|split; [reflexivity|]].
  - apply (proj1 (@backslash_path_is_redirected spec_mimeparser ascii_lib
                    (mkSettings None) (ARequest 1%positive) "docs%5C..%5Csecret.txt"
                    "/srv/files" demo_world eq_refl)).
  - apply (proj1 (@backslash_path_is_redirected spec_mimeparser ascii_lib
                    (mkSettings None) (ARequest 1%positive) "%E2%82%AC%5Cx"
                    "/srv/files" demo_world eq_refl)).
Defined.
